(** * a2a-serverless-go: JSON-RPC codec, task lifecycle handler and router

    A shallow embedding of
      - the JSON-RPC codec        (package a2a: jsonrpc.go, types.go),
      - the task lifecycle handler (package a2a: server.go),
      - the JSON-RPC router        (package handler: handler.go),
      - the configuration loader   (package a2a: config.go),
    followed by the properties of the design document that concern them
    and by further properties of the code.

    Go values are modelled as follows.  [[]byte] and [string] are [string];
    [int] is [Z]; [interface{}] is the sum [any]; a pointer that is only
    tested against nil is an [option]; [(T, error)] is [result error T];
    [error] alone is [option error]; an interface of the storage layer is a record of
    functions over the state of the object behind it. *)

From Stdlib Require Import ZArith Ascii String List Bool Lia.
From Stdlib Require Import DecimalString DecimalZ DecimalPos.
From stdpp Require Import base option list strings gmap.

Import ListNotations.
Local Open Scope string_scope.
Local Open Scope Z_scope.

Set Warnings "-register-all".

(** ** encoding/json (Go standard library)

    The codec and the router hand every payload to [json.Unmarshal].  The
    module below is a model of the part of that library the repository
    relies on: the grammar of RFC 8259 as Go's scanner accepts it, and the
    rules by which a value is stored into a struct, a string, an int, a
    pointer or an [interface{}].  Number literals are kept as written (Go
    stores them as float64 in an [interface{}]); member names are matched
    to struct fields ignoring ASCII case, as the library does. *)
Module Json.

Inductive json : Type :=
| JNull
| JBool (b : bool)
| JNum (lit : string)
| JStr (s : string)
| JArr (xs : list json)
| JObj (ms : list (string * json)).

Definition dquote : ascii := "034"%char.
Definition backslash : ascii := "092"%char.

Definition is_ws (c : ascii) : bool :=
  (c =? " ")%char || (c =? "009")%char || (c =? "010")%char || (c =? "013")%char.

Fixpoint skip_ws (s : string) : string :=
  match s with
  | String c r => if is_ws c then skip_ws r else s
  | EmptyString => s
  end.

Definition is_digit (c : ascii) : bool :=
  let n := N_of_ascii c in ((48 <=? n) && (n <=? 57))%N.

Fixpoint take_digits (s : string) : string * string :=
  match s with
  | String c r =>
      if is_digit c then let '(d, r') := take_digits r in (String c d, r')
      else (EmptyString, s)
  | EmptyString => (EmptyString, EmptyString)
  end.

(** A number literal: an optional minus sign, an integer part without
    leading zero, an optional fraction and an optional exponent. *)
Definition scan_number (s : string) : option (string * string) :=
  let '(sign, s1) :=
    match s with
    | String c r => if (c =? "-")%char then ("-", r) else ("", s)
    | EmptyString => ("", s)
    end in
  let '(ip, s2) := take_digits s1 in
  let int_ok :=
    match ip with
    | EmptyString => false
    | String c EmptyString => true
    | String c _ => negb (c =? "0")%char
    end in
  if negb int_ok then None else
  let frac :=
    match s2 with
    | String c r =>
        if (c =? ".")%char then
          let '(fp, r') := take_digits r in
          match fp with
          | EmptyString => None
          | _ => Some ("." ++ fp, r')
          end
        else Some ("", s2)
    | EmptyString => Some ("", s2)
    end in
  match frac with
  | None => None
  | Some (fp, s3) =>
      match s3 with
      | String c r =>
          if (c =? "e")%char || (c =? "E")%char then
            let '(es, r1) :=
              match r with
              | String c' r' =>
                  if (c' =? "+")%char || (c' =? "-")%char
                  then (String c' EmptyString, r') else ("", r)
              | EmptyString => ("", r)
              end in
            let '(ep, r2) := take_digits r1 in
            match ep with
            | EmptyString => None
            | _ => Some (sign ++ ip ++ fp ++ String c es ++ ep, r2)
            end
          else Some (sign ++ ip ++ fp, s3)
      | EmptyString => Some (sign ++ ip ++ fp, s3)
      end
  end.

(** String literals: the scanner walks the body as a state machine and
    collects bytes and UTF-16 units ([\uXXXX]); [unquote] then joins
    surrogate pairs and writes UTF-8. *)
Inductive item : Type :=
| IByte (c : ascii)
| IUnit (u : N).

Inductive sstate : Type :=
| InStr
| InEsc
| InU (left : nat) (acc : N).

Definition simple_escape (c : ascii) : option ascii :=
  if (c =? dquote)%char then Some dquote
  else if (c =? backslash)%char then Some backslash
  else if (c =? "/")%char then Some "/"%char
  else if (c =? "b")%char then Some "008"%char
  else if (c =? "f")%char then Some "012"%char
  else if (c =? "n")%char then Some "010"%char
  else if (c =? "r")%char then Some "013"%char
  else if (c =? "t")%char then Some "009"%char
  else None.

Definition hex_val (c : ascii) : option N :=
  let n := N_of_ascii c in
  if ((48 <=? n) && (n <=? 57))%N then Some (n - 48)%N
  else if ((97 <=? n) && (n <=? 102))%N then Some (n - 87)%N
  else if ((65 <=? n) && (n <=? 70))%N then Some (n - 55)%N
  else None.

Fixpoint scan_string (st : sstate) (acc : list item) (s : string)
  : option (list item * string) :=
  match s with
  | EmptyString => None
  | String c r =>
      match st with
      | InStr =>
          if (c =? dquote)%char then Some (rev acc, r)
          else if (c =? backslash)%char then scan_string InEsc acc r
          else if (N_of_ascii c <? 32)%N then None
          else scan_string InStr (IByte c :: acc) r
      | InEsc =>
          match simple_escape c with
          | Some b => scan_string InStr (IByte b :: acc) r
          | None =>
              if (c =? "u")%char then scan_string (InU 4 0%N) acc r else None
          end
      | InU k v =>
          match hex_val c with
          | None => None
          | Some d =>
              let v' := (v * 16 + d)%N in
              match k with
              | 1%nat => scan_string InStr (IUnit v' :: acc) r
              | S k' => scan_string (InU k' v') acc r
              | O => None
              end
          end
      end
  end.

Definition byte (n : N) : ascii := ascii_of_N n.

Definition utf8 (cp : N) : string :=
  (if cp <? 128 then String (byte cp) ""
   else if cp <? 2048 then
     String (byte (192 + cp / 64)) (String (byte (128 + cp mod 64)) "")
   else if cp <? 65536 then
     String (byte (224 + cp / 4096))
       (String (byte (128 + (cp / 64) mod 64))
          (String (byte (128 + cp mod 64)) ""))
   else
     String (byte (240 + cp / 262144))
       (String (byte (128 + (cp / 4096) mod 64))
          (String (byte (128 + (cp / 64) mod 64))
             (String (byte (128 + cp mod 64)) ""))))%N.

Definition is_high (u : N) : bool := ((55296 <=? u) && (u <? 56320))%N.
Definition is_low (u : N) : bool := ((56320 <=? u) && (u <? 57344))%N.
Definition replacement : N := 65533%N.

Fixpoint unquote (items : list item) : string :=
  match items with
  | [] => ""
  | IByte c :: rest => String c (unquote rest)
  | IUnit u :: rest =>
      if is_high u then
        match rest with
        | IUnit l :: rest' =>
            if is_low l
            then utf8 (65536 + (u - 55296) * 1024 + (l - 56320))%N ++ unquote rest'
            else utf8 replacement ++ unquote rest
        | _ => utf8 replacement ++ unquote rest
        end
      else if is_low u then utf8 replacement ++ unquote rest
      else utf8 u ++ unquote rest
  end.

Fixpoint strip_prefix (p s : string) : option string :=
  match p, s with
  | EmptyString, _ => Some s
  | String a p', String b s' => if (a =? b)%char then strip_prefix p' s' else None
  | String _ _, EmptyString => None
  end.

Fixpoint parse_value (fuel : nat) (s : string) {struct fuel} : option (json * string) :=
  match fuel with
  | O => None
  | S f =>
      match skip_ws s with
      | EmptyString => None
      | String c r =>
          if (c =? "{")%char then
            match skip_ws r with
            | String c2 r2 =>
                if (c2 =? "}")%char then Some (JObj [], r2)
                else parse_members f [] r
            | EmptyString => None
            end
          else if (c =? "[")%char then
            match skip_ws r with
            | String c2 r2 =>
                if (c2 =? "]")%char then Some (JArr [], r2)
                else parse_elements f [] r
            | EmptyString => None
            end
          else if (c =? dquote)%char then
            match scan_string InStr [] r with
            | Some (items, r') => Some (JStr (unquote items), r')
            | None => None
            end
          else if (c =? "-")%char || is_digit c then
            match scan_number (String c r) with
            | Some (lit, r') => Some (JNum lit, r')
            | None => None
            end
          else
            match strip_prefix "null" (String c r) with
            | Some r' => Some (JNull, r')
            | None =>
                match strip_prefix "true" (String c r) with
                | Some r' => Some (JBool true, r')
                | None =>
                    match strip_prefix "false" (String c r) with
                    | Some r' => Some (JBool false, r')
                    | None => None
                    end
                end
            end
      end
  end
with parse_elements (fuel : nat) (acc : list json) (s : string) {struct fuel}
  : option (json * string) :=
  match fuel with
  | O => None
  | S f =>
      match parse_value f s with
      | None => None
      | Some (v, r) =>
          match skip_ws r with
          | String c r' =>
              if (c =? ",")%char then parse_elements f (v :: acc) r'
              else if (c =? "]")%char then Some (JArr (rev (v :: acc)), r')
              else None
          | EmptyString => None
          end
      end
  end
with parse_members (fuel : nat) (acc : list (string * json)) (s : string) {struct fuel}
  : option (json * string) :=
  match fuel with
  | O => None
  | S f =>
      match skip_ws s with
      | String c r =>
          if (c =? dquote)%char then
            match scan_string InStr [] r with
            | None => None
            | Some (items, r1) =>
                match skip_ws r1 with
                | String c1 r2 =>
                    if (c1 =? ":")%char then
                      match parse_value f r2 with
                      | None => None
                      | Some (v, r3) =>
                          match skip_ws r3 with
                          | String c3 r4 =>
                              if (c3 =? ",")%char
                              then parse_members f ((unquote items, v) :: acc) r4
                              else if (c3 =? "}")%char
                              then Some (JObj (rev ((unquote items, v) :: acc)), r4)
                              else None
                          | EmptyString => None
                          end
                      end
                    else None
                | EmptyString => None
                end
            end
          else None
      | EmptyString => None
      end
  end.

(** The whole input must be one value, surrounded by white space only. *)
Definition parse (data : string) : option json :=
  match parse_value (2 * String.length data + 2) data with
  | Some (v, r) =>
      match skip_ws r with
      | EmptyString => Some v
      | String _ _ => None
      end
  | None => None
  end.

(** Member names and struct fields, compared ignoring ASCII case. *)
Definition upper (c : ascii) : ascii :=
  let n := N_of_ascii c in
  if ((97 <=? n) && (n <=? 122))%N then ascii_of_N (n - 32) else c.

Fixpoint fold_name (s : string) : string :=
  match s with
  | EmptyString => EmptyString
  | String c r => String (upper c) (fold_name r)
  end.

Definition names (field key : string) : bool :=
  bool_decide (fold_name key = fold_name field).

(** The value of the last member that names [field], if any: the decoder
    walks the members in order and stores each one as it comes. *)
Fixpoint member (field : string) (ms : list (string * json)) : option json :=
  match ms with
  | [] => None
  | (k, v) :: rest =>
      match member field rest with
      | Some v' => Some v'
      | None => if names field k then Some v else None
      end
  end.

(** An integer literal that fits Go's [int] (64 bits). *)
Fixpoint digits_val (acc : Z) (s : string) : option Z :=
  match s with
  | EmptyString => Some acc
  | String c r =>
      if is_digit c
      then digits_val (acc * 10 + Z.of_N (N_of_ascii c - 48)) r
      else None
  end.

Definition int_of_lit (lit : string) : option Z :=
  let v :=
    match lit with
    | EmptyString => None
    | String c r =>
        if (c =? "-")%char
        then match r with
             | EmptyString => None
             | _ => Z.opp <$> digits_val 0 r
             end
        else digits_val 0 lit
    end in
  match v with
  | Some z => if (- 2 ^ 63 <=? z) && (z <? 2 ^ 63) then Some z else None
  | None => None
  end.

Inductive UnmarshalError : Type :=
| SyntaxError
| UnmarshalTypeError (field : string).

(** The library's message texts carry offsets and Go type names; they are
    kept symbolic. *)
Definition error_text (e : UnmarshalError) : string :=
  match e with
  | SyntaxError => "invalid character or unexpected end of JSON input"
  | UnmarshalTypeError f => "json: cannot unmarshal value into Go struct field " ++ f
  end.

(** Source text with ['] standing for the double quote. *)
Fixpoint q (s : string) : string :=
  match s with
  | EmptyString => EmptyString
  | String c r => String (if (c =? "'")%char then dquote else c) (q r)
  end.

End Json.

Import Json.

(** ** Go values shared by the packages *)

(** An [error] is represented by the text its [Error()] method returns: the
    code below only ever formats an error of a collaborator ([%w], [%v],
    [err.Error()]) or tests it against nil. *)
Definition error : Type := string.

Inductive result (E A : Type) : Type :=
| Ok (a : A)
| Err (e : E).
Arguments Ok {E A} a.
Arguments Err {E A} e.

(** [fmt.Sprintf("%d", n)] *)
Definition fmt_d (n : Z) : string := NilZero.string_of_int (Z.to_int n).

(** ** The a2a-go SDK types

    Modelled from the spec: the types of [github.com/a2aproject/a2a-go/a2a]
    are declared outside the repository.  The records below carry the
    fields that the repository reads and writes ([server.go]) and that
    section 3 of the design document lists. *)

Definition TaskID : Type := string.

(** [time.Time], as the value its [UnixNano()] returns. *)
Definition Time : Type := Z.

Inductive TaskState : Type :=
| TaskStateSubmitted
| TaskStateWorking
| TaskStateInputRequired
| TaskStateCompleted
| TaskStateCanceled
| TaskStateFailed
| TaskStateRejected
| TaskStateAuthRequired
| TaskStateUnknown.

Record TaskStatus : Type := mkTaskStatus {
  Status_State : TaskState;
  Status_Timestamp : option Time
}.

Record Message : Type := mkMessage {
  Message_MessageID : string;
  Message_TaskID : option TaskID;
  Message_ContextID : string;
  Message_Role : string;
  Message_Parts : list json;
  Message_Metadata : gmap string json
}.

Record Task : Type := mkTask {
  Task_ID : TaskID;
  Task_ContextID : string;
  Task_Kind : string;
  Task_History : list Message;
  Task_Status : TaskStatus;
  Task_Artifacts : list json;
  Task_Metadata : gmap string json
}.

Record TaskStatusUpdateEvent : Type := mkTaskStatusUpdateEvent {
  Event_Kind : string;
  Event_TaskID : TaskID;
  Event_ContextID : string;
  Event_Status : TaskStatus;
  Event_Final : bool
}.

(** [a2a.Event]: the values that implement the interface. *)
Inductive Event : Type :=
| EventStatusUpdate (e : TaskStatusUpdateEvent)
| EventArtifactUpdate (taskID : TaskID) (artifact : json)
| EventMessage (m : Message)
| EventTask (t : Task).

(** [a2a.SendMessageResult] *)
Inductive SendMessageResult : Type :=
| ResultTask (t : Task)
| ResultMessage (m : Message).

Record TaskQueryParams : Type := mkTaskQueryParams {
  Query_ID : TaskID;
  Query_HistoryLength : option Z;
  Query_Metadata : gmap string json
}.

Record TaskIDParams : Type := mkTaskIDParams {
  IDParams_ID : TaskID;
  IDParams_Metadata : gmap string json
}.

Record MessageSendParams : Type := mkMessageSendParams {
  Send_Message : Message;
  Send_Metadata : gmap string json
}.

Record PushConfig : Type := mkPushConfig {
  Push_ID : string;
  Push_URL : string
}.

(** [interface{}]: a value decoded from JSON (a Go string is [JStr], the nil
    interface is [JNull]), or one of the SDK values the router hands over as
    a result. *)
Inductive any : Type :=
| AJson (j : json)
| ATask (t : Task)
| AResult (r : SendMessageResult).

Definition Nil : any := AJson JNull.
Definition str (s : string) : any := AJson (JStr s).

(** [v == nil] for an [interface{}] *)
Definition is_nil (v : any) : bool :=
  match v with
  | AJson JNull => true
  | _ => false
  end.

(** ** Package a2a: JSON-RPC types (types.go) *)

Record JSONRPCRequest : Type := mkJSONRPCRequest {
  Req_JSONRPC : string;
  Req_Method : string;
  Req_Params : any;
  Req_ID : any
}.

Record JSONRPCError : Type := mkJSONRPCError {
  Err_Code : Z;
  Err_Message : string;
  Err_Data : any
}.

Record JSONRPCResponse : Type := mkJSONRPCResponse {
  Resp_JSONRPC : string;
  Resp_Result : any;
  Resp_Error : option JSONRPCError;
  Resp_ID : any
}.

Definition ValidateJSONRPCRequest (req : JSONRPCRequest) : option error :=
  if negb (bool_decide (Req_JSONRPC req = "2.0")) then Some "jsonrpc must be '2.0'"
  else if bool_decide (Req_Method req = "") then Some "method is required"
  else if is_nil (Req_ID req) then Some "id is required"
  else None.


Definition NewJSONRPCResponse (res id : any) : JSONRPCResponse :=
  {| Resp_JSONRPC := "2.0"; Resp_Result := res; Resp_Error := None; Resp_ID := id |}.

Definition NewJSONRPCErrorResponse (code : Z) (message : string) (data id : any)
  : JSONRPCResponse :=
  {| Resp_JSONRPC := "2.0";
     Resp_Result := Nil;
     Resp_Error := Some {| Err_Code := code; Err_Message := message; Err_Data := data |};
     Resp_ID := id |}.

(** ** [json.Unmarshal] into the envelope structs

    The member list is walked in order; a member that names a field is
    stored into it, others are skipped.  A value of the wrong kind leaves
    the field alone and is reported once the walk is over (the first such
    report wins); [null] leaves a string or an int alone and clears a
    pointer or an [interface{}]. *)

Definition first_error (old new : option UnmarshalError) : option UnmarshalError :=
  match old with
  | Some e => Some e
  | None => new
  end.

Definition store_string (field cur : string) (v : json) : string * option UnmarshalError :=
  match v with
  | JStr s => (s, None)
  | JNull => (cur, None)
  | _ => (cur, Some (UnmarshalTypeError field))
  end.

Definition store_int (field : string) (cur : Z) (v : json) : Z * option UnmarshalError :=
  match v with
  | JNum lit =>
      match int_of_lit lit with
      | Some z => (z, None)
      | None => (cur, Some (UnmarshalTypeError field))
      end
  | JNull => (cur, None)
  | _ => (cur, Some (UnmarshalTypeError field))
  end.

Definition zero_request : JSONRPCRequest :=
  {| Req_JSONRPC := ""; Req_Method := ""; Req_Params := Nil; Req_ID := Nil |}.

Definition zero_error : JSONRPCError :=
  {| Err_Code := 0; Err_Message := ""; Err_Data := Nil |}.

Definition zero_response : JSONRPCResponse :=
  {| Resp_JSONRPC := ""; Resp_Result := Nil; Resp_Error := None; Resp_ID := Nil |}.

Definition request_member (st : JSONRPCRequest * option UnmarshalError)
    (m : string * json) : JSONRPCRequest * option UnmarshalError :=
  let '(req, err) := st in
  let '(k, v) := m in
  if names "jsonrpc" k then
    let '(s, e) := store_string "jsonrpc" (Req_JSONRPC req) v in
    (mkJSONRPCRequest s (Req_Method req) (Req_Params req) (Req_ID req), first_error err e)
  else if names "method" k then
    let '(s, e) := store_string "method" (Req_Method req) v in
    (mkJSONRPCRequest (Req_JSONRPC req) s (Req_Params req) (Req_ID req), first_error err e)
  else if names "params" k then
    (mkJSONRPCRequest (Req_JSONRPC req) (Req_Method req) (AJson v) (Req_ID req), err)
  else if names "id" k then
    (mkJSONRPCRequest (Req_JSONRPC req) (Req_Method req) (Req_Params req) (AJson v), err)
  else st.

Definition finish {A : Type} (st : A * option UnmarshalError) : result UnmarshalError A :=
  match st with
  | (a, None) => Ok a
  | (_, Some e) => Err e
  end.

Definition unmarshal_request_value (v : json) : result UnmarshalError JSONRPCRequest :=
  match v with
  | JNull => Ok zero_request
  | JObj ms => finish (fold_left request_member ms (zero_request, None))
  | _ => Err (UnmarshalTypeError "")
  end.

Definition unmarshal_request (data : string) : result UnmarshalError JSONRPCRequest :=
  match parse data with
  | None => Err SyntaxError
  | Some v => unmarshal_request_value v
  end.

Definition error_member (st : JSONRPCError * option UnmarshalError)
    (m : string * json) : JSONRPCError * option UnmarshalError :=
  let '(e, err) := st in
  let '(k, v) := m in
  if names "code" k then
    let '(c, e') := store_int "error.code" (Err_Code e) v in
    (mkJSONRPCError c (Err_Message e) (Err_Data e), first_error err e')
  else if names "message" k then
    let '(s, e') := store_string "error.message" (Err_Message e) v in
    (mkJSONRPCError (Err_Code e) s (Err_Data e), first_error err e')
  else if names "data" k then
    (mkJSONRPCError (Err_Code e) (Err_Message e) (AJson v), err)
  else st.

(** A [*JSONRPCError] field: [null] sets the pointer to nil; any other value
    allocates the struct if the pointer is nil, and an object is then
    decoded into it. *)
Definition store_error (cur : option JSONRPCError) (v : json)
  : option JSONRPCError * option UnmarshalError :=
  let base := default zero_error cur in
  match v with
  | JNull => (None, None)
  | JObj ms =>
      let '(e, err) := fold_left error_member ms (base, None) in (Some e, err)
  | _ => (Some base, Some (UnmarshalTypeError "error"))
  end.

Definition response_member (st : JSONRPCResponse * option UnmarshalError)
    (m : string * json) : JSONRPCResponse * option UnmarshalError :=
  let '(resp, err) := st in
  let '(k, v) := m in
  if names "jsonrpc" k then
    let '(s, e) := store_string "jsonrpc" (Resp_JSONRPC resp) v in
    (mkJSONRPCResponse s (Resp_Result resp) (Resp_Error resp) (Resp_ID resp),
     first_error err e)
  else if names "result" k then
    (mkJSONRPCResponse (Resp_JSONRPC resp) (AJson v) (Resp_Error resp) (Resp_ID resp), err)
  else if names "error" k then
    let '(p, e) := store_error (Resp_Error resp) v in
    (mkJSONRPCResponse (Resp_JSONRPC resp) (Resp_Result resp) p (Resp_ID resp),
     first_error err e)
  else if names "id" k then
    (mkJSONRPCResponse (Resp_JSONRPC resp) (Resp_Result resp) (Resp_Error resp) (AJson v), err)
  else st.

Definition unmarshal_response_value (v : json) : result UnmarshalError JSONRPCResponse :=
  match v with
  | JNull => Ok zero_response
  | JObj ms => finish (fold_left response_member ms (zero_response, None))
  | _ => Err (UnmarshalTypeError "")
  end.

Definition unmarshal_response (data : string) : result UnmarshalError JSONRPCResponse :=
  match parse data with
  | None => Err SyntaxError
  | Some v => unmarshal_response_value v
  end.

(** The anonymous struct of [ExtractRequestID]: one [interface{}] field. *)
Definition partial_member (st : any) (m : string * json) : any :=
  let '(k, v) := m in
  if names "id" k then AJson v else st.

Definition unmarshal_partial (data : string) : result UnmarshalError any :=
  match parse data with
  | None => Err SyntaxError
  | Some JNull => Ok Nil
  | Some (JObj ms) => Ok (fold_left partial_member ms Nil)
  | Some _ => Err (UnmarshalTypeError "")
  end.

(** [json.Marshal]: the encoded bytes are kept as the value they encode.
    Every value of the model can be encoded, so the call succeeds. *)
Inductive marshalled (A : Type) : Type :=
| Marshalled (a : A).
Arguments Marshalled {A} a.

Definition json_Marshal {A : Type} (a : A) : result error (marshalled A) :=
  Ok (Marshalled a).

(** ** Package a2a: the codec (jsonrpc.go) *)

Definition JSONRPCErrorParseError : Z := -32700.
Definition JSONRPCErrorInvalidRequest : Z := -32600.
Definition JSONRPCErrorMethodNotFound : Z := -32601.
Definition JSONRPCErrorInvalidParams : Z := -32602.
Definition JSONRPCErrorInternalError : Z := -32603.
Definition JSONRPCErrorServerError : Z := -32000.

Definition NewJSONRPCParseError (message : string) : JSONRPCError :=
  {| Err_Code := JSONRPCErrorParseError; Err_Message := "Parse error";
     Err_Data := str message |}.

Definition NewJSONRPCInvalidRequestError (message : string) : JSONRPCError :=
  {| Err_Code := JSONRPCErrorInvalidRequest; Err_Message := "Invalid Request";
     Err_Data := str message |}.

Definition NewJSONRPCMethodNotFoundError (method : string) : JSONRPCError :=
  {| Err_Code := JSONRPCErrorMethodNotFound; Err_Message := "Method not found";
     Err_Data := str ("method '" ++ method ++ "' not found") |}.

Definition NewJSONRPCInvalidParamsError (message : string) : JSONRPCError :=
  {| Err_Code := JSONRPCErrorInvalidParams; Err_Message := "Invalid params";
     Err_Data := str message |}.

Definition NewJSONRPCInternalError (message : string) : JSONRPCError :=
  {| Err_Code := JSONRPCErrorInternalError; Err_Message := "Internal error";
     Err_Data := str message |}.

Definition NewJSONRPCServerError (code : Z) (message : string) (data : any)
  : JSONRPCError :=
  let code :=
    if (code >? -32000) || (code <? -32099) then JSONRPCErrorServerError else code in
  {| Err_Code := code; Err_Message := message; Err_Data := data |}.

Definition ParseJSONRPCRequest (data : string) : result JSONRPCError JSONRPCRequest :=
  if (String.length data =? 0)%nat then
    Err (NewJSONRPCParseError "empty request body")
  else
    match unmarshal_request data with
    | Err e => Err (NewJSONRPCParseError ("invalid JSON: " ++ error_text e))
    | Ok req =>
        match ValidateJSONRPCRequest req with
        | Some err => Err (NewJSONRPCInvalidRequestError err)
        | None => Ok req
        end
    end.

Definition ValidateJSONRPCResponse (resp : JSONRPCResponse) : option error :=
  if negb (bool_decide (Resp_JSONRPC resp = "2.0")) then Some "jsonrpc must be '2.0'"
  else
    let hasResult := negb (is_nil (Resp_Result resp)) in
    let hasError := bool_decide (Resp_Error resp <> None) in
    if hasResult && hasError then Some "response cannot have both result and error"
    else if negb hasResult && negb hasError
         then Some "response must have either result or error"
         else None.

Definition ParseJSONRPCResponse (data : string) : result JSONRPCError JSONRPCResponse :=
  if (String.length data =? 0)%nat then
    Err (NewJSONRPCParseError "empty response body")
  else
    match unmarshal_response data with
    | Err e => Err (NewJSONRPCParseError ("invalid JSON: " ++ error_text e))
    | Ok resp =>
        match ValidateJSONRPCResponse resp with
        | Some err => Err (NewJSONRPCInvalidRequestError err)
        | None => Ok resp
        end
    end.


Definition SerializeJSONRPCResponse (resp : JSONRPCResponse)
  : result JSONRPCError (marshalled JSONRPCResponse) :=
  match ValidateJSONRPCResponse resp with
  | Some err => Err (NewJSONRPCInvalidRequestError err)
  | None =>
      match json_Marshal resp with
      | Err err => Err (NewJSONRPCInternalError ("failed to serialize response: " ++ err))
      | Ok data => Ok data
      end
  end.

Definition ExtractRequestID (data : string) : any :=
  match unmarshal_partial data with
  | Err _ => Nil
  | Ok id => id
  end.

(** The code of the error a codec function fails with, if it fails. *)
Definition code_of {A : Type} (r : result JSONRPCError A) : option Z :=
  match r with
  | Ok _ => None
  | Err e => Some (Err_Code e)
  end.

(** ** Package a2a: the storage ports (server.go)

    Each interface is a record of functions over the state [S] of the
    object that implements it.  A call that may write returns the new
    state; [GetTask] and [GetEvents] read. *)

Record TaskStore (S : Type) : Type := mkTaskStore {
  GetTask : S -> TaskID -> result error Task;
  SaveTask : S -> Task -> S * option error;
  DeleteTask : S -> TaskID -> S * option error;
  ListTasks : S -> string -> result error (list Task)
}.
Arguments GetTask {S} _ _ _.
Arguments SaveTask {S} _ _ _.
Arguments DeleteTask {S} _ _ _.
Arguments ListTasks {S} _ _ _.

Record EventStore (S : Type) : Type := mkEventStore {
  SaveEvent : S -> Event -> S * option error;
  GetEvents : S -> TaskID -> result error (list Event);
  MarkEventProcessed : S -> string -> S * option error
}.
Arguments SaveEvent {S} _ _ _.
Arguments GetEvents {S} _ _ _.
Arguments MarkEventProcessed {S} _ _ _.

Record PushNotifier (S : Type) : Type := mkPushNotifier {
  SendNotification : S -> PushConfig -> Event -> S * option error
}.
Arguments SendNotification {S} _ _ _ _.

(** [ServerlessA2AHandler].  The [config] field is read by no method. *)
Record ServerlessA2AHandler (TS ES PN : Type) : Type := mkServerlessA2AHandler {
  taskStore : TaskStore TS;
  eventStore : EventStore ES;
  pushNotifier : PushNotifier PN
}.
Arguments taskStore {TS ES PN} _.
Arguments eventStore {TS ES PN} _.
Arguments pushNotifier {TS ES PN} _.

Definition NewServerlessA2AHandler {TS ES PN : Type}
    (ts : TaskStore TS) (es : EventStore ES) (pn : PushNotifier PN)
  : ServerlessA2AHandler TS ES PN :=
  {| taskStore := ts; eventStore := es; pushNotifier := pn |}.

(** What a request runs against: the states of the three collaborators,
    the clock ([time.Now()] returns the readings [clock 0], [clock 1], ...
    in turn) and the standard output. *)
Record World (TS ES PN : Type) : Type := mkWorld {
  tasks : TS;
  events : ES;
  notifier : PN;
  clock : nat -> Time;
  ticks : nat;
  stdout : list string
}.
Arguments mkWorld {TS ES PN} _ _ _ _ _ _.
Arguments tasks {TS ES PN} _.
Arguments events {TS ES PN} _.
Arguments notifier {TS ES PN} _.
Arguments clock {TS ES PN} _ _.
Arguments ticks {TS ES PN} _.
Arguments stdout {TS ES PN} _.

(** Statements that act on the world, in sequence. *)
Definition M (W A : Type) : Type := W -> A * W.

Definition ret {W A : Type} (a : A) : M W A := fun w => (a, w).

Definition bind {W A B : Type} (m : M W A) (k : A -> M W B) : M W B :=
  fun w => let '(a, w') := m w in k a w'.

Declare Scope go_scope.
Delimit Scope go_scope with go.
Notation "x <- m ;; k" := (bind m (fun x => k))
  (at level 100, m at next level, right associativity) : go_scope.
Notation "m ;;; k" := (bind m (fun _ => k))
  (at level 100, right associativity) : go_scope.

Definition with_History (task : Task) (history : list Message) : Task :=
  {| Task_ID := Task_ID task; Task_ContextID := Task_ContextID task;
     Task_Kind := Task_Kind task; Task_History := history;
     Task_Status := Task_Status task; Task_Artifacts := Task_Artifacts task;
     Task_Metadata := Task_Metadata task |}.

Definition with_Status (task : Task) (status : TaskStatus) : Task :=
  {| Task_ID := Task_ID task; Task_ContextID := Task_ContextID task;
     Task_Kind := Task_Kind task; Task_History := Task_History task;
     Task_Status := status; Task_Artifacts := Task_Artifacts task;
     Task_Metadata := Task_Metadata task |}.

Section Server.

Context {TS ES PN : Type}.
Variable h : ServerlessA2AHandler TS ES PN.

Local Abbreviation W := (World TS ES PN).
Local Open Scope go_scope.

Definition time_Now : M W Time :=
  fun w =>
    (clock w (ticks w),
     mkWorld (tasks w) (events w) (notifier w) (clock w) (S (ticks w)) (stdout w)).

Definition fmt_Printf (line : string) : M W unit :=
  fun w =>
    (tt, mkWorld (tasks w) (events w) (notifier w) (clock w) (ticks w)
                 (stdout w ++ [line])).

Definition taskStore_GetTask (taskID : TaskID) : M W (result error Task) :=
  fun w => (GetTask (taskStore h) (tasks w) taskID, w).

Definition taskStore_SaveTask (task : Task) : M W (option error) :=
  fun w =>
    let '(ts, err) := SaveTask (taskStore h) (tasks w) task in
    (err, mkWorld ts (events w) (notifier w) (clock w) (ticks w) (stdout w)).

Definition eventStore_SaveEvent (event : Event) : M W (option error) :=
  fun w =>
    let '(es, err) := SaveEvent (eventStore h) (events w) event in
    (err, mkWorld (tasks w) es (notifier w) (clock w) (ticks w) (stdout w)).

Definition generateContextID : M W string :=
  now <- time_Now ;;
  ret ("ctx_" ++ fmt_d now).

Definition OnGetTask (query : TaskQueryParams) : M W (result error Task) :=
  r <- taskStore_GetTask (Query_ID query) ;;
  match r with
  | Err err => ret (Err ("failed to get task " ++ Query_ID query ++ ": " ++ err))
  | Ok task =>
      let task :=
        match Query_HistoryLength query with
        | Some historyLen =>
            if historyLen >? 0 then
              if Z.of_nat (length (Task_History task)) >? historyLen then
                with_History task
                  (drop (Z.to_nat (Z.of_nat (length (Task_History task)) - historyLen))
                        (Task_History task))
              else task
            else task
        | None => task
        end in
      ret (Ok task)
  end.

Definition OnCancelTask (id : TaskIDParams) : M W (result error Task) :=
  r <- taskStore_GetTask (IDParams_ID id) ;;
  match r with
  | Err err => ret (Err ("failed to get task " ++ IDParams_ID id ++ ": " ++ err))
  | Ok task =>
      now <- time_Now ;;
      let task :=
        with_Status task
          {| Status_State := TaskStateCanceled; Status_Timestamp := Some now |} in
      err <- taskStore_SaveTask task ;;
      match err with
      | Some err =>
          ret (Err ("failed to save canceled task " ++ IDParams_ID id ++ ": " ++ err))
      | None =>
          let statusEvent :=
            {| Event_Kind := "status-update";
               Event_TaskID := Task_ID task;
               Event_ContextID := Task_ContextID task;
               Event_Status := Task_Status task;
               Event_Final := true |} in
          err <- eventStore_SaveEvent (EventStatusUpdate statusEvent) ;;
          match err with
          | Some err =>
              fmt_Printf ("Warning: failed to save status event for task "
                          ++ IDParams_ID id ++ ": " ++ err ++ String "010" "")
          | None => ret tt
          end ;;;
          ret (Ok task)
      end
  end.

Definition OnSendMessage (message : MessageSendParams)
  : M W (result error SendMessageResult) :=
  r <- match Message_TaskID (Send_Message message) with
       | Some taskID =>
           r <- taskStore_GetTask taskID ;;
           match r with
           | Err err =>
               ret (Err ("failed to get existing task " ++ taskID ++ ": " ++ err))
           | Ok task => ret (Ok task)
           end
       | None =>
           now <- time_Now ;;
           contextID <- generateContextID ;;
           ret (Ok {| Task_ID := "task_" ++ fmt_d now;
                      Task_ContextID := contextID;
                      Task_Kind := "task";
                      Task_History := [];
                      Task_Status := {| Status_State := TaskStateSubmitted;
                                        Status_Timestamp := Some now |};
                      Task_Artifacts := [];
                      Task_Metadata := ∅ |})
       end ;;
  match r with
  | Err err => ret (Err err)
  | Ok task =>
      let task := with_History task (Task_History task ++ [Send_Message message]) in
      now <- time_Now ;;
      let task :=
        with_Status task
          {| Status_State := TaskStateWorking; Status_Timestamp := Some now |} in
      err <- taskStore_SaveTask task ;;
      match err with
      | Some err => ret (Err ("failed to save task: " ++ err))
      | None => ret (Ok (ResultTask task))
      end
  end.

End Server.

(** ** Package handler: the router (handler.go) *)

Record Request : Type := mkRequest {
  Request_Method : string;
  Request_URL : string;
  Request_Headers : gmap string string;
  Request_Body : string
}.

(** The body of a response is [string(responseBytes)], the encoding of a
    JSON-RPC response. *)
Inductive body : Type :=
| EmptyBody
| JSONBody (m : marshalled JSONRPCResponse).

Record Response : Type := mkResponse {
  Response_Status : Z;
  Response_Headers : gmap string string;
  Response_Body : body
}.

(** The response a body encodes. *)
Definition decoded (b : body) : option JSONRPCResponse :=
  match b with
  | EmptyBody => None
  | JSONBody (Marshalled r) => Some r
  end.

(** How a params value ([json.Marshal] followed by [json.Unmarshal]) is
    decoded into each of the SDK's parameter structs; the decoding rules
    of these structs belong to the SDK. *)
Record ParamsDecoder : Type := mkParamsDecoder {
  unmarshal_TaskQueryParams : any -> result error TaskQueryParams;
  unmarshal_TaskIDParams : any -> result error TaskIDParams;
  unmarshal_MessageSendParams : any -> result error MessageSendParams
}.

Definition zero_Message : Message :=
  {| Message_MessageID := ""; Message_TaskID := None; Message_ContextID := "";
     Message_Role := ""; Message_Parts := []; Message_Metadata := ∅ |}.

Definition zero_TaskQueryParams : TaskQueryParams :=
  {| Query_ID := ""; Query_HistoryLength := None; Query_Metadata := ∅ |}.

Definition zero_TaskIDParams : TaskIDParams :=
  {| IDParams_ID := ""; IDParams_Metadata := ∅ |}.

Definition zero_MessageSendParams : MessageSendParams :=
  {| Send_Message := zero_Message; Send_Metadata := ∅ |}.

Definition http_StatusOK : Z := 200.

Definition jsonrpc_headers : gmap string string :=
  <["Content-Type" := "application/json"]>
    (<["Access-Control-Allow-Origin" := "*"]>
       (<["Access-Control-Allow-Methods" := "GET, POST, OPTIONS"]>
          (<["Access-Control-Allow-Headers" := "Content-Type, Authorization"]> ∅))).

Definition marshal_body (response : JSONRPCResponse) : body :=
  match json_Marshal response with
  | Ok bytes => JSONBody bytes
  | Err _ => EmptyBody
  end.

Definition handleJSONRPCSuccess (res id : any) : Response :=
  let response := NewJSONRPCResponse res id in
  {| Response_Status := http_StatusOK;
     Response_Headers := jsonrpc_headers;
     Response_Body := marshal_body response |}.

Definition handleJSONRPCError (code : Z) (message : string) (data id : any) : Response :=
  let response := NewJSONRPCErrorResponse code message data id in
  {| Response_Status := http_StatusOK;
     Response_Headers := jsonrpc_headers;
     Response_Body := marshal_body response |}.

Section Router.

Context {TS ES PN : Type}.
Variable a2aHandler : ServerlessA2AHandler TS ES PN.
Variable sdk : ParamsDecoder.

Local Abbreviation W := (World TS ES PN).
Local Open Scope go_scope.

Definition handleGetTask (req : JSONRPCRequest) : M W Response :=
  match (if is_nil (Req_Params req) then Ok zero_TaskQueryParams
         else unmarshal_TaskQueryParams sdk (Req_Params req)) with
  | Err err => ret (handleJSONRPCError (-32602) "Invalid params" (str err) (Req_ID req))
  | Ok params =>
      r <- OnGetTask a2aHandler params ;;
      match r with
      | Err err =>
          ret (handleJSONRPCError (-32000) "Server error" (str err) (Req_ID req))
      | Ok task => ret (handleJSONRPCSuccess (ATask task) (Req_ID req))
      end
  end.

Definition handleCancelTask (req : JSONRPCRequest) : M W Response :=
  match (if is_nil (Req_Params req) then Ok zero_TaskIDParams
         else unmarshal_TaskIDParams sdk (Req_Params req)) with
  | Err err => ret (handleJSONRPCError (-32602) "Invalid params" (str err) (Req_ID req))
  | Ok params =>
      r <- OnCancelTask a2aHandler params ;;
      match r with
      | Err err =>
          ret (handleJSONRPCError (-32000) "Server error" (str err) (Req_ID req))
      | Ok task => ret (handleJSONRPCSuccess (ATask task) (Req_ID req))
      end
  end.

Definition handleSendMessage (req : JSONRPCRequest) : M W Response :=
  match (if is_nil (Req_Params req) then Ok zero_MessageSendParams
         else unmarshal_MessageSendParams sdk (Req_Params req)) with
  | Err err => ret (handleJSONRPCError (-32602) "Invalid params" (str err) (Req_ID req))
  | Ok params =>
      r <- OnSendMessage a2aHandler params ;;
      match r with
      | Err err =>
          ret (handleJSONRPCError (-32000) "Server error" (str err) (Req_ID req))
      | Ok res => ret (handleJSONRPCSuccess (AResult res) (Req_ID req))
      end
  end.

Definition handleJSONRPC (req : Request) : M W Response :=
  match unmarshal_request (Request_Body req) with
  | Err _ => ret (handleJSONRPCError (-32700) "Parse error" Nil Nil)
  | Ok jsonrpcReq =>
      match ValidateJSONRPCRequest jsonrpcReq with
      | Some err =>
          ret (handleJSONRPCError (-32600) "Invalid Request" (str err) (Req_ID jsonrpcReq))
      | None =>
          if bool_decide (Req_Method jsonrpcReq = "tasks/get")
          then handleGetTask jsonrpcReq
          else if bool_decide (Req_Method jsonrpcReq = "tasks/cancel")
          then handleCancelTask jsonrpcReq
          else if bool_decide (Req_Method jsonrpcReq = "message/send")
          then handleSendMessage jsonrpcReq
          else ret (handleJSONRPCError (-32601) "Method not found"
                      (str (Req_Method jsonrpcReq)) (Req_ID jsonrpcReq))
      end
  end.

End Router.

(** ** Collaborators held in memory

    An implementation of each port, to run the handler and the router on
    concrete requests: a task table keyed by task ID that reports a missing
    task the way the DynamoDB store does, an event log that appends, an
    event log that is out of service, and a notification sink that records
    every call it receives and then fails. *)
Module Mem.

Definition taskStore : TaskStore (gmap TaskID Task) :=
  {| GetTask m taskID :=
       match m !! taskID with
       | Some task => Ok task
       | None => Err ("task " ++ taskID ++ " not found")
       end;
     SaveTask m task := (<[Task_ID task := task]> m, None);
     DeleteTask m taskID := (delete taskID m, None);
     ListTasks m contextID :=
       Ok (filter (fun t => Task_ContextID t = contextID) (snd <$> map_to_list m)) |}.

Definition event_task (e : Event) : TaskID :=
  match e with
  | EventStatusUpdate s => Event_TaskID s
  | EventArtifactUpdate taskID _ => taskID
  | EventMessage m => default "" (Message_TaskID m)
  | EventTask t => Task_ID t
  end.

Definition eventStore : EventStore (list Event) :=
  {| SaveEvent log e := ((log ++ [e])%list, None);
     GetEvents log taskID := Ok (filter (fun e => event_task e = taskID) log);
     MarkEventProcessed log _ := (log, None) |}.

Definition brokenEventStore : EventStore (list Event) :=
  {| SaveEvent log e := (log, Some "event table unavailable");
     GetEvents log taskID := Err "event table unavailable";
     MarkEventProcessed log _ := (log, Some "event table unavailable") |}.

Definition pushNotifier : PushNotifier (list (PushConfig * Event)) :=
  {| SendNotification calls config e :=
       ((calls ++ [(config, e)])%list, Some "failed to send notification to SQS") |}.

Definition handler : ServerlessA2AHandler _ _ _ :=
  NewServerlessA2AHandler taskStore eventStore pushNotifier.

Definition brokenEventsHandler : ServerlessA2AHandler _ _ _ :=
  NewServerlessA2AHandler taskStore brokenEventStore pushNotifier.

Definition world (stored : list Task) (clock : nat -> Time)
  : World (gmap TaskID Task) (list Event) (list (PushConfig * Event)) :=
  mkWorld (list_to_map ((fun t => (Task_ID t, t)) <$> stored)) [] [] clock 0 [].

(** Modelled from the spec: the parameter shapes of section 6 ([tasks/get]:
    task ID and optional history-length cap; [tasks/cancel]: task ID;
    [message/send]: a message, optionally referencing an existing task
    ID), decoded with the rules of [json.Unmarshal]; the SDK that
    declares them is outside the repository. *)
Definition metadata (field : string) (cur : gmap string json) (v : json)
  : gmap string json * option UnmarshalError :=
  match v with
  | JObj ms => (list_to_map (rev ms), None)
  | JNull => (∅, None)
  | _ => (cur, Some (UnmarshalTypeError field))
  end.

Definition query_member (st : TaskQueryParams * option UnmarshalError)
    (m : string * json) : TaskQueryParams * option UnmarshalError :=
  let '(p, err) := st in
  let '(k, v) := m in
  if names "id" k then
    let '(s, e) := store_string "id" (Query_ID p) v in
    (mkTaskQueryParams s (Query_HistoryLength p) (Query_Metadata p), first_error err e)
  else if names "historyLength" k then
    match v with
    | JNull => (mkTaskQueryParams (Query_ID p) None (Query_Metadata p), err)
    | _ =>
        let '(n, e) := store_int "historyLength" (default 0 (Query_HistoryLength p)) v in
        (mkTaskQueryParams (Query_ID p) (Some n) (Query_Metadata p), first_error err e)
    end
  else if names "metadata" k then
    let '(md, e) := metadata "metadata" (Query_Metadata p) v in
    (mkTaskQueryParams (Query_ID p) (Query_HistoryLength p) md, first_error err e)
  else st.

Definition id_member (st : TaskIDParams * option UnmarshalError)
    (m : string * json) : TaskIDParams * option UnmarshalError :=
  let '(p, err) := st in
  let '(k, v) := m in
  if names "id" k then
    let '(s, e) := store_string "id" (IDParams_ID p) v in
    (mkTaskIDParams s (IDParams_Metadata p), first_error err e)
  else if names "metadata" k then
    let '(md, e) := metadata "metadata" (IDParams_Metadata p) v in
    (mkTaskIDParams (IDParams_ID p) md, first_error err e)
  else st.

Definition message_member (st : Message * option UnmarshalError)
    (m : string * json) : Message * option UnmarshalError :=
  let '(msg, err) := st in
  let '(k, v) := m in
  if names "messageId" k then
    let '(s, e) := store_string "messageId" (Message_MessageID msg) v in
    (mkMessage s (Message_TaskID msg) (Message_ContextID msg) (Message_Role msg)
               (Message_Parts msg) (Message_Metadata msg), first_error err e)
  else if names "taskId" k then
    match v with
    | JNull =>
        (mkMessage (Message_MessageID msg) None (Message_ContextID msg)
                   (Message_Role msg) (Message_Parts msg) (Message_Metadata msg), err)
    | _ =>
        let '(s, e) := store_string "taskId" (default "" (Message_TaskID msg)) v in
        (mkMessage (Message_MessageID msg) (Some s) (Message_ContextID msg)
                   (Message_Role msg) (Message_Parts msg) (Message_Metadata msg),
         first_error err e)
    end
  else if names "contextId" k then
    let '(s, e) := store_string "contextId" (Message_ContextID msg) v in
    (mkMessage (Message_MessageID msg) (Message_TaskID msg) s (Message_Role msg)
               (Message_Parts msg) (Message_Metadata msg), first_error err e)
  else if names "role" k then
    let '(s, e) := store_string "role" (Message_Role msg) v in
    (mkMessage (Message_MessageID msg) (Message_TaskID msg) (Message_ContextID msg) s
               (Message_Parts msg) (Message_Metadata msg), first_error err e)
  else if names "parts" k then
    match v with
    | JArr xs =>
        (mkMessage (Message_MessageID msg) (Message_TaskID msg) (Message_ContextID msg)
                   (Message_Role msg) xs (Message_Metadata msg), err)
    | JNull =>
        (mkMessage (Message_MessageID msg) (Message_TaskID msg) (Message_ContextID msg)
                   (Message_Role msg) [] (Message_Metadata msg), err)
    | _ => (msg, first_error err (Some (UnmarshalTypeError "parts")))
    end
  else if names "metadata" k then
    let '(md, e) := metadata "metadata" (Message_Metadata msg) v in
    (mkMessage (Message_MessageID msg) (Message_TaskID msg) (Message_ContextID msg)
               (Message_Role msg) (Message_Parts msg) md, first_error err e)
  else st.

Definition send_member (st : MessageSendParams * option UnmarshalError)
    (m : string * json) : MessageSendParams * option UnmarshalError :=
  let '(p, err) := st in
  let '(k, v) := m in
  if names "message" k then
    match v with
    | JObj ms =>
        let '(msg, e) := fold_left message_member ms (Send_Message p, None) in
        (mkMessageSendParams msg (Send_Metadata p), first_error err e)
    | JNull => st
    | _ => (p, first_error err (Some (UnmarshalTypeError "message")))
    end
  else if names "metadata" k then
    let '(md, e) := metadata "metadata" (Send_Metadata p) v in
    (mkMessageSendParams (Send_Message p) md, first_error err e)
  else st.

Definition into {A : Type} (step : A * option UnmarshalError -> string * json ->
                                   A * option UnmarshalError)
    (zero : A) (v : any) : result error A :=
  match v with
  | AJson JNull => Ok zero
  | AJson (JObj ms) =>
      match finish (fold_left step ms (zero, None)) with
      | Ok a => Ok a
      | Err e => Err (error_text e)
      end
  | _ => Err (error_text (UnmarshalTypeError ""))
  end.

Definition sdk : ParamsDecoder :=
  {| unmarshal_TaskQueryParams := into query_member zero_TaskQueryParams;
     unmarshal_TaskIDParams := into id_member zero_TaskIDParams;
     unmarshal_MessageSendParams := into send_member zero_MessageSendParams |}.

End Mem.

(** ** Vocabulary of the properties *)

(** The task [OnCancelTask] persists, and the event it appends for it. *)
Definition canceled (task : Task) (now : Time) : Task :=
  with_Status task {| Status_State := TaskStateCanceled; Status_Timestamp := Some now |}.

Definition final_event (task : Task) : Event :=
  EventStatusUpdate
    {| Event_Kind := "status-update"; Event_TaskID := Task_ID task;
       Event_ContextID := Task_ContextID task; Event_Status := Task_Status task;
       Event_Final := true |}.

(** The line [OnCancelTask] prints when the event cannot be saved. *)
Definition save_event_warning (id : TaskIDParams) (err : error) : string :=
  "Warning: failed to save status event for task "
  ++ IDParams_ID id ++ ": " ++ err ++ String "010" "".

(** The task [OnSendMessage] synthesizes when the message names no task,
    from two readings of the clock, and the task it persists once the
    message is appended and the status advanced at a third reading. *)
Definition synthesized (now contextNow : Time) : Task :=
  {| Task_ID := "task_" ++ fmt_d now;
     Task_ContextID := "ctx_" ++ fmt_d contextNow;
     Task_Kind := "task";
     Task_History := [];
     Task_Status := {| Status_State := TaskStateSubmitted; Status_Timestamp := Some now |};
     Task_Artifacts := [];
     Task_Metadata := ∅ |}.

Definition advanced (task : Task) (m : Message) (now : Time) : Task :=
  with_Status (with_History task (Task_History task ++ [m]))
    {| Status_State := TaskStateWorking; Status_Timestamp := Some now |}.

(** The parameters a handler of the router works with: the zero value when
    the request has no params, what the SDK decodes otherwise. *)
Definition params_of {A : Type} (zero : A) (unmarshal : any -> result error A)
    (params : any) : result error A :=
  if is_nil params then Ok zero else unmarshal params.

(** The router answers with status 200 and the encoding of [jr]. *)
Definition answers (resp : Response) (jr : JSONRPCResponse) : Prop :=
  Response_Status resp = 200 /\ decoded (Response_Body resp) = Some jr.

(** ** Sample data *)
Module Sample.

Definition message (id : string) : Message :=
  {| Message_MessageID := id; Message_TaskID := Some "t1"; Message_ContextID := "c1";
     Message_Role := "user"; Message_Parts := [JStr id]; Message_Metadata := ∅ |}.

(** A stored task with five messages. *)
Definition t1 : Task :=
  {| Task_ID := "t1"; Task_ContextID := "c1"; Task_Kind := "task";
     Task_History := [message "m1"; message "m2"; message "m3"; message "m4";
                      message "m5"];
     Task_Status := {| Status_State := TaskStateWorking; Status_Timestamp := Some 5 |};
     Task_Artifacts := []; Task_Metadata := ∅ |}.

(** A message that names no task. *)
Definition hello : Message :=
  {| Message_MessageID := "m9"; Message_TaskID := None; Message_ContextID := "";
     Message_Role := "user"; Message_Parts := [JStr "hello"]; Message_Metadata := ∅ |}.

Definition clock (n : nat) : Time := 1000 + Z.of_nat n.

Definition w0 := Mem.world [t1] clock.

Definition post (source : string) : Request :=
  {| Request_Method := "POST"; Request_URL := "/";
     Request_Headers := <["content-type" := "application/json"]> ∅;
     Request_Body := q source |}.

End Sample.

(** ** Package a2a: the rest of the codec (jsonrpc.go) *)

(** [strings.Contains] *)
Fixpoint strings_Contains (s substr : string) : bool :=
  String.prefix substr s
  || match s with
     | EmptyString => false
     | String _ r => strings_Contains r substr
     end.

(** The bytes [strings.TrimSpace] may remove: the six ASCII white space
    characters, and the bytes of the white space characters outside
    ASCII, none of which is below 128. *)
Definition ascii_space (c : ascii) : bool :=
  let n := N_of_ascii c in (((9 <=? n) && (n <=? 13)) || (n =? 32))%N.

Definition trimmable (c : ascii) : bool :=
  ascii_space c || (128 <=? N_of_ascii c)%N.

Fixpoint all_bytes (p : ascii -> bool) (s : string) : bool :=
  match s with
  | EmptyString => true
  | String c r => p c && all_bytes p r
  end.

(** What the codec relies on of a trimming function: it returns its
    argument without a prefix and a suffix of removable bytes. *)
Definition trims (TrimSpace : string -> string) : Prop :=
  forall s, exists pre post,
    s = pre ++ TrimSpace s ++ post
    /\ all_bytes trimmable pre = true
    /\ all_bytes trimmable post = true.

(** [strings.TrimSpace] on text without bytes above 127. *)
Fixpoint trim_left (s : string) : string :=
  match s with
  | EmptyString => EmptyString
  | String c r => if ascii_space c then trim_left r else s
  end.

Fixpoint trim_right (s : string) : string :=
  match s with
  | EmptyString => EmptyString
  | String c r =>
      match trim_right r with
      | EmptyString => if ascii_space c then EmptyString else String c EmptyString
      | r' => String c r'
      end
  end.

Definition TrimSpace_ascii (s : string) : string := trim_right (trim_left s).

Definition IsJSONRPCRequest (TrimSpace : string -> string) (data : string) : bool :=
  let dataStr := TrimSpace data in
  strings_Contains dataStr (q "'jsonrpc'")
  && strings_Contains dataStr (q "'method'")
  && (strings_Contains dataStr (q "'2.0'") || strings_Contains dataStr "2.0").

(** A value of the interface [error] as [HandleJSONRPCError] inspects it:
    nil, a [*JSONRPCError] (a pointer, which may itself be nil), or any
    other error, known by the text of its [Error()]. *)
Inductive error_value : Type :=
| ErrorNil
| ErrorJSONRPC (p : option JSONRPCError)
| ErrorOther (text : string).

Definition HandleJSONRPCError (err : error_value) (requestID : any) : JSONRPCResponse :=
  match err with
  | ErrorNil =>
      NewJSONRPCErrorResponse JSONRPCErrorInternalError "Internal error"
        (str "nil error passed to HandleJSONRPCError") requestID
  | ErrorJSONRPC jsonrpcErr =>
      {| Resp_JSONRPC := "2.0"; Resp_Result := Nil; Resp_Error := jsonrpcErr;
         Resp_ID := requestID |}
  | ErrorOther text =>
      NewJSONRPCErrorResponse JSONRPCErrorInternalError "Internal error"
        (str text) requestID
  end.

(** ** Package a2a: the streaming methods of the handler (server.go)

    An [iter.Seq2[a2a.Event, error]] is a function that feeds a consumer:
    [yield] receives one pair at a time and answers whether it wants more.
    The consumer is given with a state of its own; nothing runs before the
    sequence is ranged over. *)
Definition yield_fn (C : Type) : Type := C -> option Event -> option error -> C * bool.

Definition Seq2 (W C : Type) : Type := yield_fn C -> C -> M W C.

(** [for _, event := range events { if !yield(event, nil) { return } }] *)
Fixpoint range_events {C : Type} (yield : yield_fn C) (events : list Event) (c : C) : C :=
  match events with
  | [] => c
  | event :: rest =>
      let '(c', more) := yield c (Some event) None in
      if more then range_events yield rest c' else c'
  end.

Section Streaming.

Context {TS ES PN : Type}.
Variable h : ServerlessA2AHandler TS ES PN.

Local Abbreviation W := (World TS ES PN).
Local Open Scope go_scope.

Definition eventStore_GetEvents (taskID : TaskID) : M W (result error (list Event)) :=
  fun w => (GetEvents (eventStore h) (events w) taskID, w).

Definition OnResubscribeToTask {C : Type} (id : TaskIDParams) : Seq2 W C :=
  fun yield c =>
    r <- eventStore_GetEvents (IDParams_ID id) ;;
    match r with
    | Err err =>
        ret (fst (yield c None
                    (Some ("failed to get events for task " ++ IDParams_ID id
                           ++ ": " ++ err))))
    | Ok events => ret (range_events yield events c)
    end.

Definition OnSendMessageStream {C : Type} (message : MessageSendParams) : Seq2 W C :=
  fun yield c =>
    r <- OnSendMessage h message ;;
    match r with
    | Err err => ret (fst (yield c None (Some err)))
    | Ok (ResultTask task) =>
        let statusEvent :=
          {| Event_Kind := "status-update";
             Event_TaskID := Task_ID task;
             Event_ContextID := Task_ContextID task;
             Event_Status := Task_Status task;
             Event_Final := false |} in
        ret (fst (yield c (Some (EventStatusUpdate statusEvent)) None))
    | Ok (ResultMessage _) => ret c
    end.

End Streaming.

(** A consumer that keeps what it receives and asks for more until it
    holds [limit] pairs. *)
Definition upto (limit : nat) : yield_fn (list (option Event * option error)) :=
  fun received event err =>
    let received := (received ++ [(event, err)])%list in
    (received, (length received <? limit)%nat).

(** A task table that can be read but refuses every write. *)
Module ReadOnly.

Definition taskStore : TaskStore (gmap TaskID Task) :=
  {| GetTask := GetTask Mem.taskStore;
     SaveTask m task := (m, Some "table is read-only");
     DeleteTask m taskID := (m, Some "table is read-only");
     ListTasks := ListTasks Mem.taskStore |}.

Definition handler : ServerlessA2AHandler _ _ _ :=
  NewServerlessA2AHandler taskStore Mem.eventStore Mem.pushNotifier.

End ReadOnly.

(** ** Package handler: the entry point (handler.go) *)

(** Modelled from the spec: [a2a.AgentCard] is declared by the SDK; the
    record carries the fields the repository fills in ([loadAgentCard]). *)
Record AgentCapabilities : Type := mkAgentCapabilities {
  Cap_PushNotifications : option bool;
  Cap_StateTransitionHistory : option bool;
  Cap_Streaming : option bool
}.

Record AgentCard : Type := mkAgentCard {
  Card_Name : string;
  Card_URL : string;
  Card_Description : string;
  Card_Version : string;
  Card_Capabilities : AgentCapabilities
}.

(** [Handler] *)
Record Handler (TS ES PN : Type) : Type := mkHandler {
  a2aHandler : ServerlessA2AHandler TS ES PN;
  agentCard : AgentCard
}.
Arguments a2aHandler {TS ES PN} _.
Arguments agentCard {TS ES PN} _.

Definition NewHandler {TS ES PN : Type} (a : ServerlessA2AHandler TS ES PN)
    (card : AgentCard) : Handler TS ES PN :=
  {| a2aHandler := a; agentCard := card |}.

(** The strings a response body can be: nothing, or the encoding of a
    JSON-RPC response, of the agent card, or of the document
    [{"error": message, "timestamp": seconds}]. *)
Inductive payload : Type :=
| NoPayload
| JSONRPCPayload (m : marshalled JSONRPCResponse)
| AgentCardPayload (m : marshalled AgentCard)
| ErrorPayload (m : marshalled (string * Z)).

(** [Response], with any of these bodies. *)
Record HTTPResponse : Type := mkHTTPResponse {
  HTTP_Status : Z;
  HTTP_Headers : gmap string string;
  HTTP_Body : payload
}.

Definition of_Response (r : Response) : HTTPResponse :=
  {| HTTP_Status := Response_Status r;
     HTTP_Headers := Response_Headers r;
     HTTP_Body := match Response_Body r with
                  | EmptyBody => NoPayload
                  | JSONBody m => JSONRPCPayload m
                  end |}.

Definition http_StatusNotFound : Z := 404.
Definition http_StatusInternalServerError : Z := 500.

(** [t.Unix()] for a time given by its [UnixNano()] *)
Definition Unix (t : Time) : Z := t / 1000000000.

Definition handleCORS : HTTPResponse :=
  {| HTTP_Status := http_StatusOK;
     HTTP_Headers :=
       <["Access-Control-Allow-Origin" := "*"]>
         (<["Access-Control-Allow-Methods" := "GET, POST, OPTIONS"]>
            (<["Access-Control-Allow-Headers" := "Content-Type, Authorization"]>
               (<["Access-Control-Max-Age" := "86400"]> ∅)));
     HTTP_Body := NoPayload |}.

Section Entry.

Context {TS ES PN : Type}.
Variable h : Handler TS ES PN.
Variable sdk : ParamsDecoder.

Local Abbreviation W := (World TS ES PN).
Local Open Scope go_scope.

Definition HandleError (message : string) (status : Z) : M W HTTPResponse :=
  now <- time_Now ;;
  let errorData := (message, Unix now) in
  ret {| HTTP_Status := status;
         HTTP_Headers := jsonrpc_headers;
         HTTP_Body := match json_Marshal errorData with
                      | Ok bytes => ErrorPayload bytes
                      | Err _ => NoPayload
                      end |}.

Definition handleAgentCard : M W HTTPResponse :=
  match json_Marshal (agentCard h) with
  | Err _ => HandleError "Failed to serialize agent card" http_StatusInternalServerError
  | Ok cardBytes =>
      ret {| HTTP_Status := http_StatusOK;
             HTTP_Headers := jsonrpc_headers;
             HTTP_Body := AgentCardPayload cardBytes |}
  end.

Definition HandleRequest (req : Request) : M W HTTPResponse :=
  if bool_decide (Request_Method req = "OPTIONS") then ret handleCORS
  else if bool_decide (Request_Method req = "GET")
          && (bool_decide (Request_URL req = "/")
              || bool_decide (Request_URL req = "/agent-card"))
  then handleAgentCard
  else if bool_decide (Request_Method req = "POST")
          && strings_Contains (default "" (Request_Headers req !! "content-type"))
               "application/json"
  then resp <- handleJSONRPC (a2aHandler h) sdk req ;; ret (of_Response resp)
  else HandleError "Unsupported request" http_StatusNotFound.

End Entry.


Definition sample_card : AgentCard :=
  {| Card_Name := "A2A Serverless Agent"; Card_URL := "https://example.com/agent";
     Card_Description := "A serverless A2A agent running on AWS Lambda";
     Card_Version := "1.0.0";
     Card_Capabilities := mkAgentCapabilities (Some true) None (Some false) |}.

(** A POST as HTTP clients usually send it, the header spelled
    Content-Type. *)
Definition capitalized_post : Request :=
  {| Request_Method := "POST"; Request_URL := "/";
     Request_Headers := <["Content-Type" := "application/json"]> ∅;
     Request_Body :=
       q "{'jsonrpc':'2.0','method':'tasks/cancel','params':{'id':'t1'},'id':1}" |}.

(** ** Package a2a: configuration records and their validation (types.go) *)

Record AWSConfig : Type := mkAWSConfig {
  AWS_SQSQueueURL : string;
  AWS_DynamoDBTable : string;
  AWS_Region : string;
  AWS_AccessKeyID : string;
  AWS_SecretAccessKey : string
}.

Record CloudProviderConfig : Type := mkCloudProviderConfig {
  Cloud_Provider : string;
  Cloud_AWS : option AWSConfig
}.

Record ServerlessConfig : Type := mkServerlessConfig {
  Config_AgentID : string;
  Config_AgentCard : AgentCard;
  Config_CloudConfig : CloudProviderConfig;
  Config_LogLevel : string
}.

Definition ValidateAWSConfig (config : AWSConfig) : option error :=
  if bool_decide (AWS_Region config = "") then Some "region is required"
  else if bool_decide (AWS_SQSQueueURL config = "") then Some "sqs_queue_url is required"
  else if bool_decide (AWS_DynamoDBTable config = "") then Some "dynamodb_table is required"
  else None.

Definition ValidateCloudProviderConfig (config : CloudProviderConfig) : option error :=
  if bool_decide (Cloud_Provider config = "") then Some "provider is required"
  else if bool_decide (Cloud_Provider config = "aws") then
    match Cloud_AWS config with
    | None => Some "aws configuration is required when provider is 'aws'"
    | Some aws => ValidateAWSConfig aws
    end
  else if bool_decide (Cloud_Provider config = "local") then None
  else Some ("unsupported provider: " ++ Cloud_Provider config).

Definition ValidateServerlessConfig (config : ServerlessConfig) : option error :=
  if bool_decide (Config_AgentID config = "") then Some "agent_id is required"
  else if bool_decide (Card_Name (Config_AgentCard config) = "")
  then Some "agent_card.name is required"
  else if bool_decide (Card_URL (Config_AgentCard config) = "")
  then Some "agent_card.url is required"
  else ValidateCloudProviderConfig (Config_CloudConfig config).

(** [TaskStorage] and [EventStorage], the storage metadata entries. *)
Record TaskStorage : Type := mkTaskStorage {
  TaskStorage_TaskID : TaskID;
  TaskStorage_ContextID : string;
  TaskStorage_StorageKey : string;
  TaskStorage_LastModified : Z;
  TaskStorage_TTL : option Z;
  TaskStorage_Metadata : gmap string string
}.

Record EventStorage : Type := mkEventStorage {
  EventStorage_EventID : string;
  EventStorage_TaskID : TaskID;
  EventStorage_EventType : string;
  EventStorage_StorageKey : string;
  EventStorage_Timestamp : Z;
  EventStorage_Processed : bool;
  EventStorage_Metadata : gmap string string
}.

Definition NewTaskStorage {TS ES PN : Type} (taskID : TaskID) (contextID : string)
  : M (World TS ES PN) TaskStorage :=
  bind time_Now (fun now =>
  ret {| TaskStorage_TaskID := taskID;
         TaskStorage_ContextID := contextID;
         TaskStorage_StorageKey := "task_" ++ taskID;
         TaskStorage_LastModified := Unix now;
         TaskStorage_TTL := None;
         TaskStorage_Metadata := ∅ |}).

Definition NewEventStorage {TS ES PN : Type} (eventID : string) (taskID : TaskID)
    (eventType : string) : M (World TS ES PN) EventStorage :=
  bind time_Now (fun now =>
  ret {| EventStorage_EventID := eventID;
         EventStorage_TaskID := taskID;
         EventStorage_EventType := eventType;
         EventStorage_StorageKey := "event_" ++ eventID;
         EventStorage_Timestamp := Unix now;
         EventStorage_Processed := false;
         EventStorage_Metadata := ∅ |}).

(** ** Package a2a: loading the configuration (config.go)

    The environment is a table from names to values; [os.Getenv] returns
    the empty string for a name that is not set. *)
Definition os_Getenv (env : gmap string string) (key : string) : string :=
  default "" (env !! key).

(** [strconv.ParseBool] *)
Definition strconv_ParseBool (s : string) : option bool :=
  if bool_decide (s ∈ ["1"; "t"; "T"; "TRUE"; "true"; "True"]) then Some true
  else if bool_decide (s ∈ ["0"; "f"; "F"; "FALSE"; "false"; "False"]) then Some false
  else None.

(** [strconv.Atoi]: an optional sign, decimal digits, a value that fits 64
    bits. *)
Definition strconv_Atoi (s : string) : option Z :=
  let '(negative, digits) :=
    match s with
    | String c r =>
        if (c =? "-")%char then (true, r)
        else if (c =? "+")%char then (false, r) else (false, s)
    | EmptyString => (false, s)
    end in
  match digits with
  | EmptyString => None
  | _ =>
      match digits_val 0 digits with
      | Some n =>
          let v := if negative then - n else n in
          if (- 2 ^ 63 <=? v) && (v <? 2 ^ 63) then Some v else None
      | None => None
      end
  end.

Definition getEnvOrDefault (env : gmap string string) (key defaultValue : string)
  : string :=
  let value := os_Getenv env key in
  if bool_decide (value <> "") then value else defaultValue.

Definition getEnvOrDefaultInt (env : gmap string string) (key : string)
    (defaultValue : Z) : Z :=
  let value := os_Getenv env key in
  if bool_decide (value <> "") then
    match strconv_Atoi value with
    | Some intValue => intValue
    | None => defaultValue
    end
  else defaultValue.

Definition getEnvOrDefaultBool (env : gmap string string) (key : string)
    (defaultValue : bool) : bool :=
  let value := os_Getenv env key in
  if bool_decide (value <> "") then
    match strconv_ParseBool value with
    | Some boolValue => boolValue
    | None => defaultValue
    end
  else defaultValue.

(** The three implementations of [CloudProviderInterface]. *)
Record GCPProvider : Type := mkGCPProvider {
  GCP_ProjectID : string;
  GCP_FirestoreDB : string;
  GCP_PubSubTopic : string;
  GCP_Region : string;
  GCP_CredentialsPath : string
}.

Record LocalProvider : Type := mkLocalProvider {
  Local_StoragePath : string;
  Local_EventPath : string
}.

Inductive CloudProviderInterface : Type :=
| AWSProviderOf (Config : AWSConfig)
| GCPProviderOf (p : GCPProvider)
| LocalProviderOf (p : LocalProvider).

Definition GetProviderType (p : CloudProviderInterface) : string :=
  match p with
  | AWSProviderOf _ => "aws"
  | GCPProviderOf _ => "gcp"
  | LocalProviderOf _ => "local"
  end.

(** [ValidateConfig] has a pointer receiver: the local provider fills in
    its defaults, so the provider is returned with the verdict. *)
Definition ValidateConfig (p : CloudProviderInterface)
  : CloudProviderInterface * option error :=
  match p with
  | AWSProviderOf config => (p, ValidateAWSConfig config)
  | GCPProviderOf g =>
      (p,
       if bool_decide (GCP_ProjectID g = "") then Some "gcp project_id is required"
       else if bool_decide (GCP_FirestoreDB g = "") then Some "gcp firestore_db is required"
       else if bool_decide (GCP_PubSubTopic g = "") then Some "gcp pubsub_topic is required"
       else if bool_decide (GCP_Region g = "") then Some "gcp region is required"
       else None)
  | LocalProviderOf l =>
      let storagePath :=
        if bool_decide (Local_StoragePath l = "") then "./local_storage"
        else Local_StoragePath l in
      let eventPath :=
        if bool_decide (Local_EventPath l = "") then "./local_events"
        else Local_EventPath l in
      (LocalProviderOf (mkLocalProvider storagePath eventPath), None)
  end.

Definition GetStorageConfig (p : CloudProviderInterface) : gmap string string :=
  match p with
  | AWSProviderOf config =>
      <["table_name" := AWS_DynamoDBTable config]> (<["region" := AWS_Region config]> ∅)
  | GCPProviderOf g =>
      <["project_id" := GCP_ProjectID g]>
        (<["firestore_db" := GCP_FirestoreDB g]>
           (<["region" := GCP_Region g]>
              (<["credentials_path" := GCP_CredentialsPath g]> ∅)))
  | LocalProviderOf l => <["storage_path" := Local_StoragePath l]> ∅
  end.

Definition GetEventConfig (p : CloudProviderInterface) : gmap string string :=
  match p with
  | AWSProviderOf config =>
      <["queue_url" := AWS_SQSQueueURL config]> (<["region" := AWS_Region config]> ∅)
  | GCPProviderOf g =>
      <["project_id" := GCP_ProjectID g]>
        (<["pubsub_topic" := GCP_PubSubTopic g]>
           (<["region" := GCP_Region g]>
              (<["credentials_path" := GCP_CredentialsPath g]> ∅)))
  | LocalProviderOf l => <["event_path" := Local_EventPath l]> ∅
  end.

Section ConfigLoader.

Variable env : gmap string string.

Definition capability (key : string) : option bool :=
  if bool_decide (os_Getenv env key <> "")
  then Some (getEnvOrDefaultBool env key false)
  else None.

Definition loadAgentCard : result error AgentCard :=
  let name := getEnvOrDefault env "A2A_AGENT_NAME" "" in
  if bool_decide (name = "") then
    Err "A2A_AGENT_NAME environment variable is required"
  else
    let url := getEnvOrDefault env "A2A_AGENT_URL" "" in
    if bool_decide (url = "") then
      Err "A2A_AGENT_URL environment variable is required"
    else
      let description := getEnvOrDefault env "A2A_AGENT_DESCRIPTION" "" in
      let version := getEnvOrDefault env "A2A_AGENT_VERSION" "1.0.0" in
      let capabilities :=
        {| Cap_PushNotifications := capability "A2A_AGENT_PUSH_NOTIFICATIONS";
           Cap_StateTransitionHistory := capability "A2A_AGENT_STATE_HISTORY";
           Cap_Streaming := capability "A2A_AGENT_STREAMING" |} in
      Ok {| Card_Name := name; Card_URL := url; Card_Description := description;
            Card_Version := version; Card_Capabilities := capabilities |}.

Definition loadAWSConfig : result error AWSConfig :=
  let region := getEnvOrDefault env "AWS_REGION" "us-east-1" in
  let sqsQueueURL := getEnvOrDefault env "AWS_SQS_QUEUE_URL" "" in
  let dynamoDBTable := getEnvOrDefault env "AWS_DYNAMODB_TABLE" "" in
  let accessKeyID := getEnvOrDefault env "AWS_ACCESS_KEY_ID" "" in
  let secretAccessKey := getEnvOrDefault env "AWS_SECRET_ACCESS_KEY" "" in
  Ok {| AWS_Region := region; AWS_SQSQueueURL := sqsQueueURL;
        AWS_DynamoDBTable := dynamoDBTable; AWS_AccessKeyID := accessKeyID;
        AWS_SecretAccessKey := secretAccessKey |}.

Definition zero_CloudProviderConfig : CloudProviderConfig :=
  {| Cloud_Provider := ""; Cloud_AWS := None |}.

Definition LoadCloudProviderConfig : result error CloudProviderConfig :=
  let provider := getEnvOrDefault env "CLOUD_PROVIDER" "local" in
  if bool_decide (provider = "aws") then
    match loadAWSConfig with
    | Err err => Err ("failed to load AWS config: " ++ err)
    | Ok awsConfig => Ok {| Cloud_Provider := provider; Cloud_AWS := Some awsConfig |}
    end
  else if bool_decide (provider = "gcp") then Err "GCP provider not yet implemented"
  else if bool_decide (provider = "local")
  then Ok {| Cloud_Provider := provider; Cloud_AWS := None |}
  else Err ("unsupported cloud provider: " ++ provider).

Definition CreateCloudProvider (config : CloudProviderConfig)
  : result error CloudProviderInterface :=
  if bool_decide (Cloud_Provider config = "aws") then
    match Cloud_AWS config with
    | None => Err "AWS configuration is required for AWS provider"
    | Some aws =>
        let '(provider, err) := ValidateConfig (AWSProviderOf aws) in
        match err with
        | Some err => Err ("AWS provider validation failed: " ++ err)
        | None => Ok provider
        end
    end
  else if bool_decide (Cloud_Provider config = "gcp")
  then Err "GCP provider not yet implemented"
  else if bool_decide (Cloud_Provider config = "local") then
    let '(provider, err) :=
      ValidateConfig
        (LocalProviderOf
           {| Local_StoragePath :=
                getEnvOrDefault env "LOCAL_STORAGE_PATH" "./local_storage";
              Local_EventPath :=
                getEnvOrDefault env "LOCAL_EVENT_PATH" "./local_events" |}) in
    match err with
    | Some err => Err ("local provider validation failed: " ++ err)
    | None => Ok provider
    end
  else Err ("unsupported cloud provider: " ++ Cloud_Provider config).

Definition LoadServerlessConfig : result error ServerlessConfig :=
  let agentID := getEnvOrDefault env "A2A_AGENT_ID" "" in
  if bool_decide (agentID = "") then
    Err "A2A_AGENT_ID environment variable is required"
  else
    match loadAgentCard with
    | Err err => Err ("failed to load agent card: " ++ err)
    | Ok agentCard =>
        match LoadCloudProviderConfig with
        | Err err => Err ("failed to load cloud provider config: " ++ err)
        | Ok cloudConfig =>
            let logLevel := getEnvOrDefault env "A2A_LOG_LEVEL" "info" in
            let config :=
              {| Config_AgentID := agentID; Config_AgentCard := agentCard;
                 Config_CloudConfig := cloudConfig; Config_LogLevel := logLevel |} in
            match ValidateServerlessConfig config with
            | Some err => Err ("configuration validation failed: " ++ err)
            | None => Ok config
            end
        end
    end.

(** [for _, env := range names { if os.Getenv(env) == "" { missing =
    append(missing, env) } }] *)
Definition append_missing (missing names : list string) : list string :=
  (missing ++ filter (fun name => os_Getenv env name = "") names)%list.

(** [strings.Join] *)
Fixpoint strings_Join (elems : list string) (sep : string) : string :=
  match elems with
  | [] => ""
  | [x] => x
  | x :: rest => x ++ sep ++ strings_Join rest sep
  end.

Definition ValidateEnvironmentVariables : option error :=
  let required := ["A2A_AGENT_ID"; "A2A_AGENT_NAME"; "A2A_AGENT_URL"] in
  let missing := append_missing [] required in
  if (0 <? length missing)%nat then
    Some ("missing required environment variables: " ++ strings_Join missing ", ")
  else
    let provider := getEnvOrDefault env "CLOUD_PROVIDER" "local" in
    let missing :=
      if bool_decide (provider = "aws")
      then append_missing missing ["AWS_SQS_QUEUE_URL"; "AWS_DYNAMODB_TABLE"]
      else if bool_decide (provider = "gcp")
      then append_missing missing ["GCP_PROJECT_ID"; "GCP_FIRESTORE_DB"; "GCP_PUBSUB_TOPIC"]
      else missing in
    if (0 <? length missing)%nat then
      Some ("missing required environment variables for " ++ provider
            ++ " provider: " ++ strings_Join missing ", ")
    else None.

End ConfigLoader.

(** Sample environments. *)
Definition env_local : gmap string string :=
  <["A2A_AGENT_ID" := "agent-1"]>
    (<["A2A_AGENT_NAME" := "Agent"]>
       (<["A2A_AGENT_URL" := "https://example.com/agent"]>
          (<["A2A_AGENT_STREAMING" := "yes"]> ∅))).

Definition env_gcp : gmap string string :=
  <["CLOUD_PROVIDER" := "gcp"]>
    (<["GCP_PROJECT_ID" := "p"]>
       (<["GCP_FIRESTORE_DB" := "db"]> (<["GCP_PUBSUB_TOPIC" := "topic"]> env_local))).

Definition env_aws : gmap string string :=
  <["CLOUD_PROVIDER" := "aws"]>
    (<["AWS_SQS_QUEUE_URL" := "https://sqs.example.com/q"]>
       (<["AWS_DYNAMODB_TABLE" := "a2a-tasks"]> env_local)).

(** * Properties *)

(** ** Auxiliary facts *)

Lemma is_nil_true (v : any) : is_nil v = true <-> v = Nil.
Proof.
  unfold Nil. split.
  - destruct v as [[]| |]; simpl; intros H; try discriminate; reflexivity.
  - intros ->. reflexivity.
Qed.

Lemma is_nil_false (v : any) : is_nil v = false <-> v <> Nil.
Proof.
  rewrite <- is_nil_true. destruct (is_nil v); split; congruence.
Qed.

Lemma length_zero (s : string) : (String.length s =? 0)%nat = true <-> s = "".
Proof.
  destruct s; simpl; split; intros H; try reflexivity; discriminate.
Qed.

Lemma parse_empty : parse "" = None.
Proof. reflexivity. Qed.



Lemma append_inj (p a b : string) : p ++ a = p ++ b -> a = b.
Proof.
  induction p as [|c p IH]; simpl; intros H; [exact H|].
  inversion H. apply IH. assumption.
Qed.

(** Two field names that differ after folding are never named by the same
    member. *)
Lemma names_exclusive (f g k : string) :
  fold_name f <> fold_name g -> names f k = true -> names g k = false.
Proof.
  unfold names. intros Hfg Hf.
  apply bool_decide_eq_true in Hf. apply bool_decide_eq_false. congruence.
Qed.

Ltac other_field f g H :=
  rewrite (names_exclusive f g _ ltac:(vm_compute; discriminate) H).

(** The id a request is decoded with is the value of the last member that
    names the field. *)
Lemma request_member_ID (st : JSONRPCRequest * option UnmarshalError) (k : string)
    (v : json) :
  Req_ID (fst (request_member st (k, v)))
  = if names "id" k then AJson v else Req_ID (fst st).
Proof.
  destruct st as [req err]. unfold request_member.
  destruct (names "jsonrpc" k) eqn:Hj.
  { other_field "jsonrpc" "id" Hj. destruct (store_string _ _ v); reflexivity. }
  destruct (names "method" k) eqn:Hm.
  { other_field "method" "id" Hm. destruct (store_string _ _ v); reflexivity. }
  destruct (names "params" k) eqn:Hp.
  { other_field "params" "id" Hp. reflexivity. }
  destruct (names "id" k); reflexivity.
Qed.

Lemma fold_request_ID (ms : list (string * json))
    (st : JSONRPCRequest * option UnmarshalError) :
  Req_ID (fst (fold_left request_member ms st))
  = match member "id" ms with
    | Some v => AJson v
    | None => Req_ID (fst st)
    end.
Proof.
  revert st. induction ms as [|[k v] ms IH]; intros st; simpl.
  - reflexivity.
  - rewrite IH. destruct (member "id" ms); [reflexivity|].
    rewrite request_member_ID. destruct (names "id" k); reflexivity.
Qed.

Lemma fold_partial_ID (ms : list (string * json)) (st : any) :
  fold_left partial_member ms st
  = match member "id" ms with
    | Some v => AJson v
    | None => st
    end.
Proof.
  revert st. induction ms as [|[k v] ms IH]; intros st; simpl.
  - reflexivity.
  - rewrite IH. destruct (member "id" ms); [reflexivity|].
    destruct (names "id" k); reflexivity.
Qed.

Lemma finish_Ok {A : Type} (st : A * option UnmarshalError) (a : A) :
  finish st = Ok a -> fst st = a.
Proof.
  destruct st as [x [e|]]; simpl; intros H; inversion H; reflexivity.
Qed.

Lemma ValidateJSONRPCRequest_None (req : JSONRPCRequest) :
  ValidateJSONRPCRequest req = None
  <-> Req_JSONRPC req = "2.0" /\ Req_Method req <> "" /\ Req_ID req <> Nil.
Proof.
  unfold ValidateJSONRPCRequest.
  repeat case_bool_decide; simpl; try (split; [discriminate | tauto]).
  destruct (is_nil (Req_ID req)) eqn:Hid.
  - apply is_nil_true in Hid. split; [discriminate | tauto].
  - apply is_nil_false in Hid. tauto.
Qed.

Lemma ValidateJSONRPCResponse_None (resp : JSONRPCResponse) :
  ValidateJSONRPCResponse resp = None
  <-> Resp_JSONRPC resp = "2.0" /\
      (Resp_Result resp <> Nil /\ Resp_Error resp = None \/
       Resp_Result resp = Nil /\ Resp_Error resp <> None).
Proof.
  unfold ValidateJSONRPCResponse.
  case_bool_decide; simpl; [|split; [discriminate | tauto]].
  destruct (is_nil (Resp_Result resp)) eqn:Hres;
    [apply is_nil_true in Hres | apply is_nil_false in Hres];
    case_bool_decide; simpl; split; try discriminate; tauto.
Qed.

(** ** The decoder on sample inputs, and the cases of the repository's tests
    ([TestParseJSONRPCRequest], [TestParseJSONRPCResponse],
    [TestExtractRequestID]) with the outcome each test expects *)

Example parse_request_example :
  parse (q "{'jsonrpc':'2.0','method':'test','params':{'key':'value'},'id':1}")
  = Some (JObj [("jsonrpc", JStr "2.0"); ("method", JStr "test");
                ("params", JObj [("key", JStr "value")]); ("id", JNum "1")]).
Proof. vm_compute. reflexivity. Qed.

Example parse_truncated_example :
  parse (q "{'jsonrpc':'2.0','method':'test','id':123") = None.
Proof. vm_compute. reflexivity. Qed.

Example parse_nested_example :
  parse (q " [ 1 , [true,false,null], {'a' : [ ] , 'b':{}} , -0.5e+3 , 'xA\n' ] ")
  = Some (JArr [JNum "1"; JArr [JBool true; JBool false; JNull];
                JObj [("a", JArr []); ("b", JObj [])]; JNum "-0.5e+3";
                JStr (String "x" (String "A" (String "010" "")))]).
Proof. vm_compute. reflexivity. Qed.

Example parse_rejects_examples :
  parse "" = None /\ parse "01" = None /\ parse "[1,]" = None /\
  parse (q "{'a':1,}") = None /\ parse "1 2" = None /\ parse "nul" = None /\
  parse (q "'a") = None /\ parse "-" = None /\ parse "1." = None.
Proof. vm_compute. repeat split; reflexivity. Qed.

Example TestParseJSONRPCRequest :
  map (fun d => code_of (ParseJSONRPCRequest (q d)))
    [ "{'jsonrpc':'2.0','method':'test','params':{'key':'value'},'id':1}";
      "{'jsonrpc':'2.0','method':'test','params':null,'id':'test-id'}";
      "{'jsonrpc':'2.0','method':'test','id':1}";
      "";
      "{'jsonrpc':'2.0','method':'test','id':1";
      "{'method':'test','id':1}";
      "{'jsonrpc':'1.0','method':'test','id':1}";
      "{'jsonrpc':'2.0','id':1}";
      "{'jsonrpc':'2.0','method':'','id':1}";
      "{'jsonrpc':'2.0','method':'test'}" ]
  = [ None; None; None; Some (-32700); Some (-32700); Some (-32600);
      Some (-32600); Some (-32600); Some (-32600); Some (-32600) ].
Proof. vm_compute. reflexivity. Qed.

Example TestParseJSONRPCResponse :
  map (fun d => code_of (ParseJSONRPCResponse (q d)))
    [ "{'jsonrpc':'2.0','result':{'status':'ok'},'id':1}";
      "{'jsonrpc':'2.0','error':{'code':-32601,'message':'Method not found'},'id':1}";
      "";
      "{'jsonrpc':'2.0','result':{'status':'ok'},'id':1";
      "{'jsonrpc':'2.0','result':{'status':'ok'},'error':{'code':-32601,'message':'Method not found'},'id':1}";
      "{'jsonrpc':'2.0','id':1}";
      "{'jsonrpc':'1.0','result':{'status':'ok'},'id':1}" ]
  = [ None; None; Some (-32700); Some (-32700); Some (-32600); Some (-32600);
      Some (-32600) ].
Proof. vm_compute. reflexivity. Qed.

Example TestExtractRequestID :
  map (fun d => ExtractRequestID (q d))
    [ "{'jsonrpc':'2.0','method':'test','id':123}";
      "{'jsonrpc':'2.0','method':'test','id':'test-id'}";
      "{'jsonrpc':'2.0','method':'test','id':null}";
      "{'jsonrpc':'2.0','method':'test'}";
      "{'jsonrpc':'2.0','method':'test','id':123";
      "" ]
  = [ AJson (JNum "123"); str "test-id"; Nil; Nil; Nil; Nil ].
Proof. vm_compute. reflexivity. Qed.

(** ** C8: the code of a server error *)

(** C8.  For every integer [code], [NewJSONRPCServerError] returns an error
    whose code lies in the closed range from -32099 to -32000: a code
    inside the range is kept, a code outside it is replaced by -32000;
    the message and the data are those supplied. *)
Theorem NewJSONRPCServerError_range (code : Z) (message : string) (data : any) :
  let e := NewJSONRPCServerError code message data in
  -32099 <= Err_Code e <= -32000
  /\ Err_Code e = (if (-32099 <=? code) && (code <=? -32000) then code else -32000)
  /\ Err_Message e = message
  /\ Err_Data e = data.
Proof.
  unfold NewJSONRPCServerError, JSONRPCErrorServerError. simpl.
  destruct (code >? -32000) eqn:Hhi, (code <? -32099) eqn:Hlo,
           (-32099 <=? code) eqn:Hlo', (code <=? -32000) eqn:Hhi'; simpl;
    repeat split; lia.
Qed.

(** ** C1: result and error of a response *)

(** C1 (amended).  [ValidateJSONRPCResponse] accepts a response exactly when
    its version is "2.0" and exactly one of result and error is set;
    [ParseJSONRPCResponse] and [SerializeJSONRPCResponse] fail with code
    -32600 on every response the validation rejects, and what they return
    without error satisfies it; every response built by
    [NewJSONRPCErrorResponse] is accepted, and one built by
    [NewJSONRPCResponse] is accepted exactly when the result given to the
    constructor is not nil. *)
Theorem response_cardinality :
  (forall resp,
      ValidateJSONRPCResponse resp = None
      <-> Resp_JSONRPC resp = "2.0" /\
          (Resp_Result resp <> Nil /\ Resp_Error resp = None \/
           Resp_Result resp = Nil /\ Resp_Error resp <> None))
  /\ (forall data resp,
         unmarshal_response data = Ok resp ->
         ValidateJSONRPCResponse resp <> None ->
         code_of (ParseJSONRPCResponse data) = Some JSONRPCErrorInvalidRequest)
  /\ (forall data resp,
         ParseJSONRPCResponse data = Ok resp -> ValidateJSONRPCResponse resp = None)
  /\ (forall resp,
         ValidateJSONRPCResponse resp <> None ->
         code_of (SerializeJSONRPCResponse resp) = Some JSONRPCErrorInvalidRequest)
  /\ (forall resp,
         ValidateJSONRPCResponse resp = None ->
         SerializeJSONRPCResponse resp = Ok (Marshalled resp))
  /\ (forall code message data id,
         ValidateJSONRPCResponse (NewJSONRPCErrorResponse code message data id) = None)
  /\ (forall res id,
         ValidateJSONRPCResponse (NewJSONRPCResponse res id) = None <-> res <> Nil).
Proof.
  split; [exact ValidateJSONRPCResponse_None|].
  split.
  { intros data resp Hdec Hbad. unfold ParseJSONRPCResponse.
    destruct (String.length data =? 0)%nat eqn:Hlen.
    - apply length_zero in Hlen. subst data. discriminate Hdec.
    - rewrite Hdec. destruct (ValidateJSONRPCResponse resp); [reflexivity | congruence]. }
  split.
  { intros data resp. unfold ParseJSONRPCResponse.
    destruct (String.length data =? 0)%nat; [discriminate|].
    destruct (unmarshal_response data) as [r|e]; [|discriminate].
    destruct (ValidateJSONRPCResponse r) eqn:Hv; [discriminate|].
    intros H. inversion H. subst. exact Hv. }
  split.
  { intros resp Hbad. unfold SerializeJSONRPCResponse.
    destruct (ValidateJSONRPCResponse resp); [reflexivity | congruence]. }
  split.
  { intros resp Hok. unfold SerializeJSONRPCResponse. rewrite Hok. reflexivity. }
  split.
  { intros code message data id. reflexivity. }
  intros res id. rewrite ValidateJSONRPCResponse_None. simpl.
  split.
  - intros [_ [[H _]|[_ H]]]; [exact H | congruence].
  - intros H. split; [reflexivity|]. left. split; [exact H | reflexivity].
Qed.

(** C1, as claimed, fails for the success constructor: given a nil result
    it builds a response with neither result nor error, which the
    validation and the serializer reject. *)
Lemma NewJSONRPCResponse_nil_result_rejected :
  let resp := NewJSONRPCResponse Nil (AJson (JNum "1")) in
  Resp_Result resp = Nil
  /\ Resp_Error resp = None
  /\ ValidateJSONRPCResponse resp = Some "response must have either result or error"
  /\ code_of (SerializeJSONRPCResponse resp) = Some (-32600).
Proof. vm_compute. repeat split; reflexivity. Qed.

Lemma response_cardinality_witness :
  code_of (ParseJSONRPCResponse (q "{'jsonrpc':'2.0','id':1}")) = Some (-32600)
  /\ code_of (SerializeJSONRPCResponse (NewJSONRPCResponse Nil (str "a"))) = Some (-32600)
  /\ ValidateJSONRPCResponse (NewJSONRPCResponse (str "ok") (str "a")) = None.
Proof.
  destruct response_cardinality as (_ & Hparse & _ & Hser & _ & _ & Hnew).
  split; [|split].
  - apply (Hparse _ (mkJSONRPCResponse "2.0" Nil None (AJson (JNum "1")))).
    + vm_compute. reflexivity.
    + vm_compute. discriminate.
  - apply Hser. vm_compute. discriminate.
  - apply Hnew. vm_compute. discriminate.
Defined.

(** ** C5: the errors of [ParseJSONRPCRequest] *)

(** X27.  What [ParseJSONRPCRequest] does on every input: it fails with code
    -32700 exactly on empty input and on input that [json.Unmarshal]
    rejects (malformed JSON, or a value that does not fit the request
    struct); it fails with code -32600 exactly when the input decodes and
    the version is not "2.0", the method is empty or the id is nil; and the
    id of a decoded object is nil exactly when the id member is absent or
    is null. *)
Theorem ParseJSONRPCRequest_errors (data : string) :
  (code_of (ParseJSONRPCRequest data) = Some JSONRPCErrorParseError
   <-> data = "" \/ exists e, unmarshal_request data = Err e)
  /\ (code_of (ParseJSONRPCRequest data) = Some JSONRPCErrorInvalidRequest
      <-> data <> "" /\
          exists req, unmarshal_request data = Ok req /\
                      (Req_JSONRPC req <> "2.0" \/ Req_Method req = "" \/
                       Req_ID req = Nil))
  /\ (forall ms req,
         parse data = Some (JObj ms) ->
         unmarshal_request data = Ok req ->
         (Req_ID req = Nil
          <-> member "id" ms = None \/ member "id" ms = Some JNull)).
Proof.
  assert (Hvalid : forall req,
             ValidateJSONRPCRequest req <> None
             <-> Req_JSONRPC req <> "2.0" \/ Req_Method req = "" \/ Req_ID req = Nil).
  { intros req. rewrite ValidateJSONRPCRequest_None.
    destruct (decide (Req_JSONRPC req = "2.0")), (decide (Req_Method req = "")),
             (is_nil (Req_ID req)) eqn:Hid;
      [apply is_nil_true in Hid | apply is_nil_false in Hid
      |apply is_nil_true in Hid | apply is_nil_false in Hid
      |apply is_nil_true in Hid | apply is_nil_false in Hid
      |apply is_nil_true in Hid | apply is_nil_false in Hid]; tauto. }
  unfold ParseJSONRPCRequest.
  destruct (String.length data =? 0)%nat eqn:Hlen.
  { apply length_zero in Hlen. subst data. simpl.
    split; [|split].
    - split; [intros _; left; reflexivity | reflexivity].
    - split; [discriminate | intros [H _]; congruence].
    - intros ms req H. discriminate H. }
  assert (Hne : data <> "").
  { intros ->. discriminate Hlen. }
  split; [|split].
  - destruct (unmarshal_request data) as [req|e]; simpl.
    + destruct (ValidateJSONRPCRequest req); simpl;
        (split; [discriminate | intros [H|[u H]]; congruence]).
    + split; [intros _; right; eauto | reflexivity].
  - destruct (unmarshal_request data) as [req|e]; simpl.
    + specialize (Hvalid req).
      destruct (ValidateJSONRPCRequest req) eqn:Hv; simpl.
      * split; [|reflexivity]. intros _. split; [exact Hne|].
        exists req. split; [reflexivity|]. apply Hvalid. discriminate.
      * split; [discriminate|]. intros [_ (req' & Heq & Hbad)].
        inversion Heq. subst req'. apply Hvalid in Hbad. congruence.
    + split; [discriminate|]. intros [_ (req & Heq & _)]. discriminate.
  - intros ms req Hparse. unfold unmarshal_request. rewrite Hparse. simpl.
    intros Hfin. apply finish_Ok in Hfin. subst req. rewrite fold_request_ID.
    destruct (member "id" ms) as [v|]; simpl.
    + split.
      * intros H. right. unfold Nil in H. congruence.
      * intros [H|H]; [discriminate | inversion H; reflexivity].
    + split; [intros _; left; reflexivity | reflexivity].
Qed.

(** C5.  A request whose id member is an explicit null is to be valid, one
    without id member is not.  [ParseJSONRPCRequest] rejects both with code
    -32600 and the text "id is required": [json.Unmarshal] stores nil for
    a null, and the validation tests the id against nil. *)
Lemma ParseJSONRPCRequest_null_id_rejected :
  ParseJSONRPCRequest (q "{'jsonrpc':'2.0','method':'test','id':null}")
  = Err (NewJSONRPCInvalidRequestError "id is required")
  /\ ParseJSONRPCRequest (q "{'jsonrpc':'2.0','method':'test'}")
     = Err (NewJSONRPCInvalidRequestError "id is required").
Proof. vm_compute. split; reflexivity. Qed.

Lemma ParseJSONRPCRequest_errors_example :
  code_of (ParseJSONRPCRequest (q "{'jsonrpc':'2.0','method':5,'id':1}"))
  = Some (-32700)
  /\ code_of (ParseJSONRPCRequest (q "{'jsonrpc':'2.0','method':'test','id':null}"))
     = Some (-32600).
Proof.
  split.
  - apply (proj1 (ParseJSONRPCRequest_errors _)). right.
    exists (UnmarshalTypeError "method"). vm_compute. reflexivity.
  - apply (proj1 (proj2 (ParseJSONRPCRequest_errors _))). split.
    + vm_compute. discriminate.
    + exists (mkJSONRPCRequest "2.0" "test" Nil Nil). split.
      * vm_compute. reflexivity.
      * right. right. reflexivity.
Defined.

(** ** C9: [ExtractRequestID] *)

(** C9.  [ExtractRequestID] returns a value for every input and has no
    error to return: it returns nil on empty input, on input that is not
    well-formed JSON and on well-formed JSON without id member, and it
    returns "x" on an object whose id member is the string "x", whatever
    the other members are. *)
Theorem ExtractRequestID_resilient (data : string) :
  (data = "" -> ExtractRequestID data = Nil)
  /\ (parse data = None -> ExtractRequestID data = Nil)
  /\ (forall v, parse data = Some v ->
                (forall ms, v = JObj ms -> member "id" ms = None) ->
                ExtractRequestID data = Nil)
  /\ (forall ms x, parse data = Some (JObj ms) -> member "id" ms = Some (JStr x) ->
                   ExtractRequestID data = str x).
Proof.
  unfold ExtractRequestID, unmarshal_partial.
  split; [|split; [|split]].
  - intros ->. reflexivity.
  - intros ->. reflexivity.
  - intros v -> Hid. destruct v as [| | | | |ms]; try reflexivity.
    rewrite fold_partial_ID, (Hid ms eq_refl). reflexivity.
  - intros ms x -> Hid. rewrite fold_partial_ID, Hid. reflexivity.
Qed.

Lemma ExtractRequestID_resilient_witness :
  ExtractRequestID "" = Nil
  /\ ExtractRequestID (q "{'jsonrpc':'2.0','method':'test','id':123") = Nil
  /\ ExtractRequestID (q "{'jsonrpc':'2.0','method':'test'}") = Nil
  /\ ExtractRequestID (q "{'id':'x','jsonrpc':2,'method':['tasks/get']}") = str "x"
  /\ code_of (ParseJSONRPCRequest (q "{'id':'x','jsonrpc':2,'method':['tasks/get']}"))
     = Some (-32700).
Proof.
  split; [|split; [|split; [|split]]].
  - apply (proj1 (ExtractRequestID_resilient "")). reflexivity.
  - apply (proj1 (proj2 (ExtractRequestID_resilient _))). vm_compute. reflexivity.
  - apply (proj1 (proj2 (proj2 (ExtractRequestID_resilient _)))
             (JObj [("jsonrpc", JStr "2.0"); ("method", JStr "test")])).
    + vm_compute. reflexivity.
    + intros ms Hms. inversion Hms. reflexivity.
  - apply (proj2 (proj2 (proj2 (ExtractRequestID_resilient _)))
             [("id", JStr "x"); ("jsonrpc", JNum "2");
              ("method", JArr [JStr "tasks/get"])]);
      vm_compute; reflexivity.
  - vm_compute. reflexivity.
Defined.

(** ** The lifecycle handler *)

Section ServerFacts.

Context {TS ES PN : Type}.
Variable h : ServerlessA2AHandler TS ES PN.

Local Abbreviation W := (World TS ES PN).

(** One run of [OnCancelTask] on a stored task whose save succeeds. *)
Lemma OnCancelTask_step (id : TaskIDParams) (w : W) (task : Task) (ts : TS) :
  GetTask (taskStore h) (tasks w) (IDParams_ID id) = Ok task ->
  SaveTask (taskStore h) (tasks w) (canceled task (clock w (ticks w))) = (ts, None) ->
  exists w',
    OnCancelTask h id w = (Ok (canceled task (clock w (ticks w))), w')
    /\ tasks w' = ts
    /\ events w'
       = fst (SaveEvent (eventStore h) (events w)
                (final_event (canceled task (clock w (ticks w)))))
    /\ notifier w' = notifier w
    /\ clock w' = clock w
    /\ ticks w' = S (ticks w).
Proof.
  intros Hget Hsave.
  unfold OnCancelTask, bind, ret, taskStore_GetTask, time_Now, taskStore_SaveTask,
    eventStore_SaveEvent, fmt_Printf. simpl.
  rewrite Hget. simpl. fold (canceled task (clock w (ticks w))).
  rewrite Hsave. simpl. fold (final_event (canceled task (clock w (ticks w)))).
  destruct (SaveEvent (eventStore h) (events w) _) as [es [err|]]; simpl;
    eexists; repeat split.
Qed.

Lemma OnGetTask_world (query : TaskQueryParams) (w : W) :
  snd (OnGetTask h query w) = w.
Proof.
  unfold OnGetTask, bind, ret, taskStore_GetTask. simpl.
  destruct (GetTask _ _ _); reflexivity.
Qed.

Lemma OnGetTask_unlimited (id : TaskID) (md : gmap string json) (w : W) (task : Task) :
  GetTask (taskStore h) (tasks w) id = Ok task ->
  OnGetTask h (mkTaskQueryParams id None md) w = (Ok task, w).
Proof.
  intros Hget. unfold OnGetTask, bind, ret, taskStore_GetTask. simpl.
  rewrite Hget. reflexivity.
Qed.

End ServerFacts.

(** ** C4: history truncation is a view *)

(** C4.  For every stored task, [OnGetTask] with a limit k that is positive
    and smaller than the length of the history returns a task whose history
    is exactly the k most recent messages of the stored history, in their
    order, every other field as stored; without a limit, or with one that
    is not positive or not smaller than the length, it returns the task as
    stored; in every case the world is left as it was, so that an
    [OnGetTask] without limit that follows returns the full history. *)
Theorem OnGetTask_view {TS ES PN : Type} (h : ServerlessA2AHandler TS ES PN)
    (w : World TS ES PN) (id : TaskID) (limit : option Z) (md : gmap string json)
    (task : Task) :
  GetTask (taskStore h) (tasks w) id = Ok task ->
  let n := Z.of_nat (length (Task_History task)) in
  let query := mkTaskQueryParams id limit md in
  (forall k, limit = Some k -> 0 < k < n ->
     exists (older recent : list Message) (task' : Task),
       fst (OnGetTask h query w) = Ok task'
       /\ Task_History task' = recent
       /\ Task_History task = (older ++ recent)%list
       /\ Z.of_nat (length recent) = k
       /\ recent = drop (Z.to_nat (n - k)) (Task_History task)
       /\ Task_ID task' = Task_ID task
       /\ Task_ContextID task' = Task_ContextID task
       /\ Task_Kind task' = Task_Kind task
       /\ Task_Status task' = Task_Status task
       /\ Task_Artifacts task' = Task_Artifacts task
       /\ Task_Metadata task' = Task_Metadata task
       /\ task' = with_History task recent)
  /\ (limit = None \/ (exists k, limit = Some k /\ (k <= 0 \/ n <= k)) ->
      fst (OnGetTask h query w) = Ok task)
  /\ snd (OnGetTask h query w) = w
  /\ OnGetTask h (mkTaskQueryParams id None md) (snd (OnGetTask h query w))
     = (Ok task, w).
Proof.
  intros Hget n query.
  assert (Hworld : snd (OnGetTask h query w) = w) by apply OnGetTask_world.
  split; [|split; [|split]].
  - intros k -> Hk.
    exists (take (Z.to_nat (n - k)) (Task_History task)),
           (drop (Z.to_nat (n - k)) (Task_History task)),
           (with_History task (drop (Z.to_nat (n - k)) (Task_History task))).
    split.
    { unfold OnGetTask, bind, ret, taskStore_GetTask. simpl. rewrite Hget. simpl.
      fold n.
      replace (k >? 0) with true by (symmetry; apply Z.gtb_lt; lia).
      replace (n >? k) with true by (symmetry; apply Z.gtb_lt; lia).
      reflexivity. }
    split; [reflexivity|].
    split; [symmetry; apply take_drop|].
    split; [rewrite length_drop; subst n; lia|].
    repeat split.
  - intros Hlim.
    unfold OnGetTask, bind, ret, taskStore_GetTask. simpl. rewrite Hget. simpl.
    fold n.
    destruct Hlim as [-> | (k & -> & Hk)]; [reflexivity|].
    destruct (k >? 0) eqn:Hpos; [|reflexivity].
    apply Z.gtb_lt in Hpos.
    replace (n >? k) with false; [reflexivity|].
    symmetry. rewrite Z.gtb_ltb. apply Z.ltb_ge. lia.
  - exact Hworld.
  - rewrite Hworld. apply OnGetTask_unlimited. exact Hget.
Qed.

Lemma OnGetTask_view_witness :
  (exists task' : Task,
      fst (OnGetTask Mem.handler (mkTaskQueryParams "t1" (Some 2) ∅) Sample.w0)
      = Ok task'
      /\ Task_History task' = [Sample.message "m4"; Sample.message "m5"]
      /\ length (Task_History Sample.t1) = 5%nat
      /\ Task_Status task' = Task_Status Sample.t1)
  /\ OnGetTask Mem.handler (mkTaskQueryParams "t1" None ∅)
       (snd (OnGetTask Mem.handler (mkTaskQueryParams "t1" (Some 2) ∅) Sample.w0))
     = (Ok Sample.t1, Sample.w0).
Proof.
  destruct (OnGetTask_view Mem.handler Sample.w0 "t1" (Some 2) ∅ Sample.t1)
    as (Hcut & _ & _ & Hnext).
  - vm_compute. reflexivity.
  - split; [|exact Hnext].
    destruct (Hcut 2 eq_refl)
      as (older & recent & task' & Hres & Hhist & _ & _ & Hrecent & _ & _ & _ &
          Hstatus & _).
    + simpl. lia.
    + exists task'. split; [exact Hres|].
      split; [rewrite Hhist, Hrecent; reflexivity|].
      split; [reflexivity | exact Hstatus].
Defined.

(** ** C10: what cancel leaves alone *)

(** C10.  Whenever [OnCancelTask] returns a task, that task is the one
    loaded from the repository with only its status replaced: ID, context
    ID, kind, history, artifacts and metadata are those of the loaded
    task, and the task handed to the repository to persist is the task
    returned. *)
Theorem OnCancelTask_frame {TS ES PN : Type} (h : ServerlessA2AHandler TS ES PN)
    (w w' : World TS ES PN) (id : TaskIDParams) (task' : Task) :
  OnCancelTask h id w = (Ok task', w') ->
  exists task,
    GetTask (taskStore h) (tasks w) (IDParams_ID id) = Ok task
    /\ task' = with_Status task (Task_Status task')
    /\ Task_ID task' = Task_ID task
    /\ Task_ContextID task' = Task_ContextID task
    /\ Task_Kind task' = Task_Kind task
    /\ Task_History task' = Task_History task
    /\ Task_Artifacts task' = Task_Artifacts task
    /\ Task_Metadata task' = Task_Metadata task
    /\ SaveTask (taskStore h) (tasks w) task' = (tasks w', None).
Proof.
  unfold OnCancelTask, bind, ret, taskStore_GetTask, time_Now, taskStore_SaveTask,
    eventStore_SaveEvent, fmt_Printf. simpl.
  destruct (GetTask (taskStore h) (tasks w) (IDParams_ID id)) as [task|e];
    simpl; [|discriminate].
  destruct (SaveTask (taskStore h) (tasks w) _) as [ts [err|]] eqn:Hsave;
    simpl; [discriminate|].
  destruct (SaveEvent (eventStore h) (events w) _) as [es [err|]]; simpl;
    intros H; inversion H; subst; clear H; simpl;
    exists task; rewrite Hsave; repeat split.
Qed.

Lemma OnCancelTask_frame_witness :
  exists task' w',
    OnCancelTask Mem.handler (mkTaskIDParams "t1" ∅) Sample.w0 = (Ok task', w')
    /\ Task_ID task' = "t1"
    /\ Task_History task' = Task_History Sample.t1
    /\ task' = with_Status Sample.t1 (Task_Status task').
Proof.
  exists (canceled Sample.t1 1000).
  eexists. split; [vm_compute; reflexivity|].
  destruct (OnCancelTask_frame Mem.handler Sample.w0 _ (mkTaskIDParams "t1" ∅)
              (canceled Sample.t1 1000) ltac:(vm_compute; reflexivity))
    as (task & Hget & Heq & Hid & _ & _ & Hhist & _).
  assert (Hstored : @Ok error Task task = Ok Sample.t1)
    by (rewrite <- Hget; vm_compute; reflexivity).
  inversion Hstored. subst task.
  split; [exact Hid|]. split; [exact Hhist | exact Heq].
Defined.

(** ** C3: cancelling twice *)

(** C3.  For every stored task, whatever its state, [OnCancelTask] returns
    the task with state Canceled without error, hands it to the repository
    to persist and appends a status update event with Final set; a second
    cancel of the same task, which the repository now returns as persisted,
    succeeds again, leaves the state Canceled and appends one more final
    status event.  The saves of the repository are assumed to succeed. *)
Theorem OnCancelTask_reentrant {TS ES PN : Type} (h : ServerlessA2AHandler TS ES PN)
    (w : World TS ES PN) (id : TaskIDParams) (task : Task) (ts1 ts2 : TS) :
  let t1 := canceled task (clock w (ticks w)) in
  let t2 := canceled t1 (clock w (S (ticks w))) in
  GetTask (taskStore h) (tasks w) (IDParams_ID id) = Ok task ->
  SaveTask (taskStore h) (tasks w) t1 = (ts1, None) ->
  GetTask (taskStore h) ts1 (IDParams_ID id) = Ok t1 ->
  SaveTask (taskStore h) ts1 t2 = (ts2, None) ->
  exists w1 w2 e1 e2,
    OnCancelTask h id w = (Ok t1, w1)
    /\ Status_State (Task_Status t1) = TaskStateCanceled
    /\ tasks w1 = ts1
    /\ events w1 = fst (SaveEvent (eventStore h) (events w) (EventStatusUpdate e1))
    /\ Event_TaskID e1 = Task_ID task /\ Event_Status e1 = Task_Status t1
    /\ Event_Final e1 = true
    /\ OnCancelTask h id w1 = (Ok t2, w2)
    /\ Status_State (Task_Status t2) = TaskStateCanceled
    /\ tasks w2 = ts2
    /\ events w2 = fst (SaveEvent (eventStore h) (events w1) (EventStatusUpdate e2))
    /\ Event_TaskID e2 = Task_ID task /\ Event_Status e2 = Task_Status t2
    /\ Event_Final e2 = true.
Proof.
  intros t1 t2 Hget1 Hsave1 Hget2 Hsave2.
  destruct (OnCancelTask_step h id w task ts1 Hget1 Hsave1)
    as (w1 & Hrun1 & Hts1 & Hes1 & _ & Hclock & Hticks).
  assert (Hget2' : GetTask (taskStore h) (tasks w1) (IDParams_ID id) = Ok t1)
    by (rewrite Hts1; exact Hget2).
  assert (Hsave2' : SaveTask (taskStore h) (tasks w1) (canceled t1 (clock w1 (ticks w1)))
                    = (ts2, None))
    by (rewrite Hts1, Hclock, Hticks; exact Hsave2).
  destruct (OnCancelTask_step h id w1 t1 ts2 Hget2' Hsave2')
    as (w2 & Hrun2 & Hts2 & Hes2 & _).
  rewrite Hclock, Hticks in Hrun2, Hes2.
  exists w1, w2. eexists. eexists.
  split; [exact Hrun1|]. split; [reflexivity|]. split; [exact Hts1|].
  split; [exact Hes1|]. split; [reflexivity|]. split; [reflexivity|].
  split; [reflexivity|].
  split; [exact Hrun2|]. split; [reflexivity|]. split; [exact Hts2|].
  split; [exact Hes2|]. repeat split.
Qed.

Lemma OnCancelTask_reentrant_witness :
  exists w1 w2,
    OnCancelTask Mem.handler (mkTaskIDParams "t1" ∅) Sample.w0
    = (Ok (canceled Sample.t1 1000), w1)
    /\ OnCancelTask Mem.handler (mkTaskIDParams "t1" ∅) w1
       = (Ok (canceled Sample.t1 1001), w2)
    /\ events w2 = [final_event (canceled Sample.t1 1000);
                    final_event (canceled Sample.t1 1001)].
Proof.
  destruct (OnCancelTask_reentrant Mem.handler Sample.w0 (mkTaskIDParams "t1" ∅)
              Sample.t1
              (<["t1" := canceled Sample.t1 1000]> (tasks Sample.w0))
              (<["t1" := canceled Sample.t1 1001]>
                 (<["t1" := canceled Sample.t1 1000]> (tasks Sample.w0))))
    as (w1 & w2 & e1 & e2 & H1 & _ & _ & He1 & _ & _ & _ & H2 & _ & _ & He2 & _).
  - vm_compute. reflexivity.
  - reflexivity.
  - vm_compute. reflexivity.
  - reflexivity.
  - exists w1, w2. split; [exact H1|]. split; [exact H2|].
    inversion H1. subst w1. inversion H2. subst w2. reflexivity.
Defined.

(** ** C7: the notification sink *)

(** C7 (amended).  No operation of the lifecycle handler calls the
    notification sink: [OnGetTask], [OnCancelTask] and [OnSendMessage]
    leave the state of the sink as it was, and what they do is the same
    whatever sink the handler holds.  What [OnCancelTask] tolerates is a
    failure of the event append: once the canceled task is persisted, the
    canceled task is returned whether or not the status event could be
    saved, and a failure to save it is reported on the standard output. *)
Theorem notification_sink_unused {TS ES PN : Type} (h : ServerlessA2AHandler TS ES PN)
    (w : World TS ES PN) :
  (forall query, notifier (snd (OnGetTask h query w)) = notifier w)
  /\ (forall id, notifier (snd (OnCancelTask h id w)) = notifier w)
  /\ (forall message, notifier (snd (OnSendMessage h message w)) = notifier w)
  /\ (forall (sink : PushNotifier PN),
         let h' := NewServerlessA2AHandler (taskStore h) (eventStore h) sink in
         (forall query, OnGetTask h' query w = OnGetTask h query w)
         /\ (forall id, OnCancelTask h' id w = OnCancelTask h id w)
         /\ (forall message, OnSendMessage h' message w = OnSendMessage h message w))
  /\ (forall id task ts,
         GetTask (taskStore h) (tasks w) (IDParams_ID id) = Ok task ->
         SaveTask (taskStore h) (tasks w) (canceled task (clock w (ticks w)))
         = (ts, None) ->
         fst (OnCancelTask h id w) = Ok (canceled task (clock w (ticks w)))
         /\ (forall es err,
                SaveEvent (eventStore h) (events w)
                  (final_event (canceled task (clock w (ticks w)))) = (es, Some err) ->
                stdout (snd (OnCancelTask h id w))
                = (stdout w ++ [save_event_warning id err])%list)).
Proof.
  split; [|split; [|split; [|split]]].
  - intros query. rewrite OnGetTask_world. reflexivity.
  - intros id.
    unfold OnCancelTask, bind, ret, taskStore_GetTask, time_Now, taskStore_SaveTask,
      eventStore_SaveEvent, fmt_Printf. simpl.
    destruct (GetTask _ _ _) as [task|e]; simpl; [|reflexivity].
    destruct (SaveTask _ _ _) as [ts [err|]]; simpl; [reflexivity|].
    destruct (SaveEvent _ _ _) as [es [err|]]; reflexivity.
  - intros message.
    unfold OnSendMessage, generateContextID, bind, ret, taskStore_GetTask, time_Now,
      taskStore_SaveTask. simpl.
    destruct (Message_TaskID (Send_Message message)) as [taskID|]; simpl.
    + destruct (GetTask _ _ _) as [task|e]; simpl; [|reflexivity].
      destruct (SaveTask _ _ _) as [ts [err|]]; reflexivity.
    + destruct (SaveTask _ _ _) as [ts [err|]]; reflexivity.
  - intros sink h'. repeat split.
  - intros id task ts Hget Hsave.
    destruct (OnCancelTask_step h id w task ts Hget Hsave) as (w' & Hrun & _).
    split; [rewrite Hrun; reflexivity|].
    intros es err Hev. clear Hrun.
    unfold OnCancelTask, bind, ret, taskStore_GetTask, time_Now, taskStore_SaveTask,
      eventStore_SaveEvent, fmt_Printf. simpl.
    rewrite Hget. simpl. fold (canceled task (clock w (ticks w))).
    rewrite Hsave. simpl.
    unfold final_event, canceled in Hev. simpl in Hev. rewrite Hev. reflexivity.
Qed.

(** C7, as claimed, fails: the task is canceled and persisted and the
    status event is appended, yet the sink, which records every call it
    receives, has received none. *)
Lemma OnCancelTask_sends_no_notification :
  exists w1,
    OnCancelTask Mem.handler (mkTaskIDParams "t1" ∅) Sample.w0
    = (Ok (canceled Sample.t1 1000), w1)
    /\ tasks w1 !! "t1" = Some (canceled Sample.t1 1000)
    /\ events w1 = [final_event (canceled Sample.t1 1000)]
    /\ notifier w1 = [].
Proof.
  eexists. split; [vm_compute; reflexivity|].
  split; [vm_compute; reflexivity|]. split; reflexivity.
Qed.

Lemma notification_sink_unused_witness :
  fst (OnCancelTask Mem.brokenEventsHandler (mkTaskIDParams "t1" ∅) Sample.w0)
  = Ok (canceled Sample.t1 1000)
  /\ stdout (snd (OnCancelTask Mem.brokenEventsHandler (mkTaskIDParams "t1" ∅) Sample.w0))
     = [save_event_warning (mkTaskIDParams "t1" ∅) "event table unavailable"].
Proof.
  destruct (notification_sink_unused Mem.brokenEventsHandler Sample.w0)
    as (_ & _ & _ & _ & H).
  destruct (H (mkTaskIDParams "t1" ∅) Sample.t1
              (<["t1" := canceled Sample.t1 1000]> (tasks Sample.w0)))
    as [Hres Hout].
  - vm_compute. reflexivity.
  - reflexivity.
  - split; [exact Hres|].
    exact (Hout (events Sample.w0) "event table unavailable" eq_refl).
Defined.

(** ** C2: a message without task reference *)



(** ** C6: the error responses of the router *)

Lemma answers_error (code : Z) (message : string) (data id : any) :
  answers (handleJSONRPCError code message data id)
          (NewJSONRPCErrorResponse code message data id).
Proof. split; reflexivity. Qed.

Lemma answers_success (res id : any) :
  answers (handleJSONRPCSuccess res id) (NewJSONRPCResponse res id).
Proof. split; reflexivity. Qed.

Section RouterFacts.

Context {TS ES PN : Type}.
Variable h : ServerlessA2AHandler TS ES PN.
Variable sdk : ParamsDecoder.

Local Abbreviation W := (World TS ES PN).

(** Each handler answers with the id of the request it is given. *)
Lemma handleGetTask_ID (r : JSONRPCRequest) (w : W) :
  exists jr, answers (fst (handleGetTask h sdk r w)) jr /\ Resp_ID jr = Req_ID r.
Proof.
  unfold handleGetTask, bind, ret.
  destruct (if is_nil (Req_Params r) then _ else _) as [p|e]; simpl.
  - destruct (OnGetTask h p w) as [[task|e] w']; simpl; eexists;
      (split; [first [apply answers_error | apply answers_success] | reflexivity]).
  - eexists. split; [apply answers_error | reflexivity].
Qed.

Lemma handleCancelTask_ID (r : JSONRPCRequest) (w : W) :
  exists jr, answers (fst (handleCancelTask h sdk r w)) jr /\ Resp_ID jr = Req_ID r.
Proof.
  unfold handleCancelTask, bind, ret.
  destruct (if is_nil (Req_Params r) then _ else _) as [p|e]; simpl.
  - destruct (OnCancelTask h p w) as [[task|e] w']; simpl; eexists;
      (split; [first [apply answers_error | apply answers_success] | reflexivity]).
  - eexists. split; [apply answers_error | reflexivity].
Qed.

Lemma handleSendMessage_ID (r : JSONRPCRequest) (w : W) :
  exists jr, answers (fst (handleSendMessage h sdk r w)) jr /\ Resp_ID jr = Req_ID r.
Proof.
  unfold handleSendMessage, bind, ret.
  destruct (if is_nil (Req_Params r) then _ else _) as [p|e]; simpl.
  - destruct (OnSendMessage h p w) as [[res|e] w']; simpl; eexists;
      (split; [first [apply answers_error | apply answers_success] | reflexivity]).
  - eexists. split; [apply answers_error | reflexivity].
Qed.

(** The route a valid request takes. *)
Lemma handleJSONRPC_route (req : Request) (r : JSONRPCRequest) (w : W) :
  unmarshal_request (Request_Body req) = Ok r ->
  ValidateJSONRPCRequest r = None ->
  handleJSONRPC h sdk req w
  = if bool_decide (Req_Method r = "tasks/get") then handleGetTask h sdk r w
    else if bool_decide (Req_Method r = "tasks/cancel") then handleCancelTask h sdk r w
    else if bool_decide (Req_Method r = "message/send") then handleSendMessage h sdk r w
    else (handleJSONRPCError (-32601) "Method not found" (str (Req_Method r)) (Req_ID r),
          w).
Proof.
  intros Hdec Hok. unfold handleJSONRPC. rewrite Hdec, Hok.
  repeat case_bool_decide; reflexivity.
Qed.

End RouterFacts.

(** X28.  The answers of the router.  A body that [json.Unmarshal] rejects is
    answered with code -32700 and a null id.  Every other request is
    answered with the id it was decoded with: an envelope that fails validation with code
    -32600, an unrecognized method with code -32601 and the method name as
    data, params that fail to decode into the parameters of the operation
    with code -32602, and a failure of the operation itself, a repository
    not-found included, with code -32000, message "Server error" and the
    text of the error as data. *)
Theorem handleJSONRPC_error_codes {TS ES PN : Type} (h : ServerlessA2AHandler TS ES PN)
    (sdk : ParamsDecoder) (req : Request) (w : World TS ES PN) :
  let resp := fst (handleJSONRPC h sdk req w) in
  (forall e, unmarshal_request (Request_Body req) = Err e ->
             answers resp (NewJSONRPCErrorResponse (-32700) "Parse error" Nil Nil))
  /\ (forall r, unmarshal_request (Request_Body req) = Ok r ->
        let failure code message data :=
          answers resp (NewJSONRPCErrorResponse code message data (Req_ID r)) in
        (exists jr, answers resp jr /\ Resp_ID jr = Req_ID r)
        /\ (forall err, ValidateJSONRPCRequest r = Some err ->
                        failure (-32600) "Invalid Request" (str err))
        /\ (ValidateJSONRPCRequest r = None ->
            (Req_Method r <> "tasks/get" -> Req_Method r <> "tasks/cancel" ->
             Req_Method r <> "message/send" ->
             failure (-32601) "Method not found" (str (Req_Method r)))
            /\ (forall err,
                   Req_Method r = "tasks/get" /\
                   params_of zero_TaskQueryParams (unmarshal_TaskQueryParams sdk)
                     (Req_Params r) = Err err
                   \/ Req_Method r = "tasks/cancel" /\
                      params_of zero_TaskIDParams (unmarshal_TaskIDParams sdk)
                        (Req_Params r) = Err err
                   \/ Req_Method r = "message/send" /\
                      params_of zero_MessageSendParams (unmarshal_MessageSendParams sdk)
                        (Req_Params r) = Err err ->
                   failure (-32602) "Invalid params" (str err))
            /\ (forall err,
                   (exists p,
                       Req_Method r = "tasks/get" /\
                       params_of zero_TaskQueryParams (unmarshal_TaskQueryParams sdk)
                         (Req_Params r) = Ok p /\
                       fst (OnGetTask h p w) = Err err)
                   \/ (exists p,
                          Req_Method r = "tasks/cancel" /\
                          params_of zero_TaskIDParams (unmarshal_TaskIDParams sdk)
                            (Req_Params r) = Ok p /\
                          fst (OnCancelTask h p w) = Err err)
                   \/ (exists p,
                          Req_Method r = "message/send" /\
                          params_of zero_MessageSendParams
                            (unmarshal_MessageSendParams sdk) (Req_Params r) = Ok p /\
                          fst (OnSendMessage h p w) = Err err) ->
                   failure (-32000) "Server error" (str err)))).
Proof.
  intros resp. split.
  { intros e He. subst resp. unfold handleJSONRPC. rewrite He. apply answers_error. }
  intros r Hr failure. split; [|split].
  - subst resp. unfold handleJSONRPC. rewrite Hr.
    destruct (ValidateJSONRPCRequest r) as [err|].
    { eexists. split; [apply answers_error | reflexivity]. }
    repeat case_bool_decide.
    + apply handleGetTask_ID.
    + apply handleCancelTask_ID.
    + apply handleSendMessage_ID.
    + eexists. split; [apply answers_error | reflexivity].
  - intros err Hbad. subst resp failure. unfold handleJSONRPC. rewrite Hr, Hbad.
    apply answers_error.
  - intros Hok. subst resp failure. rewrite (handleJSONRPC_route h sdk req r w Hr Hok).
    split; [|split].
    + intros H1 H2 H3. repeat case_bool_decide; try contradiction. apply answers_error.
    + intros err [[Hm Hp]|[[Hm Hp]|[Hm Hp]]]; rewrite Hm; simpl;
        [unfold handleGetTask | unfold handleCancelTask | unfold handleSendMessage];
        unfold params_of in Hp; rewrite Hp; apply answers_error.
    + intros err [(p & Hm & Hp & Hop)|[(p & Hm & Hp & Hop)|(p & Hm & Hp & Hop)]];
        rewrite Hm; simpl;
        [unfold handleGetTask | unfold handleCancelTask | unfold handleSendMessage];
        unfold params_of in Hp; rewrite Hp; unfold bind, ret;
        [destruct (OnGetTask h p w) as [[x|e] w']
        |destruct (OnCancelTask h p w) as [[x|e] w']
        |destruct (OnSendMessage h p w) as [[x|e] w']];
        simpl in Hop; inversion Hop; subst; apply answers_error.
Qed.

(** C6.  Every error response is to carry the id of the request.  On a
    body whose method has the wrong type the request carries the id 7,
    which [ExtractRequestID] recovers, and the router answers with code
    -32700 and a null id. *)
Lemma handleJSONRPC_parse_error_null_id :
  let req := Sample.post "{'jsonrpc':'2.0','method':5,'id':7}" in
  ExtractRequestID (Request_Body req) = AJson (JNum "7")
  /\ decoded (Response_Body (fst (handleJSONRPC Mem.handler Mem.sdk req Sample.w0)))
     = Some (NewJSONRPCErrorResponse (-32700) "Parse error" Nil Nil)
  /\ Resp_ID (NewJSONRPCErrorResponse (-32700) "Parse error" Nil Nil) = Nil.
Proof. vm_compute. repeat split; reflexivity. Qed.

Lemma handleJSONRPC_error_codes_example :
  answers
    (fst (handleJSONRPC Mem.handler Mem.sdk
            (Sample.post "{'jsonrpc':'2.0','method':'tasks/get','params':{'id':'t9'},'id':1}")
            Sample.w0))
    (NewJSONRPCErrorResponse (-32000) "Server error"
       (str "failed to get task t9: task t9 not found") (AJson (JNum "1")))
  /\ answers
       (fst (handleJSONRPC Mem.handler Mem.sdk
               (Sample.post "{'jsonrpc':'2.0','method':'tasks/get','params':{'id':9},'id':'a'}")
               Sample.w0))
       (NewJSONRPCErrorResponse (-32602) "Invalid params"
          (str (error_text (UnmarshalTypeError "id"))) (str "a")).
Proof.
  split.
  - destruct (handleJSONRPC_error_codes Mem.handler Mem.sdk
                (Sample.post "{'jsonrpc':'2.0','method':'tasks/get','params':{'id':'t9'},'id':1}")
                Sample.w0) as [_ H].
    destruct (H (mkJSONRPCRequest "2.0" "tasks/get"
                   (AJson (JObj [("id", JStr "t9")])) (AJson (JNum "1")))
                ltac:(vm_compute; reflexivity)) as (_ & _ & Hvalid).
    destruct (Hvalid eq_refl) as (_ & _ & Hop).
    apply Hop. left. exists (mkTaskQueryParams "t9" None ∅).
    split; [reflexivity|]. split; vm_compute; reflexivity.
  - destruct (handleJSONRPC_error_codes Mem.handler Mem.sdk
                (Sample.post "{'jsonrpc':'2.0','method':'tasks/get','params':{'id':9},'id':'a'}")
                Sample.w0) as [_ H].
    destruct (H (mkJSONRPCRequest "2.0" "tasks/get"
                   (AJson (JObj [("id", JNum "9")])) (str "a"))
                ltac:(vm_compute; reflexivity)) as (_ & _ & Hvalid).
    destruct (Hvalid eq_refl) as (_ & Hparams & _).
    apply Hparams. left. split; [reflexivity|]. vm_compute. reflexivity.
Defined.

(** ** The concrete scenarios of the design document *)

Example scenario_history_length :
  decoded (Response_Body (fst (handleJSONRPC Mem.handler Mem.sdk
    (Sample.post "{'jsonrpc':'2.0','method':'tasks/get','params':{'id':'t1','historyLength':2},'id':1}")
    Sample.w0)))
  = Some (NewJSONRPCResponse
            (ATask (with_History Sample.t1 [Sample.message "m4"; Sample.message "m5"]))
            (AJson (JNum "1"))).
Proof. vm_compute. reflexivity. Qed.

Example scenario_wrong_version :
  decoded (Response_Body (fst (handleJSONRPC Mem.handler Mem.sdk
    (Sample.post "{'jsonrpc':'1.0','method':'tasks/get','params':{'id':'t1'},'id':1}")
    Sample.w0)))
  = Some (NewJSONRPCErrorResponse (-32600) "Invalid Request"
            (str "jsonrpc must be '2.0'") (AJson (JNum "1"))).
Proof. vm_compute. reflexivity. Qed.

Example scenario_empty_body :
  decoded (Response_Body (fst (handleJSONRPC Mem.handler Mem.sdk (Sample.post "")
                                 Sample.w0)))
  = Some (NewJSONRPCErrorResponse (-32700) "Parse error" Nil Nil).
Proof. vm_compute. reflexivity. Qed.

Example scenario_unknown_method :
  decoded (Response_Body (fst (handleJSONRPC Mem.handler Mem.sdk
    (Sample.post "{'jsonrpc':'2.0','method':'tasks/unknown','id':1}") Sample.w0)))
  = Some (NewJSONRPCErrorResponse (-32601) "Method not found" (str "tasks/unknown")
            (AJson (JNum "1"))).
Proof. vm_compute. reflexivity. Qed.

(** * Further properties of the code *)

(** ** The codec *)

Lemma append_cons (c : ascii) (s t : string) : String c s ++ t = String c (s ++ t).
Proof. reflexivity. Qed.

Lemma append_associative (a b c : string) : (a ++ b) ++ c = a ++ b ++ c.
Proof.
  induction a as [|x a IH]; [reflexivity | rewrite !append_cons, IH; reflexivity].
Qed.

Lemma append_empty (s : string) : s ++ "" = s.
Proof.
  induction s as [|c s IH]; [reflexivity | rewrite append_cons, IH; reflexivity].
Qed.

Lemma prefix_app (p s : string) :
  String.prefix p s = true <-> exists post, s = p ++ post.
Proof.
  revert s. induction p as [|a p IH]; intros s; simpl.
  - destruct s; (split; [intros _; eexists; reflexivity | intros _; reflexivity]).
  - destruct s as [|b s]; simpl.
    + split; [discriminate | intros [post H]; discriminate].
    + destruct (Ascii.ascii_dec a b) as [->|Hne].
      * rewrite IH. split; intros [post H]; exists post; [rewrite H | inversion H];
          reflexivity.
      * split; [discriminate | intros [post H]; inversion H; congruence].
Qed.

Lemma strings_Contains_app (s substr : string) :
  strings_Contains s substr = true <-> exists pre post, s = pre ++ substr ++ post.
Proof.
  induction s as [|c s IH]; cbn [strings_Contains].
  - rewrite orb_false_r, prefix_app. split.
    + intros [post H]. exists "", post. exact H.
    + intros (pre & post & H). destruct pre; simpl in H; [eauto | discriminate].
  - rewrite orb_true_iff, IH, prefix_app. split.
    + intros [[post H]|(pre & post & H)].
      * exists "", post. exact H.
      * exists (String c pre), post. simpl. rewrite H. reflexivity.
    + intros (pre & post & H). destruct pre as [|a pre]; simpl in H.
      * left. eauto.
      * right. inversion H. eauto.
Qed.

(** A substring without removable byte lies within what trimming keeps. *)
Lemma prefix_skip (c : ascii) (r substr : string) :
  substr <> "" ->
  all_bytes (fun b => negb (trimmable b)) substr = true ->
  trimmable c = true ->
  String.prefix substr (String c r) = false.
Proof.
  intros Hne Hsolid Hc. destruct substr as [|a substr]; [congruence|].
  simpl in *. destruct (Ascii.ascii_dec a c) as [->|_]; [|reflexivity].
  rewrite Hc in Hsolid. discriminate.
Qed.

Lemma strings_Contains_skip (pre s substr : string) :
  substr <> "" ->
  all_bytes (fun b => negb (trimmable b)) substr = true ->
  all_bytes trimmable pre = true ->
  strings_Contains (pre ++ s) substr = strings_Contains s substr.
Proof.
  intros Hne Hsolid. induction pre as [|c pre IH]; intros Hpre.
  - reflexivity.
  - simpl in Hpre. apply andb_true_iff in Hpre as [Hc Hpre].
    rewrite append_cons. cbn [strings_Contains].
    rewrite (prefix_skip c (pre ++ s) substr Hne Hsolid Hc). apply IH. exact Hpre.
Qed.

Lemma prefix_trailing (substr s post : string) :
  all_bytes (fun b => negb (trimmable b)) substr = true ->
  all_bytes trimmable post = true ->
  String.prefix substr (s ++ post) = String.prefix substr s.
Proof.
  revert s. induction substr as [|a substr IH]; intros s Hsolid Hpost.
  - destruct s, post; reflexivity.
  - simpl in Hsolid. apply andb_true_iff in Hsolid as [Ha Hsolid].
    destruct s as [|c s].
    + change ("" ++ post) with post.
      destruct post as [|c post]; [reflexivity|]. simpl in *.
      apply andb_true_iff in Hpost as [Hc _].
      destruct (Ascii.ascii_dec a c) as [->|_]; [|reflexivity].
      rewrite Hc in Ha. discriminate.
    + rewrite append_cons. simpl.
      destruct (Ascii.ascii_dec a c); [|reflexivity]. apply IH; assumption.
Qed.

Lemma strings_Contains_trailing (s post substr : string) :
  substr <> "" ->
  all_bytes (fun b => negb (trimmable b)) substr = true ->
  all_bytes trimmable post = true ->
  strings_Contains (s ++ post) substr = strings_Contains s substr.
Proof.
  intros Hne Hsolid Hpost. induction s as [|c s IH].
  - change ("" ++ post) with post.
    rewrite <- (append_empty post) at 1.
    rewrite (strings_Contains_skip post "" substr Hne Hsolid Hpost). reflexivity.
  - pose proof (prefix_trailing substr (String c s) post Hsolid Hpost) as Hp.
    rewrite append_cons in *. cbn [strings_Contains]. rewrite Hp, IH. reflexivity.
Qed.

Lemma strings_Contains_trims (TrimSpace : string -> string) (s substr : string) :
  trims TrimSpace ->
  substr <> "" ->
  all_bytes (fun b => negb (trimmable b)) substr = true ->
  strings_Contains (TrimSpace s) substr = strings_Contains s substr.
Proof.
  intros Htrim Hne Hsolid.
  destruct (Htrim s) as (pre & post & Hs & Hpre & Hpost).
  rewrite Hs at 2.
  rewrite (strings_Contains_skip pre _ substr Hne Hsolid Hpre).
  rewrite (strings_Contains_trailing _ post substr Hne Hsolid Hpost). reflexivity.
Qed.

Lemma trim_left_trims (s : string) :
  exists pre, s = pre ++ trim_left s /\ all_bytes trimmable pre = true.
Proof.
  induction s as [|c s (pre & Hs & Hpre)]; cbn [trim_left].
  - exists "". split; reflexivity.
  - destruct (ascii_space c) eqn:Hc.
    + exists (String c pre). split.
      * rewrite append_cons, <- Hs. reflexivity.
      * cbn [all_bytes]. unfold trimmable at 1. rewrite Hc, Hpre. reflexivity.
    + exists "". split; reflexivity.
Qed.

Lemma trim_right_trims (s : string) :
  exists post, s = trim_right s ++ post /\ all_bytes trimmable post = true.
Proof.
  induction s as [|c s (post & Hs & Hpost)]; cbn [trim_right].
  - exists "". split; reflexivity.
  - destruct (trim_right s) as [|a r] eqn:Hr.
    + change ("" ++ post) with post in Hs. subst post.
      destruct (ascii_space c) eqn:Hc.
      * exists (String c s). split; [reflexivity|].
        cbn [all_bytes]. unfold trimmable at 1. rewrite Hc, Hpost. reflexivity.
      * exists s. split; [reflexivity | assumption].
    + exists post. split; [|assumption].
      rewrite append_cons, <- Hs. reflexivity.
Qed.

Lemma TrimSpace_ascii_trims : trims TrimSpace_ascii.
Proof.
  intros s. unfold TrimSpace_ascii.
  destruct (trim_left_trims s) as (pre & Hs & Hpre).
  destruct (trim_right_trims (trim_left s)) as (post & Hm & Hpost).
  exists pre, post. split; [|split; assumption].
  rewrite Hs at 1. rewrite Hm at 1. reflexivity.
Qed.

(** X1.  [IsJSONRPCRequest] looks for three pieces of text and nothing
    else: it answers true exactly when the input contains the quoted word
    jsonrpc, the quoted word method and the characters 2.0, anywhere and in
    any order.  Trimming the input and the test for a quoted 2.0 have no
    part in the answer. *)
Theorem IsJSONRPCRequest_contains (TrimSpace : string -> string) (data : string) :
  trims TrimSpace ->
  IsJSONRPCRequest TrimSpace data = true
  <-> (exists a b, data = a ++ q "'jsonrpc'" ++ b)
      /\ (exists a b, data = a ++ q "'method'" ++ b)
      /\ (exists a b, data = a ++ "2.0" ++ b).
Proof.
  intros Htrim. unfold IsJSONRPCRequest.
  rewrite !(strings_Contains_trims TrimSpace data) by
    (try exact Htrim; try discriminate; reflexivity).
  rewrite !andb_true_iff, orb_true_iff, !strings_Contains_app.
  split.
  - intros [[Hj Hm] [(a & b & H)|Hv]]; (split; [exact Hj|]; split; [exact Hm|]).
    + exists (a ++ String dquote ""), (String dquote "" ++ b).
      rewrite H, append_associative. reflexivity.
    + exact Hv.
  - intros (Hj & Hm & Hv). split; [split; assumption | right; exact Hv].
Qed.

Lemma IsJSONRPCRequest_contains_witness :
  IsJSONRPCRequest TrimSpace_ascii
    (q "  {'jsonrpc':'2.0','result':{'method':'x'},'id':1} ") = true.
Proof.
  apply (IsJSONRPCRequest_contains TrimSpace_ascii _ TrimSpace_ascii_trims).
  split; [|split].
  - exists "  {", (q ":'2.0','result':{'method':'x'},'id':1} "). reflexivity.
  - exists (q "  {'jsonrpc':'2.0','result':{"), (q ":'x'},'id':1} "). reflexivity.
  - exists (q "  {'jsonrpc':'"), (q "','result':{'method':'x'},'id':1} "). reflexivity.
Defined.

Example TestIsJSONRPCRequest :
  map (fun d => IsJSONRPCRequest TrimSpace_ascii (q d))
    [ "{'jsonrpc':'2.0','method':'test','id':1}";
      "  {'jsonrpc': '2.0', 'method': 'test', 'id': 1}  ";
      "{'jsonrpc':2.0,'method':'test','id':1}";
      "{'key':'value','number':123}";
      "{}";
      "{'key':'value'";
      "";
      "{'jsonrpc':'2.0','result':{'status':'ok'},'id':1}" ]
  = [ true; true; true; false; false; false; false; false ].
Proof. vm_compute. reflexivity. Qed.

(** X2.  [HandleJSONRPCError] always answers in version "2.0", with the id
    it is given and without result.  A [*JSONRPCError] is passed on as it
    is, code included; a nil error and any other error become code -32603.
    The response passes [ValidateJSONRPCResponse] in every case but one: a
    nil [*JSONRPCError] held in a non-nil [error] yields a response with
    neither result nor error. *)
Theorem HandleJSONRPCError_response (err : error_value) (requestID : any) :
  let resp := HandleJSONRPCError err requestID in
  Resp_JSONRPC resp = "2.0"
  /\ Resp_ID resp = requestID
  /\ Resp_Result resp = Nil
  /\ (forall e, err = ErrorJSONRPC (Some e) -> Resp_Error resp = Some e)
  /\ (err = ErrorNil \/ (exists text, err = ErrorOther text) ->
      Err_Code <$> Resp_Error resp = Some JSONRPCErrorInternalError)
  /\ (ValidateJSONRPCResponse resp = None <-> err <> ErrorJSONRPC None).
Proof.
  destruct err as [|[e|]|text]; simpl; (split; [reflexivity|]);
    (split; [reflexivity|]); (split; [reflexivity|]); (split; [|split]);
    try (intros e' H; inversion H; reflexivity);
    try (intros [H|[t H]]; first [discriminate H | reflexivity]);
    try (split; [intros _; discriminate | reflexivity]).
  split; [discriminate | intros H; congruence].
Qed.

Lemma HandleJSONRPCError_response_witness :
  Resp_Error (HandleJSONRPCError
                (ErrorJSONRPC (Some (NewJSONRPCMethodNotFoundError "test")))
                (str "test-id"))
  = Some (NewJSONRPCMethodNotFoundError "test")
  /\ Err_Code <$> Resp_Error (HandleJSONRPCError (ErrorOther "test error")
                                (AJson (JNum "123")))
     = Some (-32603)
  /\ ValidateJSONRPCResponse (HandleJSONRPCError ErrorNil (AJson (JNum "1"))) = None.
Proof.
  split; [|split].
  - apply (HandleJSONRPCError_response
             (ErrorJSONRPC (Some (NewJSONRPCMethodNotFoundError "test")))
             (str "test-id")). reflexivity.
  - apply (HandleJSONRPCError_response (ErrorOther "test error") (AJson (JNum "123"))).
    right. exists "test error". reflexivity.
  - apply (HandleJSONRPCError_response ErrorNil (AJson (JNum "1"))). discriminate.
Defined.

(** X3.  What [ParseJSONRPCRequest] rejects can always be answered: the
    error it fails with has code -32700 or -32600, and the response that
    [HandleJSONRPCError] builds from it, with the id [ExtractRequestID]
    recovers, is accepted by [SerializeJSONRPCResponse]. *)
Theorem parse_failure_answered (data : string) (e : JSONRPCError) :
  ParseJSONRPCRequest data = Err e ->
  let resp := HandleJSONRPCError (ErrorJSONRPC (Some e)) (ExtractRequestID data) in
  SerializeJSONRPCResponse resp = Ok (Marshalled resp)
  /\ Resp_Error resp = Some e
  /\ (Err_Code e = JSONRPCErrorParseError \/ Err_Code e = JSONRPCErrorInvalidRequest).
Proof.
  intros Hparse resp. split; [reflexivity|]. split; [reflexivity|].
  unfold ParseJSONRPCRequest in Hparse.
  destruct (String.length data =? 0)%nat.
  { inversion Hparse. left. reflexivity. }
  destruct (unmarshal_request data) as [req|u].
  - destruct (ValidateJSONRPCRequest req); inversion Hparse. right. reflexivity.
  - inversion Hparse. left. reflexivity.
Qed.

Lemma parse_failure_answered_witness :
  exists resp,
    SerializeJSONRPCResponse resp = Ok (Marshalled resp)
    /\ Resp_ID resp = AJson (JNum "7")
    /\ Resp_Error resp = Some (NewJSONRPCInvalidRequestError "method is required").
Proof.
  eexists.
  destruct (parse_failure_answered (q "{'jsonrpc':'2.0','id':7}")
              (NewJSONRPCInvalidRequestError "method is required")
              ltac:(vm_compute; reflexivity)) as (Hser & Herr & _).
  split; [exact Hser|]. split; [vm_compute; reflexivity | exact Herr].
Defined.



(** ** The lifecycle handler *)

Section ServerMore.

Context {TS ES PN : Type}.
Variable h : ServerlessA2AHandler TS ES PN.

Local Abbreviation W := (World TS ES PN).

(** One run of [OnSendMessage] on a stored task whose save succeeds. *)
Lemma OnSendMessage_step (message : MessageSendParams) (w : W) (taskID : TaskID)
    (task : Task) (ts : TS) :
  Message_TaskID (Send_Message message) = Some taskID ->
  GetTask (taskStore h) (tasks w) taskID = Ok task ->
  SaveTask (taskStore h) (tasks w)
    (advanced task (Send_Message message) (clock w (ticks w))) = (ts, None) ->
  OnSendMessage h message w
  = (Ok (ResultTask (advanced task (Send_Message message) (clock w (ticks w)))),
     mkWorld ts (events w) (notifier w) (clock w) (S (ticks w)) (stdout w)).
Proof.
  intros Hid Hget Hsave.
  unfold OnSendMessage, bind, ret, taskStore_GetTask, time_Now, taskStore_SaveTask.
  simpl. rewrite Hid. simpl. rewrite Hget. simpl.
  fold (advanced task (Send_Message message) (clock w (ticks w))).
  rewrite Hsave. reflexivity.
Qed.

End ServerMore.

(** X5.  When the repository cannot return the task, each of [OnGetTask],
    [OnCancelTask] and [OnSendMessage] (for a message that names the task)
    fails with the repository's message behind a prefix of its own, and
    leaves the world exactly as it was: nothing is saved, no event is
    appended, the clock is not read. *)
Theorem missing_task_untouched {TS ES PN : Type} (h : ServerlessA2AHandler TS ES PN)
    (w : World TS ES PN) (taskID : TaskID) (err : error) :
  GetTask (taskStore h) (tasks w) taskID = Err err ->
  (forall limit md,
      OnGetTask h (mkTaskQueryParams taskID limit md) w
      = (Err ("failed to get task " ++ taskID ++ ": " ++ err), w))
  /\ (forall md,
         OnCancelTask h (mkTaskIDParams taskID md) w
         = (Err ("failed to get task " ++ taskID ++ ": " ++ err), w))
  /\ (forall message,
         Message_TaskID (Send_Message message) = Some taskID ->
         OnSendMessage h message w
         = (Err ("failed to get existing task " ++ taskID ++ ": " ++ err), w)).
Proof.
  intros Hget. split; [|split].
  - intros limit md. unfold OnGetTask, bind, ret, taskStore_GetTask. simpl.
    rewrite Hget. reflexivity.
  - intros md. unfold OnCancelTask, bind, ret, taskStore_GetTask. simpl.
    rewrite Hget. reflexivity.
  - intros message Hid. unfold OnSendMessage, bind, ret, taskStore_GetTask. simpl.
    rewrite Hid. simpl. rewrite Hget. reflexivity.
Qed.

Lemma missing_task_untouched_witness :
  OnCancelTask Mem.handler (mkTaskIDParams "t9" ∅) Sample.w0
  = (Err "failed to get task t9: task t9 not found", Sample.w0).
Proof.
  apply (missing_task_untouched Mem.handler Sample.w0 "t9" "task t9 not found").
  vm_compute. reflexivity.
Defined.

(** X6.  When the repository fails to save the canceled task, [OnCancelTask]
    fails with the repository's message behind its own prefix; no event is
    appended and nothing is printed. *)
Theorem OnCancelTask_save_failure {TS ES PN : Type} (h : ServerlessA2AHandler TS ES PN)
    (w : World TS ES PN) (id : TaskIDParams) (task : Task) (ts : TS) (err : error) :
  GetTask (taskStore h) (tasks w) (IDParams_ID id) = Ok task ->
  SaveTask (taskStore h) (tasks w) (canceled task (clock w (ticks w))) = (ts, Some err) ->
  let '(r, w') := OnCancelTask h id w in
  r = Err ("failed to save canceled task " ++ IDParams_ID id ++ ": " ++ err)
  /\ tasks w' = ts
  /\ events w' = events w
  /\ notifier w' = notifier w
  /\ stdout w' = stdout w.
Proof.
  intros Hget Hsave.
  unfold OnCancelTask, bind, ret, taskStore_GetTask, time_Now, taskStore_SaveTask.
  simpl. rewrite Hget. simpl. fold (canceled task (clock w (ticks w))).
  rewrite Hsave. simpl. repeat split.
Qed.

(** X7.  For a message that names a stored task, whatever the state of that
    task (a canceled task included), [OnSendMessage] returns the task with
    the message appended at the end of its history and state Working; ID,
    context ID, kind, artifacts and metadata are kept; the task is handed
    to the repository, and neither the event log nor the notification sink
    is touched. *)
Theorem OnSendMessage_existing_task {TS ES PN : Type} (h : ServerlessA2AHandler TS ES PN)
    (w : World TS ES PN) (message : MessageSendParams) (taskID : TaskID)
    (task : Task) (ts : TS) :
  let task' := advanced task (Send_Message message) (clock w (ticks w)) in
  Message_TaskID (Send_Message message) = Some taskID ->
  GetTask (taskStore h) (tasks w) taskID = Ok task ->
  SaveTask (taskStore h) (tasks w) task' = (ts, None) ->
  exists w',
    OnSendMessage h message w = (Ok (ResultTask task'), w')
    /\ Task_History task' = (Task_History task ++ [Send_Message message])%list
    /\ Status_State (Task_Status task') = TaskStateWorking
    /\ Task_ID task' = Task_ID task
    /\ Task_ContextID task' = Task_ContextID task
    /\ Task_Kind task' = Task_Kind task
    /\ Task_Artifacts task' = Task_Artifacts task
    /\ Task_Metadata task' = Task_Metadata task
    /\ tasks w' = ts
    /\ events w' = events w
    /\ notifier w' = notifier w.
Proof.
  intros task' Hid Hget Hsave.
  rewrite (OnSendMessage_step h message w taskID task ts Hid Hget Hsave).
  eexists. repeat split.
Qed.

Lemma OnSendMessage_existing_task_witness :
  exists task' w',
    OnSendMessage Mem.handler
      (mkMessageSendParams (Sample.message "m6") ∅)
      (snd (OnCancelTask Mem.handler (mkTaskIDParams "t1" ∅) Sample.w0))
    = (Ok (ResultTask task'), w')
    /\ Status_State (Task_Status task') = TaskStateWorking
    /\ Task_History task'
       = (Task_History Sample.t1 ++ [Sample.message "m6"])%list.
Proof.
  destruct (OnSendMessage_existing_task Mem.handler
              (snd (OnCancelTask Mem.handler (mkTaskIDParams "t1" ∅) Sample.w0))
              (mkMessageSendParams (Sample.message "m6") ∅) "t1"
              (canceled Sample.t1 1000)
              (<["t1" := advanced (canceled Sample.t1 1000) (Sample.message "m6") 1001]>
                 (<["t1" := canceled Sample.t1 1000]> (tasks Sample.w0))))
    as (w' & Hrun & Hhist & Hstate & _).
  - reflexivity.
  - vm_compute. reflexivity.
  - reflexivity.
  - eexists. exists w'. split; [exact Hrun|]. split; [exact Hstate | exact Hhist].
Defined.

(** X8.  Two messages sent one after the other to a stored task end up in
    its history in the order they were sent, after what was there; the
    repository is assumed to save and to return what it saved. *)
Theorem OnSendMessage_twice {TS ES PN : Type} (h : ServerlessA2AHandler TS ES PN)
    (w : World TS ES PN) (m1 m2 : MessageSendParams) (taskID : TaskID)
    (task : Task) (ts1 ts2 : TS) :
  let t1 := advanced task (Send_Message m1) (clock w (ticks w)) in
  let t2 := advanced t1 (Send_Message m2) (clock w (S (ticks w))) in
  Message_TaskID (Send_Message m1) = Some taskID ->
  Message_TaskID (Send_Message m2) = Some taskID ->
  GetTask (taskStore h) (tasks w) taskID = Ok task ->
  SaveTask (taskStore h) (tasks w) t1 = (ts1, None) ->
  GetTask (taskStore h) ts1 taskID = Ok t1 ->
  SaveTask (taskStore h) ts1 t2 = (ts2, None) ->
  exists w1 w2,
    OnSendMessage h m1 w = (Ok (ResultTask t1), w1)
    /\ OnSendMessage h m2 w1 = (Ok (ResultTask t2), w2)
    /\ tasks w2 = ts2
    /\ Task_History t2
       = (Task_History task ++ [Send_Message m1; Send_Message m2])%list.
Proof.
  intros t1 t2 Hid1 Hid2 Hget1 Hsave1 Hget2 Hsave2.
  rewrite (OnSendMessage_step h m1 w taskID task ts1 Hid1 Hget1 Hsave1).
  eexists. eexists. split; [reflexivity|].
  rewrite (OnSendMessage_step h m2
             (mkWorld ts1 (events w) (notifier w) (clock w) (S (ticks w)) (stdout w))
             taskID t1 ts2 Hid2 Hget2 Hsave2).
  split; [reflexivity|]. split; [reflexivity|].
  simpl. rewrite <- app_assoc. reflexivity.
Qed.

Lemma OnSendMessage_twice_witness :
  exists t2 w1 w2,
    OnSendMessage Mem.handler (mkMessageSendParams (Sample.message "m6") ∅) Sample.w0
    = (Ok (ResultTask (advanced Sample.t1 (Sample.message "m6") 1000)), w1)
    /\ OnSendMessage Mem.handler (mkMessageSendParams (Sample.message "m7") ∅) w1
       = (Ok (ResultTask t2), w2)
    /\ Message_MessageID <$> Task_History t2 = ["m1"; "m2"; "m3"; "m4"; "m5"; "m6"; "m7"].
Proof.
  destruct (OnSendMessage_twice Mem.handler Sample.w0
              (mkMessageSendParams (Sample.message "m6") ∅)
              (mkMessageSendParams (Sample.message "m7") ∅) "t1" Sample.t1
              (<["t1" := advanced Sample.t1 (Sample.message "m6") 1000]>
                 (tasks Sample.w0))
              (<["t1" := advanced (advanced Sample.t1 (Sample.message "m6") 1000)
                           (Sample.message "m7") 1001]>
                 (<["t1" := advanced Sample.t1 (Sample.message "m6") 1000]>
                    (tasks Sample.w0))))
    as (w1 & w2 & H1 & H2 & _ & Hhist).
  - reflexivity.
  - reflexivity.
  - vm_compute. reflexivity.
  - reflexivity.
  - vm_compute. reflexivity.
  - reflexivity.
  - eexists. exists w1, w2. split; [exact H1|]. split; [exact H2|].
    rewrite Hhist. reflexivity.
Defined.

(** X9.  A task created by [OnSendMessage] can be fetched and canceled under
    the ID it was given: on a repository that saves and returns what it
    saved, [OnGetTask] with that ID returns the created task, and
    [OnCancelTask] returns it canceled with the message still in its
    history. *)
Theorem created_task_reachable {TS ES PN : Type} (h : ServerlessA2AHandler TS ES PN)
    (w : World TS ES PN) (message : MessageSendParams) (ts1 ts2 : TS) :
  let task :=
    advanced (synthesized (clock w (ticks w)) (clock w (S (ticks w))))
      (Send_Message message) (clock w (S (S (ticks w)))) in
  Message_TaskID (Send_Message message) = None ->
  SaveTask (taskStore h) (tasks w) task = (ts1, None) ->
  GetTask (taskStore h) ts1 (Task_ID task) = Ok task ->
  SaveTask (taskStore h) ts1 (canceled task (clock w (S (S (S (ticks w)))))) = (ts2, None) ->
  exists w1,
    OnSendMessage h message w = (Ok (ResultTask task), w1)
    /\ fst (OnGetTask h (mkTaskQueryParams (Task_ID task) None ∅) w1) = Ok task
    /\ exists task',
         fst (OnCancelTask h (mkTaskIDParams (Task_ID task) ∅) w1) = Ok task'
         /\ Status_State (Task_Status task') = TaskStateCanceled
         /\ Task_History task' = [Send_Message message].
Proof.
  intros task Hnew Hsave1 Hget Hsave2.
  assert (Hrun : OnSendMessage h message w
                 = (Ok (ResultTask task),
                    mkWorld ts1 (events w) (notifier w) (clock w) (S (S (S (ticks w))))
                            (stdout w))).
  { unfold OnSendMessage, generateContextID, bind, ret, taskStore_GetTask, time_Now,
      taskStore_SaveTask. simpl. rewrite Hnew.
    unfold with_Status, with_History. simpl.
    pose proof Hsave1 as Hsave.
    unfold task, advanced, synthesized, with_Status, with_History in Hsave.
    simpl in Hsave. rewrite Hsave. reflexivity. }
  eexists. split; [exact Hrun|]. split.
  - rewrite (OnGetTask_unlimited h (Task_ID task) ∅ _ task); [reflexivity | exact Hget].
  - destruct (OnCancelTask_step h (mkTaskIDParams (Task_ID task) ∅)
                (mkWorld ts1 (events w) (notifier w) (clock w) (S (S (S (ticks w))))
                         (stdout w)) task ts2 Hget Hsave2)
      as (w2 & Hcancel & _).
    eexists. rewrite Hcancel. repeat split.
Qed.

Lemma created_task_reachable_witness :
  exists w1 task',
    OnSendMessage Mem.handler (mkMessageSendParams Sample.hello ∅) Sample.w0
    = (Ok (ResultTask (advanced (synthesized 1000 1001) Sample.hello 1002)), w1)
    /\ fst (OnCancelTask Mem.handler (mkTaskIDParams "task_1000" ∅) w1) = Ok task'
    /\ Task_History task' = [Sample.hello].
Proof.
  destruct (created_task_reachable Mem.handler Sample.w0
              (mkMessageSendParams Sample.hello ∅)
              (<["task_1000" := advanced (synthesized 1000 1001) Sample.hello 1002]>
                 (tasks Sample.w0))
              (<["task_1000" :=
                   canceled (advanced (synthesized 1000 1001) Sample.hello 1002) 1003]>
                 (<["task_1000" := advanced (synthesized 1000 1001) Sample.hello 1002]>
                    (tasks Sample.w0))))
    as (w1 & Hrun & _ & task' & Hcancel & _ & Hhist).
  - reflexivity.
  - reflexivity.
  - vm_compute. reflexivity.
  - reflexivity.
  - exists w1, task'. split; [exact Hrun|]. split; [exact Hcancel | exact Hhist].
Defined.

Lemma OnCancelTask_save_failure_witness :
  fst (OnCancelTask ReadOnly.handler (mkTaskIDParams "t1" ∅) Sample.w0)
  = Err "failed to save canceled task t1: table is read-only"
  /\ events (snd (OnCancelTask ReadOnly.handler (mkTaskIDParams "t1" ∅) Sample.w0)) = [].
Proof.
  pose proof (OnCancelTask_save_failure ReadOnly.handler Sample.w0
                (mkTaskIDParams "t1" ∅) Sample.t1 (tasks Sample.w0)
                "table is read-only" ltac:(vm_compute; reflexivity) eq_refl) as H.
  destruct (OnCancelTask ReadOnly.handler (mkTaskIDParams "t1" ∅) Sample.w0) as [r w'].
  destruct H as (Hr & _ & Hev & _). split; [exact Hr | exact Hev].
Defined.

(** What a successful [OnSendMessage] has done. *)
Lemma OnSendMessage_success {TS ES PN : Type} (h : ServerlessA2AHandler TS ES PN)
    (w w' : World TS ES PN) (message : MessageSendParams) (r : SendMessageResult) :
  OnSendMessage h message w = (Ok r, w') ->
  exists task older,
    r = ResultTask task
    /\ Status_State (Task_Status task) = TaskStateWorking
    /\ Task_History task = (older ++ [Send_Message message])%list
    /\ SaveTask (taskStore h) (tasks w) task = (tasks w', None)
    /\ events w' = events w
    /\ notifier w' = notifier w.
Proof.
  unfold OnSendMessage, generateContextID, bind, ret, taskStore_GetTask, time_Now,
    taskStore_SaveTask. simpl.
  destruct (Message_TaskID (Send_Message message)) as [taskID|]; simpl.
  - destruct (GetTask (taskStore h) (tasks w) taskID) as [task|e]; simpl;
      [|discriminate].
    destruct (SaveTask (taskStore h) (tasks w) _) as [ts [err|]] eqn:Hsave; simpl;
      [discriminate|].
    intros H. inversion H. subst. clear H. simpl.
    eexists. exists (Task_History task). rewrite Hsave. repeat split.
  - destruct (SaveTask (taskStore h) (tasks w) _) as [ts [err|]] eqn:Hsave; simpl;
      [discriminate|].
    intros H. inversion H. subst. clear H. simpl.
    eexists. exists []. rewrite Hsave. repeat split.
Qed.

(** X10.  Whenever [OnSendMessage] returns without error, what it returns is
    a task, never a message; the task is in state Working, the sent
    message is the last entry of its history, it is the task that was
    handed to the repository, and the event log is as it was. *)
Theorem OnSendMessage_outcome {TS ES PN : Type} (h : ServerlessA2AHandler TS ES PN)
    (w w' : World TS ES PN) (message : MessageSendParams) (r : SendMessageResult) :
  OnSendMessage h message w = (Ok r, w') ->
  exists task older,
    r = ResultTask task
    /\ Status_State (Task_Status task) = TaskStateWorking
    /\ Task_History task = (older ++ [Send_Message message])%list
    /\ SaveTask (taskStore h) (tasks w) task = (tasks w', None)
    /\ events w' = events w
    /\ notifier w' = notifier w.
Proof. apply OnSendMessage_success. Qed.

Lemma OnSendMessage_outcome_witness :
  exists task older,
    Status_State (Task_Status task) = TaskStateWorking
    /\ Task_History task = (older ++ [Sample.message "m6"])%list
    /\ length older = 5%nat.
Proof.
  destruct (OnSendMessage_outcome Mem.handler Sample.w0 _
              (mkMessageSendParams (Sample.message "m6") ∅)
              (ResultTask (advanced Sample.t1 (Sample.message "m6") 1000))
              ltac:(vm_compute; reflexivity))
    as (task & older & Hr & Hstate & Hhist & _).
  exists task, older. split; [exact Hstate|]. split; [exact Hhist|].
  inversion Hr. subst task. simpl in Hhist.
  apply (f_equal (@length Message)) in Hhist. rewrite length_app in Hhist.
  simpl in Hhist. lia.
Defined.

(** X11.  Whenever [OnGetTask] returns a task, its history is the end of the
    stored history and, under a positive limit, never longer than the
    limit; every other field is as stored. *)
Theorem OnGetTask_outcome {TS ES PN : Type} (h : ServerlessA2AHandler TS ES PN)
    (w w' : World TS ES PN) (query : TaskQueryParams) (task' : Task) :
  OnGetTask h query w = (Ok task', w') ->
  exists task older,
    GetTask (taskStore h) (tasks w) (Query_ID query) = Ok task
    /\ Task_History task = (older ++ Task_History task')%list
    /\ (forall k, Query_HistoryLength query = Some k -> 0 < k ->
                  Z.of_nat (length (Task_History task')) <= k)
    /\ task' = with_History task (Task_History task')
    /\ w' = w.
Proof.
  unfold OnGetTask, bind, ret, taskStore_GetTask. simpl.
  destruct (GetTask (taskStore h) (tasks w) (Query_ID query)) as [task|e];
    simpl; [|discriminate].
  intros H. inversion H as [[Ht Hw]]. clear H. exists task.
  destruct (Query_HistoryLength query) as [k|].
  - destruct (k >? 0) eqn:Hpos.
    + destruct (Z.of_nat (length (Task_History task)) >? k) eqn:Hlong.
      * exists (take (Z.to_nat (Z.of_nat (length (Task_History task)) - k))
                     (Task_History task)).
        simpl. split; [reflexivity|]. split; [symmetry; apply take_drop|].
        split; [|split; reflexivity].
        intros k' Hk' _. inversion Hk'. subst k'. rewrite length_drop.
        apply Z.gtb_lt in Hlong. lia.
      * exists []. split; [reflexivity|]. split; [reflexivity|].
        split; [|destruct task; split; reflexivity].
        intros k' Hk' _. inversion Hk'. subst k'.
        rewrite Z.gtb_ltb in Hlong. apply Z.ltb_ge in Hlong. exact Hlong.
    + exists []. split; [reflexivity|]. split; [reflexivity|].
      split; [|destruct task; split; reflexivity].
      intros k' Hk' Hk. inversion Hk'. subst k'.
      rewrite Z.gtb_ltb in Hpos. apply Z.ltb_ge in Hpos. lia.
  - exists []. split; [reflexivity|]. split; [reflexivity|].
    split; [discriminate | destruct task; split; reflexivity].
Qed.

Lemma OnGetTask_outcome_witness :
  exists older : list Message,
    Task_History Sample.t1
    = (older ++ [Sample.message "m3"; Sample.message "m4"; Sample.message "m5"])%list.
Proof.
  destruct (OnGetTask_outcome Mem.handler Sample.w0 Sample.w0
              (mkTaskQueryParams "t1" (Some 3) ∅)
              (with_History Sample.t1
                 [Sample.message "m3"; Sample.message "m4"; Sample.message "m5"])
              ltac:(vm_compute; reflexivity))
    as (task & older & Hget & Hhist & _).
  exists older.
  assert (Hstored : @Ok error Task task = Ok Sample.t1)
    by (rewrite <- Hget; vm_compute; reflexivity).
  inversion Hstored. subst task. exact Hhist.
Defined.

(** ** The streaming methods *)

Lemma range_events_upto (limit : nat) (evs : list Event)
    (received : list (option Event * option error)) :
  (length received < limit)%nat ->
  range_events (upto limit) evs received
  = (received
     ++ ((fun e => (Some e, None)) <$> take (limit - length received) evs))%list.
Proof.
  revert received. induction evs as [|e evs IH]; intros received Hlt.
  - rewrite take_nil. simpl. rewrite app_nil_r. reflexivity.
  - simpl. rewrite length_app. simpl.
    destruct (limit - length received)%nat as [|n] eqn:Hn; [lia|].
    simpl. destruct (length received + 1 <? limit)%nat eqn:Hmore.
    + apply Nat.ltb_lt in Hmore. rewrite IH by (rewrite length_app; simpl; lia).
      rewrite length_app. simpl. rewrite <- app_assoc. simpl.
      replace (limit - (length received + 1))%nat with n by lia. reflexivity.
    + apply Nat.ltb_ge in Hmore. replace n with 0%nat by lia.
      rewrite take_0. reflexivity.
Qed.

(** X12.  Ranging over [OnResubscribeToTask] replays the events the event
    store returns for the task, in the order the store returns them, and
    stops as soon as the consumer declines: a consumer that wants [limit]
    events, one at least, receives the first [limit] of them.  When the
    store fails, the consumer receives one pair, without event and with the
    store's message behind a prefix.  The world is left as it was. *)
Theorem OnResubscribeToTask_replays {TS ES PN : Type} (h : ServerlessA2AHandler TS ES PN)
    (w : World TS ES PN) (id : TaskIDParams) (limit : nat) :
  (1 <= limit)%nat ->
  OnResubscribeToTask h id (upto limit) [] w
  = (match GetEvents (eventStore h) (events w) (IDParams_ID id) with
     | Ok evs => (fun e => (Some e, None)) <$> take limit evs
     | Err err =>
         [(None,
           Some ("failed to get events for task " ++ IDParams_ID id ++ ": " ++ err))]
     end, w).
Proof.
  intros Hlimit.
  unfold OnResubscribeToTask, bind, ret, eventStore_GetEvents. simpl.
  destruct (GetEvents (eventStore h) (events w) (IDParams_ID id)) as [evs|err]; simpl.
  - rewrite range_events_upto by (simpl; lia).
    simpl. rewrite Nat.sub_0_r. reflexivity.
  - reflexivity.
Qed.

(** X13.  Ranging over [OnSendMessageStream] does what [OnSendMessage] does
    and hands the consumer exactly one pair, whatever the consumer
    answers: the error if [OnSendMessage] failed, and otherwise a status
    update event for the returned task that carries its status, in state
    Working, and is not final. *)
Theorem OnSendMessageStream_single {TS ES PN : Type} (h : ServerlessA2AHandler TS ES PN)
    (w : World TS ES PN) (message : MessageSendParams) (limit : nat) :
  let '(r, w1) := OnSendMessage h message w in
  let '(received, w2) := OnSendMessageStream h message (upto limit) [] w in
  w2 = w1
  /\ match r with
     | Ok (ResultTask task) =>
         exists e,
           received = [(Some (EventStatusUpdate e), None)]
           /\ Event_Final e = false
           /\ Event_TaskID e = Task_ID task
           /\ Event_ContextID e = Task_ContextID task
           /\ Event_Status e = Task_Status task
           /\ Status_State (Event_Status e) = TaskStateWorking
     | Ok (ResultMessage _) => False
     | Err err => received = [(None, Some err)]
     end.
Proof.
  unfold OnSendMessageStream, bind, ret.
  destruct (OnSendMessage h message w) as [[res|err] w1] eqn:Hrun; simpl.
  - destruct (OnSendMessage_success h w w1 message res Hrun)
      as (task & older & -> & Hstate & _).
    simpl. split; [reflexivity|]. eexists. repeat split. exact Hstate.
  - split; reflexivity.
Qed.

Lemma OnResubscribeToTask_replays_witness :
  fst (OnResubscribeToTask Mem.handler (mkTaskIDParams "t1" ∅) (upto 1) []
         (snd (OnCancelTask Mem.handler (mkTaskIDParams "t1" ∅)
                 (snd (OnCancelTask Mem.handler (mkTaskIDParams "t1" ∅) Sample.w0)))))
  = [(Some (final_event (canceled Sample.t1 1000)), None)]
  /\ fst (OnResubscribeToTask Mem.brokenEventsHandler (mkTaskIDParams "t1" ∅) (upto 3) []
            Sample.w0)
     = [(None, Some "failed to get events for task t1: event table unavailable")].
Proof.
  split.
  - rewrite (OnResubscribeToTask_replays Mem.handler _ (mkTaskIDParams "t1" ∅) 1)
      by lia.
    vm_compute. reflexivity.
  - rewrite (OnResubscribeToTask_replays Mem.brokenEventsHandler Sample.w0
               (mkTaskIDParams "t1" ∅) 3) by lia.
    reflexivity.
Defined.

(** ** The entry point *)

Section EntryFacts.

Context {TS ES PN : Type}.
Variable a : ServerlessA2AHandler TS ES PN.
Variable sdk : ParamsDecoder.

Local Abbreviation W := (World TS ES PN).

(** Every answer of a handler of the router passes the codec's validation
    of responses. *)
Lemma handleJSONRPC_answer (req : Request) (w : W) :
  exists jr,
    answers (fst (handleJSONRPC a sdk req w)) jr
    /\ ValidateJSONRPCResponse jr = None
    /\ Response_Headers (fst (handleJSONRPC a sdk req w)) = jsonrpc_headers.
Proof.
  unfold handleJSONRPC.
  destruct (unmarshal_request (Request_Body req)) as [r|e].
  2:{ eexists. split; [apply answers_error|]. split; reflexivity. }
  destruct (ValidateJSONRPCRequest r).
  { eexists. split; [apply answers_error|]. split; reflexivity. }
  repeat case_bool_decide.
  - unfold handleGetTask, bind, ret.
    destruct (if is_nil (Req_Params r) then _ else _) as [p|e]; simpl.
    + destruct (OnGetTask a p w) as [[task|e] w']; simpl; eexists;
        (split; [first [apply answers_error | apply answers_success]|]);
        split; reflexivity.
    + eexists. split; [apply answers_error|]. split; reflexivity.
  - unfold handleCancelTask, bind, ret.
    destruct (if is_nil (Req_Params r) then _ else _) as [p|e]; simpl.
    + destruct (OnCancelTask a p w) as [[task|e] w']; simpl; eexists;
        (split; [first [apply answers_error | apply answers_success]|]);
        split; reflexivity.
    + eexists. split; [apply answers_error|]. split; reflexivity.
  - unfold handleSendMessage, bind, ret.
    destruct (if is_nil (Req_Params r) then _ else _) as [p|e]; simpl.
    + destruct (OnSendMessage a p w) as [[res|e] w']; simpl; eexists;
        (split; [first [apply answers_error | apply answers_success]|]);
        split; reflexivity.
    + eexists. split; [apply answers_error|]. split; reflexivity.
  - eexists. split; [apply answers_error|]. split; reflexivity.
Qed.

End EntryFacts.


Lemma contains_routed (value : option string) :
  strings_Contains (default "" value) "application/json" = true
  <-> exists v a b, value = Some v /\ v = a ++ "application/json" ++ b.
Proof.
  rewrite strings_Contains_app. destruct value as [v|]; simpl; split.
  - intros (x & y & H). eauto.
  - intros (v' & x & y & Hv & H). inversion Hv. subst. eauto.
  - intros (x & y & H). destruct x; discriminate.
  - intros (v' & x & y & Hv & _). discriminate.
Qed.



(** The four ways [HandleRequest] can go. *)
Lemma HandleRequest_cases {TS ES PN : Type} (h : Handler TS ES PN)
    (sdk : ParamsDecoder) (req : Request) (w : World TS ES PN) :
  HandleRequest h sdk req w = (handleCORS, w)
  \/ HandleRequest h sdk req w = handleAgentCard h w
  \/ (Request_Method req = "POST"
      /\ strings_Contains (default "" (Request_Headers req !! "content-type"))
           "application/json" = true
      /\ HandleRequest h sdk req w
         = (of_Response (fst (handleJSONRPC (a2aHandler h) sdk req w)),
            snd (handleJSONRPC (a2aHandler h) sdk req w)))
  \/ ((Request_Method req = "POST" ->
       strings_Contains (default "" (Request_Headers req !! "content-type"))
         "application/json" = false)
      /\ HandleRequest h sdk req w
         = HandleError "Unsupported request" http_StatusNotFound w).
Proof.
  unfold HandleRequest.
  destruct (bool_decide (Request_Method req = "OPTIONS")); [left; reflexivity|].
  destruct (bool_decide (Request_Method req = "GET")
            && (bool_decide (Request_URL req = "/")
                || bool_decide (Request_URL req = "/agent-card")));
    [right; left; reflexivity|].
  destruct (bool_decide (Request_Method req = "POST")) eqn:Hpost; simpl.
  - apply bool_decide_eq_true in Hpost.
    destruct (strings_Contains _ _) eqn:Hc.
    + right. right. left. split; [exact Hpost|]. split; [reflexivity|].
      unfold bind, ret.
      destruct (handleJSONRPC (a2aHandler h) sdk req w). reflexivity.
    + right. right. right. split; [intros _; reflexivity | reflexivity].
  - apply bool_decide_eq_false in Hpost.
    right. right. right. split; [intros R; contradiction | reflexivity].
Qed.

(** X16.  The content type of a POST is looked up under the key
    content-type in lower case only: a POST whose headers have no such
    key, however else they spell it, is answered 404 whatever its body,
    and the body is never looked at: the repositories, the event log and
    the standard output are as they were. *)
Theorem HandleRequest_header_key {TS ES PN : Type} (h : Handler TS ES PN)
    (sdk : ParamsDecoder) (req : Request) (w : World TS ES PN) :
  Request_Method req = "POST" ->
  Request_Headers req !! "content-type" = None ->
  let '(resp, w') := HandleRequest h sdk req w in
  HTTP_Status resp = 404
  /\ HTTP_Body resp = ErrorPayload (Marshalled ("Unsupported request", Unix (clock w (ticks w))))
  /\ tasks w' = tasks w /\ events w' = events w /\ notifier w' = notifier w
  /\ stdout w' = stdout w.
Proof.
  intros Hpost Hkey. unfold HandleRequest.
  rewrite Hpost, Hkey. simpl. repeat split.
Qed.

Lemma HandleRequest_header_key_witness :
  HTTP_Status
    (fst (HandleRequest (NewHandler Mem.handler sample_card) Mem.sdk capitalized_post
            Sample.w0)) = 404.
Proof.
  pose proof (HandleRequest_header_key (NewHandler Mem.handler sample_card) Mem.sdk
                capitalized_post Sample.w0 eq_refl ltac:(vm_compute; reflexivity)) as H.
  destruct (HandleRequest _ _ _ _) as [resp w']. exact (proj1 H).
Defined.

(** X17.  Only a POST with a JSON content type can change anything: for
    every other request, the repositories, the event log, the notification
    sink and the standard output are after [HandleRequest] as they were
    before. *)
Theorem HandleRequest_reads_only {TS ES PN : Type} (h : Handler TS ES PN)
    (sdk : ParamsDecoder) (req : Request) (w : World TS ES PN) :
  ~ (Request_Method req = "POST"
     /\ exists value a b,
          Request_Headers req !! "content-type" = Some value
          /\ value = a ++ "application/json" ++ b) ->
  let w' := snd (HandleRequest h sdk req w) in
  tasks w' = tasks w /\ events w' = events w /\ notifier w' = notifier w
  /\ stdout w' = stdout w /\ clock w' = clock w.
Proof.
  intros Hreq.
  destruct (HandleRequest_cases h sdk req w) as [H|[H|[(Hpost & Hct & H)|[Hc H]]]];
    rewrite H; clear H; try (repeat split; fail).
  exfalso. apply Hreq. split; [exact Hpost|]. apply contains_routed. exact Hct.
Qed.

Lemma HandleRequest_reads_only_witness :
  tasks (snd (HandleRequest (NewHandler Mem.handler sample_card) Mem.sdk
                (mkRequest "GET" "/agent-card" ∅ "") Sample.w0))
  = tasks Sample.w0.
Proof.
  apply (HandleRequest_reads_only (NewHandler Mem.handler sample_card) Mem.sdk
           (mkRequest "GET" "/agent-card" ∅ "") Sample.w0).
  intros [H _]. discriminate H.
Defined.

Lemma jsonrpc_headers_origin :
  jsonrpc_headers !! "Access-Control-Allow-Origin" = Some "*".
Proof. vm_compute. reflexivity. Qed.

Lemma handleCORS_origin :
  HTTP_Headers handleCORS !! "Access-Control-Allow-Origin" = Some "*".
Proof. vm_compute. reflexivity. Qed.

(** X18.  Every response of [HandleRequest] allows every origin: the header
    Access-Control-Allow-Origin is present with value "*" on each of
    them, the 404 included. *)
Theorem HandleRequest_allows_origin {TS ES PN : Type} (h : Handler TS ES PN)
    (sdk : ParamsDecoder) (req : Request) (w : World TS ES PN) :
  HTTP_Headers (fst (HandleRequest h sdk req w)) !! "Access-Control-Allow-Origin"
  = Some "*".
Proof.
  destruct (HandleRequest_cases h sdk req w) as [H|[H|[(Hpost & Hct & H)|[Hc H]]]];
    rewrite H; clear H.
  - exact handleCORS_origin.
  - exact jsonrpc_headers_origin.
  - cbn [fst of_Response HTTP_Headers].
    destruct (handleJSONRPC_answer (a2aHandler h) sdk req w) as (jr & _ & _ & Hh).
    rewrite Hh. exact jsonrpc_headers_origin.
  - exact jsonrpc_headers_origin.
Qed.

(** ** Configuration *)

Lemma getEnvOrDefault_empty (env : gmap string string) (key : string) :
  getEnvOrDefault env key "" = os_Getenv env key.
Proof.
  unfold getEnvOrDefault. case_bool_decide as H; [reflexivity|].
  destruct (decide (os_Getenv env key = "")) as [->|Hne]; [reflexivity | contradiction].
Qed.

Lemma getEnvOrDefault_set (env : gmap string string) (key defaultValue : string) :
  defaultValue <> "" -> getEnvOrDefault env key defaultValue <> "".
Proof.
  intros Hd. unfold getEnvOrDefault. case_bool_decide; assumption.
Qed.

Lemma ValidateAWSConfig_None (config : AWSConfig) :
  ValidateAWSConfig config = None
  <-> AWS_Region config <> "" /\ AWS_SQSQueueURL config <> ""
      /\ AWS_DynamoDBTable config <> "".
Proof.
  unfold ValidateAWSConfig.
  repeat case_bool_decide; split; try discriminate; try tauto; reflexivity.
Qed.

Lemma ValidateCloudProviderConfig_None (config : CloudProviderConfig) :
  ValidateCloudProviderConfig config = None
  <-> Cloud_Provider config = "local"
      \/ (Cloud_Provider config = "aws"
          /\ exists aws, Cloud_AWS config = Some aws /\ ValidateAWSConfig aws = None).
Proof.
  unfold ValidateCloudProviderConfig.
  case_bool_decide as Hempty.
  { split; [discriminate|]. intros [H|[H _]]; rewrite Hempty in H; discriminate. }
  case_bool_decide as Haws.
  { destruct (Cloud_AWS config) as [aws|].
    - split.
      + intros Hv. right. split; [exact Haws|]. exists aws. split; [reflexivity | exact Hv].
      + intros [H|[_ (aws' & Heq & Hv)]]; [rewrite Haws in H; discriminate|].
        inversion Heq. subst. exact Hv.
    - split; [discriminate|].
      intros [H|[_ (aws' & Heq & _)]]; [rewrite Haws in H|]; discriminate. }
  case_bool_decide as Hlocal.
  { split; [intros _; left; exact Hlocal | reflexivity]. }
  split; [discriminate|]. intros [H|[H _]]; contradiction.
Qed.

(** X19.  [ValidateServerlessConfig] accepts a configuration exactly when the
    agent ID, the name and the URL of the agent card are not empty and the
    provider is either "local" or "aws" with an AWS section whose region,
    queue URL and table name are not empty.  No other provider is
    accepted, "gcp" included. *)
Theorem ValidateServerlessConfig_accepts (config : ServerlessConfig) :
  ValidateServerlessConfig config = None
  <-> Config_AgentID config <> ""
      /\ Card_Name (Config_AgentCard config) <> ""
      /\ Card_URL (Config_AgentCard config) <> ""
      /\ (Cloud_Provider (Config_CloudConfig config) = "local"
          \/ (Cloud_Provider (Config_CloudConfig config) = "aws"
              /\ exists aws,
                   Cloud_AWS (Config_CloudConfig config) = Some aws
                   /\ AWS_Region aws <> "" /\ AWS_SQSQueueURL aws <> ""
                   /\ AWS_DynamoDBTable aws <> "")).
Proof.
  unfold ValidateServerlessConfig.
  repeat case_bool_decide; try (split; [discriminate | tauto]).
  rewrite ValidateCloudProviderConfig_None.
  split.
  - intros [Hl|[Ha (aws & Heq & Hv)]].
    + tauto.
    + apply ValidateAWSConfig_None in Hv. repeat split; try assumption.
      right. split; [exact Ha|]. exists aws. tauto.
  - intros (_ & _ & _ & [Hl|[Ha (aws & Heq & Hv)]]).
    + left. exact Hl.
    + right. split; [exact Ha|]. exists aws. split; [exact Heq|].
      apply ValidateAWSConfig_None. exact Hv.
Qed.

(** X20.  [CreateCloudProvider] succeeds on exactly the configurations
    [ValidateCloudProviderConfig] accepts; the provider it returns is of
    the configured type and passes its own [ValidateConfig] unchanged. *)
Theorem CreateCloudProvider_accepts (env : gmap string string)
    (config : CloudProviderConfig) :
  ((exists provider, CreateCloudProvider env config = Ok provider)
   <-> ValidateCloudProviderConfig config = None)
  /\ (forall provider,
         CreateCloudProvider env config = Ok provider ->
         GetProviderType provider = Cloud_Provider config
         /\ ValidateConfig provider = (provider, None)).
Proof.
  pose proof (getEnvOrDefault_set env "LOCAL_STORAGE_PATH" "./local_storage"
                ltac:(discriminate)) as Hs.
  pose proof (getEnvOrDefault_set env "LOCAL_EVENT_PATH" "./local_events"
                ltac:(discriminate)) as He.
  unfold CreateCloudProvider, ValidateCloudProviderConfig.
  case_bool_decide as Haws.
  { rewrite Haws. simpl.
    destruct (Cloud_AWS config) as [aws|]; simpl.
    - destruct (ValidateAWSConfig aws) eqn:Hv; simpl.
      + split; [split; [intros [p H]; discriminate | discriminate]|].
        intros p H. discriminate.
      + split; [split; [reflexivity | intros _; eauto]|].
        intros p H. inversion H. subst. simpl. rewrite Hv. split; reflexivity.
    - split; [split; [intros [p H]; discriminate | discriminate]|].
      intros p H. discriminate. }
  case_bool_decide as Hgcp.
  { rewrite Hgcp. simpl.
    split; [split; [intros [p H]; discriminate | discriminate]|].
    intros p H. discriminate. }
  case_bool_decide as Hlocal.
  { rewrite Hlocal. simpl.
    rewrite (bool_decide_eq_false_2 _ Hs), (bool_decide_eq_false_2 _ He).
    split; [split; [reflexivity | intros _; eauto]|].
    intros p H. inversion H. subst. simpl.
    rewrite (bool_decide_eq_false_2 _ Hs), (bool_decide_eq_false_2 _ He).
    split; reflexivity. }
  split.
  - split; [intros [p H]; discriminate|].
    case_bool_decide; discriminate.
  - intros p H. discriminate.
Qed.

Lemma CreateCloudProvider_accepts_witness :
  exists provider,
    CreateCloudProvider env_local (mkCloudProviderConfig "local" None) = Ok provider
    /\ GetProviderType provider = "local".
Proof.
  destruct (CreateCloudProvider_accepts env_local (mkCloudProviderConfig "local" None))
    as [Hiff Hprov].
  destruct (proj2 Hiff eq_refl) as [provider Hp].
  exists provider. split; [exact Hp|]. exact (proj1 (Hprov provider Hp)).
Defined.

Lemma ValidateServerlessConfig_accepts_witness :
  ValidateServerlessConfig
    (mkServerlessConfig "agent-1"
       (mkAgentCard "Agent" "https://example.com/agent" "" "1.0.0"
          (mkAgentCapabilities None None None))
       (mkCloudProviderConfig "local" None) "info") = None
  /\ ValidateServerlessConfig
       (mkServerlessConfig "agent-1"
          (mkAgentCard "Agent" "https://example.com/agent" "" "1.0.0"
             (mkAgentCapabilities None None None))
          (mkCloudProviderConfig "gcp" None) "info") <> None.
Proof.
  split.
  - apply ValidateServerlessConfig_accepts. simpl.
    repeat split; try discriminate. left. reflexivity.
  - intros H. apply ValidateServerlessConfig_accepts in H. simpl in H.
    destruct H as (_ & _ & _ & [H|[H _]]); discriminate H.
Defined.

(** The outcome of loading, spelled out. *)
Lemma LoadServerlessConfig_cases (env : gmap string string) :
  let provider := getEnvOrDefault env "CLOUD_PROVIDER" "local" in
  let loads :=
    os_Getenv env "A2A_AGENT_ID" <> ""
    /\ os_Getenv env "A2A_AGENT_NAME" <> ""
    /\ os_Getenv env "A2A_AGENT_URL" <> ""
    /\ (provider = "local"
        \/ (provider = "aws"
            /\ os_Getenv env "AWS_SQS_QUEUE_URL" <> ""
            /\ os_Getenv env "AWS_DYNAMODB_TABLE" <> "")) in
  match LoadServerlessConfig env with
  | Ok config =>
      loads
      /\ ValidateServerlessConfig config = None
      /\ Config_AgentID config = os_Getenv env "A2A_AGENT_ID"
      /\ Card_Name (Config_AgentCard config) = os_Getenv env "A2A_AGENT_NAME"
      /\ Card_URL (Config_AgentCard config) = os_Getenv env "A2A_AGENT_URL"
      /\ Cloud_Provider (Config_CloudConfig config) = provider
      /\ Config_LogLevel config = getEnvOrDefault env "A2A_LOG_LEVEL" "info"
  | Err _ => ~ loads
  end.
Proof.
  intros provider loads. subst loads.
  pose proof (getEnvOrDefault_set env "AWS_REGION" "us-east-1" ltac:(discriminate))
    as Hregion.
  unfold LoadServerlessConfig, loadAgentCard.
  rewrite !getEnvOrDefault_empty.
  case_bool_decide as Hid; [tauto|].
  case_bool_decide as Hname; [tauto|].
  case_bool_decide as Hurl; [tauto|].
  unfold LoadCloudProviderConfig, loadAWSConfig. fold provider.
  rewrite !getEnvOrDefault_empty.
  case_bool_decide as Haws.
  { unfold ValidateServerlessConfig, ValidateCloudProviderConfig, ValidateAWSConfig.
    simpl.
    rewrite (bool_decide_eq_false_2 _ Hid), (bool_decide_eq_false_2 _ Hname),
      (bool_decide_eq_false_2 _ Hurl).
    rewrite Haws. simpl. rewrite (bool_decide_eq_false_2 _ Hregion).
    case_bool_decide as Hq; simpl.
    { intros (_ & _ & _ & [H|(_ & H & _)]); [discriminate | contradiction]. }
    case_bool_decide as Ht; simpl.
    { intros (_ & _ & _ & [H|(_ & _ & H)]); [discriminate | contradiction]. }
    split; [repeat split; try assumption; right; repeat split; assumption|].
    split; [|repeat split].
    rewrite !bool_decide_eq_false_2 by assumption. reflexivity. }
  case_bool_decide as Hgcp.
  { intros (_ & _ & _ & [H|(H & _)]); rewrite Hgcp in H; discriminate. }
  case_bool_decide as Hlocal.
  { unfold ValidateServerlessConfig, ValidateCloudProviderConfig. simpl.
    rewrite (bool_decide_eq_false_2 _ Hid), (bool_decide_eq_false_2 _ Hname),
      (bool_decide_eq_false_2 _ Hurl).
    rewrite Hlocal. simpl.
    split; [repeat split; try assumption; left; reflexivity|].
    split; [|repeat split].
    rewrite !bool_decide_eq_false_2 by assumption. reflexivity. }
  intros (_ & _ & _ & [H|(H & _)]); contradiction.
Qed.

(** X21.  [LoadServerlessConfig] succeeds exactly when A2A_AGENT_ID,
    A2A_AGENT_NAME and A2A_AGENT_URL are set to something and the
    provider, "local" when CLOUD_PROVIDER is not set, is "local", or is
    "aws" with AWS_SQS_QUEUE_URL and AWS_DYNAMODB_TABLE set; a variable set
    to the empty string counts as not set.  What it returns passes
    [ValidateServerlessConfig] and carries these values. *)
Theorem LoadServerlessConfig_succeeds (env : gmap string string) :
  let provider := getEnvOrDefault env "CLOUD_PROVIDER" "local" in
  ((exists config, LoadServerlessConfig env = Ok config)
   <-> os_Getenv env "A2A_AGENT_ID" <> ""
       /\ os_Getenv env "A2A_AGENT_NAME" <> ""
       /\ os_Getenv env "A2A_AGENT_URL" <> ""
       /\ (provider = "local"
           \/ (provider = "aws"
               /\ os_Getenv env "AWS_SQS_QUEUE_URL" <> ""
               /\ os_Getenv env "AWS_DYNAMODB_TABLE" <> "")))
  /\ (forall config,
         LoadServerlessConfig env = Ok config ->
         ValidateServerlessConfig config = None
         /\ Config_AgentID config = os_Getenv env "A2A_AGENT_ID"
         /\ Card_Name (Config_AgentCard config) = os_Getenv env "A2A_AGENT_NAME"
         /\ Card_URL (Config_AgentCard config) = os_Getenv env "A2A_AGENT_URL"
         /\ Cloud_Provider (Config_CloudConfig config) = provider
         /\ Config_LogLevel config = getEnvOrDefault env "A2A_LOG_LEVEL" "info").
Proof.
  intros provider. pose proof (LoadServerlessConfig_cases env) as H. simpl in H.
  fold provider in H.
  destruct (LoadServerlessConfig env) as [config|err].
  - destruct H as [Hloads Hrest]. split.
    + split; [intros _; exact Hloads | intros _; eauto].
    + intros config' Heq. inversion Heq. subst. exact Hrest.
  - split.
    + split; [intros [config Heq]; discriminate | intros Hl; contradiction].
    + intros config Heq. discriminate.
Qed.

Lemma LoadServerlessConfig_succeeds_witness :
  exists config,
    LoadServerlessConfig env_aws = Ok config
    /\ Cloud_Provider (Config_CloudConfig config) = "aws"
    /\ Config_LogLevel config = "info".
Proof.
  destruct (LoadServerlessConfig_succeeds env_aws) as [Hiff Hval].
  destruct (proj2 Hiff) as [config Hc].
  - vm_compute. repeat split; try discriminate.
    right. repeat split; discriminate.
  - exists config. split; [exact Hc|].
    destruct (Hval config Hc) as (_ & _ & _ & _ & Hp & Hl).
    split; [rewrite Hp | rewrite Hl]; vm_compute; reflexivity.
Defined.

Lemma append_missing_nil (env : gmap string string) (names : list string) :
  append_missing env [] names = []
  <-> Forall (fun name => os_Getenv env name <> "") names.
Proof.
  unfold append_missing. simpl. induction names as [|n names IH]; simpl.
  - split; [constructor | reflexivity].
  - rewrite filter_cons. destruct (decide (os_Getenv env n = "")) as [He|Hne].
    + split; [discriminate|]. intros H. inversion H. contradiction.
    + rewrite IH. split.
      * intros H. constructor; assumption.
      * intros H. inversion H. assumption.
Qed.

Lemma length_positive {A : Type} (l : list A) :
  (0 <? length l)%nat = false <-> l = [].
Proof.
  destruct l; simpl; split; intros H; try reflexivity; discriminate.
Qed.

Lemma ValidateEnvironmentVariables_None (env : gmap string string) :
  let provider := getEnvOrDefault env "CLOUD_PROVIDER" "local" in
  ValidateEnvironmentVariables env = None
  <-> Forall (fun name => os_Getenv env name <> "")
        ["A2A_AGENT_ID"; "A2A_AGENT_NAME"; "A2A_AGENT_URL"]
      /\ (provider = "aws" ->
          Forall (fun name => os_Getenv env name <> "")
            ["AWS_SQS_QUEUE_URL"; "AWS_DYNAMODB_TABLE"])
      /\ (provider = "gcp" ->
          Forall (fun name => os_Getenv env name <> "")
            ["GCP_PROJECT_ID"; "GCP_FIRESTORE_DB"; "GCP_PUBSUB_TOPIC"]).
Proof.
  intros provider. unfold ValidateEnvironmentVariables. fold provider.
  destruct (0 <? length (append_missing env []
                           ["A2A_AGENT_ID"; "A2A_AGENT_NAME"; "A2A_AGENT_URL"]))%nat
    eqn:Hfirst.
  { split; [discriminate|]. intros [Hreq _].
    apply append_missing_nil, length_positive in Hreq. congruence. }
  apply length_positive in Hfirst. rewrite Hfirst.
  apply append_missing_nil in Hfirst.
  case_bool_decide as Haws.
  { destruct (0 <? length (append_missing env [] _))%nat eqn:Hsecond.
    - split; [discriminate|]. intros (_ & H & _).
      apply append_missing_nil, length_positive in H; [congruence | exact Haws].
    - apply length_positive, append_missing_nil in Hsecond.
      split; [|reflexivity]. intros _. split; [exact Hfirst|].
      split; [intros _; exact Hsecond|]. rewrite Haws. discriminate. }
  case_bool_decide as Hgcp.
  { destruct (0 <? length (append_missing env [] _))%nat eqn:Hsecond.
    - split; [discriminate|]. intros (_ & _ & H).
      apply append_missing_nil, length_positive in H; [congruence | exact Hgcp].
    - apply length_positive, append_missing_nil in Hsecond.
      split; [|reflexivity]. intros _. split; [exact Hfirst|].
      split; [rewrite Hgcp; discriminate | intros _; exact Hsecond]. }
  simpl. split; [|reflexivity]. intros _.
  split; [exact Hfirst|]. split; intros H; contradiction.
Qed.

(** X22.  [ValidateEnvironmentVariables] passes exactly when A2A_AGENT_ID,
    A2A_AGENT_NAME and A2A_AGENT_URL are set to something and, for the
    provider "aws", so are AWS_SQS_QUEUE_URL and AWS_DYNAMODB_TABLE, and
    for the provider "gcp", GCP_PROJECT_ID, GCP_FIRESTORE_DB and
    GCP_PUBSUB_TOPIC.  A provider it does not know asks for nothing
    more. *)
Theorem ValidateEnvironmentVariables_passes (env : gmap string string) :
  let provider := getEnvOrDefault env "CLOUD_PROVIDER" "local" in
  ValidateEnvironmentVariables env = None
  <-> Forall (fun name => os_Getenv env name <> "")
        ["A2A_AGENT_ID"; "A2A_AGENT_NAME"; "A2A_AGENT_URL"]
      /\ (provider = "aws" ->
          Forall (fun name => os_Getenv env name <> "")
            ["AWS_SQS_QUEUE_URL"; "AWS_DYNAMODB_TABLE"])
      /\ (provider = "gcp" ->
          Forall (fun name => os_Getenv env name <> "")
            ["GCP_PROJECT_ID"; "GCP_FIRESTORE_DB"; "GCP_PUBSUB_TOPIC"]).
Proof. apply ValidateEnvironmentVariables_None. Qed.

Lemma ValidateEnvironmentVariables_passes_witness :
  ValidateEnvironmentVariables env_gcp = None
  /\ ValidateEnvironmentVariables (<["CLOUD_PROVIDER" := "azure"]> env_local) = None.
Proof.
  split.
  - apply ValidateEnvironmentVariables_passes.
    split; [|split].
    + repeat constructor; vm_compute; discriminate.
    + vm_compute. discriminate.
    + intros _. repeat constructor; vm_compute; discriminate.
  - apply ValidateEnvironmentVariables_passes.
    split; [|split].
    + repeat constructor; vm_compute; discriminate.
    + vm_compute. discriminate.
    + vm_compute. discriminate.
Defined.

(** X23.  An environment from which [LoadServerlessConfig] succeeds passes
    [ValidateEnvironmentVariables]. *)
Theorem loaded_environment_passes (env : gmap string string) (config : ServerlessConfig) :
  LoadServerlessConfig env = Ok config ->
  ValidateEnvironmentVariables env = None.
Proof.
  intros Hload. pose proof (LoadServerlessConfig_cases env) as H. simpl in H.
  rewrite Hload in H. destruct H as [(Hid & Hname & Hurl & Hprov) _].
  apply ValidateEnvironmentVariables_None.
  split; [repeat constructor; assumption|].
  split.
  - intros Haws. destruct Hprov as [Hl|(_ & Hq & Ht)].
    + rewrite Haws in Hl. discriminate.
    + repeat constructor; assumption.
  - intros Hgcp. destruct Hprov as [Hl|(Ha & _)].
    + rewrite Hgcp in Hl. discriminate.
    + rewrite Hgcp in Ha. discriminate.
Qed.

Lemma loaded_environment_passes_witness :
  ValidateEnvironmentVariables env_aws = None.
Proof.
  destruct (LoadServerlessConfig env_aws) as [config|err] eqn:Hload.
  - exact (loaded_environment_passes env_aws config Hload).
  - vm_compute in Hload. discriminate Hload.
Defined.

(** The converse fails: an environment set up for "gcp" passes the check
    and does not load. *)
Example gcp_passes_but_does_not_load :
  ValidateEnvironmentVariables env_gcp = None
  /\ LoadServerlessConfig env_gcp
     = Err "failed to load cloud provider config: GCP provider not yet implemented".
Proof. vm_compute. split; reflexivity. Qed.

(** X24.  Each capability of the loaded agent card is set exactly when its
    variable is set to something, and is then true only for the values
    [strconv.ParseBool] reads as true: a value it cannot read, such as
    "yes", sets the capability to false. *)
Theorem loadAgentCard_capabilities (env : gmap string string) (card : AgentCard) :
  loadAgentCard env = Ok card ->
  let reads key cap :=
    (cap = None <-> os_Getenv env key = "")
    /\ (cap = Some true <-> strconv_ParseBool (os_Getenv env key) = Some true) in
  reads "A2A_AGENT_PUSH_NOTIFICATIONS" (Cap_PushNotifications (Card_Capabilities card))
  /\ reads "A2A_AGENT_STATE_HISTORY" (Cap_StateTransitionHistory (Card_Capabilities card))
  /\ reads "A2A_AGENT_STREAMING" (Cap_Streaming (Card_Capabilities card)).
Proof.
  assert (Hcap : forall key,
             (capability env key = None <-> os_Getenv env key = "")
             /\ (capability env key = Some true
                 <-> strconv_ParseBool (os_Getenv env key) = Some true)).
  { intros key. unfold capability, getEnvOrDefaultBool.
    case_bool_decide as Hset.
    - split; [split; [discriminate | contradiction]|].
      destruct (strconv_ParseBool (os_Getenv env key)) as [[|]|];
        split; intros H; try discriminate; reflexivity.
    - destruct (decide (os_Getenv env key = "")) as [He|Hne]; [|contradiction].
      rewrite He. split; [split; reflexivity|].
      split; intros H; discriminate. }
  unfold loadAgentCard.
  repeat case_bool_decide; try discriminate.
  intros Hcard. inversion Hcard. subst. simpl. repeat split; apply Hcap.
Qed.

Lemma loadAgentCard_capabilities_witness :
  exists card,
    loadAgentCard env_local = Ok card
    /\ Cap_Streaming (Card_Capabilities card) = Some false
    /\ Cap_PushNotifications (Card_Capabilities card) = None.
Proof.
  destruct (loadAgentCard env_local) as [card|err] eqn:Hload;
    [|vm_compute in Hload; discriminate Hload].
  exists card. split; [reflexivity|].
  destruct (loadAgentCard_capabilities env_local card Hload)
    as ([Hpush _] & _ & [Hnone Htrue]).
  split.
  - destruct (Cap_Streaming (Card_Capabilities card)) as [[|]|].
    + assert (Hbad := proj1 Htrue eq_refl). vm_compute in Hbad. discriminate.
    + reflexivity.
    + assert (Hbad := proj1 Hnone eq_refl). vm_compute in Hbad. discriminate.
  - apply Hpush. reflexivity.
Defined.

(** ** Reading integers from the environment *)

Lemma digits_val_acc (d : Decimal.uint) (acc : positive) :
  digits_val (Z.pos acc) (NilEmpty.string_of_uint d)
  = Some (Z.pos (Pos.of_uint_acc d acc)).
Proof.
  revert acc. induction d; intros acc; simpl; try reflexivity;
    rewrite <- IHd; f_equal; lia.
Qed.

Lemma digits_val_uint (d : Decimal.uint) :
  digits_val 0 (NilEmpty.string_of_uint d) = Some (Z.of_N (Pos.of_uint d)).
Proof.
  induction d; simpl; try reflexivity; try exact IHd;
    rewrite <- digits_val_acc; reflexivity.
Qed.

Lemma digits_val_pos (p : positive) :
  digits_val 0 (NilEmpty.string_of_uint (Pos.to_uint p)) = Some (Z.pos p).
Proof.
  rewrite digits_val_uint, DecimalPos.Unsigned.of_to. reflexivity.
Qed.

Lemma string_of_pos (p : positive) :
  exists c r,
    NilZero.string_of_uint (Pos.to_uint p) = String c r
    /\ NilEmpty.string_of_uint (Pos.to_uint p) = String c r
    /\ (c =? "-")%char = false /\ (c =? "+")%char = false.
Proof.
  pose proof (DecimalPos.Unsigned.to_uint_nonnil p) as Hnn.
  destruct (Pos.to_uint p); [contradiction| | | | | | | | | |];
    simpl; eexists; eexists; repeat split.
Qed.

Lemma strconv_Atoi_fmt_d (n : Z) :
  - 2 ^ 63 <= n < 2 ^ 63 -> strconv_Atoi (fmt_d n) = Some n /\ fmt_d n <> "".
Proof.
  intros Hrange. unfold fmt_d. destruct n as [|p|p]; simpl.
  - split; [reflexivity | discriminate].
  - destruct (string_of_pos p) as (c & r & Hs & Hs' & Hm & Hp).
    pose proof (digits_val_pos p) as Hd. rewrite Hs' in Hd.
    rewrite Hs. split; [|discriminate].
    unfold strconv_Atoi. rewrite Hm, Hp. cbv beta iota zeta. rewrite Hd.
    replace ((- 2 ^ 63 <=? Z.pos p) && (Z.pos p <? 2 ^ 63)) with true; [reflexivity|].
    symmetry. apply andb_true_iff. split; [apply Z.leb_le | apply Z.ltb_lt]; lia.
  - destruct (string_of_pos p) as (c & r & Hs & Hs' & _ & _).
    pose proof (digits_val_pos p) as Hd. rewrite Hs' in Hd.
    rewrite Hs. split; [|discriminate].
    unfold strconv_Atoi.
    change (("-" =? "-")%char) with true. cbv beta iota zeta. rewrite Hd.
    replace ((- 2 ^ 63 <=? - Z.pos p) && (- Z.pos p <? 2 ^ 63)) with true;
      [reflexivity|].
    symmetry. apply andb_true_iff. split; [apply Z.leb_le | apply Z.ltb_lt]; lia.
Qed.

(** X25.  [getEnvOrDefaultInt] reads back every 64-bit integer written in
    decimal, as [%d] prints it, whatever the default; it returns the
    default when the variable is not set, is empty, or holds text that
    [strconv.Atoi] does not read. *)
Theorem getEnvOrDefaultInt_reads (env : gmap string string) (key : string)
    (defaultValue : Z) :
  (forall n, - 2 ^ 63 <= n < 2 ^ 63 -> env !! key = Some (fmt_d n) ->
             getEnvOrDefaultInt env key defaultValue = n)
  /\ (os_Getenv env key = "" \/ strconv_Atoi (os_Getenv env key) = None ->
      getEnvOrDefaultInt env key defaultValue = defaultValue).
Proof.
  unfold getEnvOrDefaultInt. split.
  - intros n Hrange Hset. unfold os_Getenv. rewrite Hset. simpl.
    destruct (strconv_Atoi_fmt_d n Hrange) as [Hread Hne].
    rewrite (bool_decide_eq_true_2 _ Hne), Hread. reflexivity.
  - intros [Hempty|Hbad].
    + rewrite Hempty. reflexivity.
    + rewrite Hbad. case_bool_decide; reflexivity.
Qed.

Lemma getEnvOrDefaultInt_reads_witness :
  getEnvOrDefaultInt (<["PORT" := "-8080"]> ∅ : gmap string string) "PORT" 3 = -8080
  /\ getEnvOrDefaultInt (<["PORT" := "80_80"]> ∅ : gmap string string) "PORT" 3 = 3.
Proof.
  split.
  - apply (proj1 (getEnvOrDefaultInt_reads _ "PORT" 3) (-8080)).
    + lia.
    + vm_compute. reflexivity.
  - apply (proj2 (getEnvOrDefaultInt_reads _ "PORT" 3)).
    right. vm_compute. reflexivity.
Defined.

(** ** Storage metadata *)

(** X26.  The storage key of a task entry determines its task ID, that of
    an event entry its event ID, and a task entry and an event entry never
    have the same key; an event entry starts unprocessed, and both are
    stamped with the reading of the clock in whole seconds. *)
Theorem storage_keys {TS ES PN : Type} (w : World TS ES PN)
    (taskID taskID' : TaskID) (contextID contextID' eventID eventID' eventType : string) :
  let t := fst (NewTaskStorage taskID contextID w) in
  let t' := fst (NewTaskStorage taskID' contextID' w) in
  let e := fst (NewEventStorage eventID taskID eventType w) in
  let e' := fst (NewEventStorage eventID' taskID' eventType w) in
  (TaskStorage_StorageKey t = TaskStorage_StorageKey t' <-> taskID = taskID')
  /\ (EventStorage_StorageKey e = EventStorage_StorageKey e' <-> eventID = eventID')
  /\ TaskStorage_StorageKey t <> EventStorage_StorageKey e
  /\ EventStorage_Processed e = false
  /\ TaskStorage_LastModified t = Unix (clock w (ticks w))
  /\ EventStorage_Timestamp e = Unix (clock w (ticks w)).
Proof.
  simpl. split; [|split; [|split; [|repeat split]]].
  - split; [apply (append_inj "task_") | intros ->; reflexivity].
  - split; [apply (append_inj "event_") | intros ->; reflexivity].
  - discriminate.
Qed.
